(** * Play Store download automation: a shallow embedding and its properties

    The script drives a fixed UI flow (open the search box, type the app
    name, select the result, press Install or Open) on a list of cloud
    devices, one after the other, and reports one result per device.

    Everything the script does to the outside is recorded in a history of
    events: calls to the remote automation provider, console lines, clock
    readings and timers.  The provider's replies are given by a [World];
    the script's code is written in a small state-and-exception monad whose
    state is the history together with the mutable [let] variables of the
    running function.

    Conventions of the embedding:
    - strings are byte strings; [slice], [toLowerCase] and the white-space
      class of [\s] are those of JavaScript on ASCII text;
    - a value that is thrown or that a promise rejects with is any value:
      an [Error] object, [null], [undefined], or something else; the script
      reads nothing of it but [message], which, when the value has one, is
      a string;
    - an assignment to a property of the exported configuration either
      takes effect or, when the object does not accept it (a frozen object,
      a read-only property), is dropped without an error, the script not
      being in strict mode;
    - an error thrown by the [catch] handler of the main module is an
      unhandled rejection, on which Node (15 and later) ends the process
      with exit code 1;
    - handles returned by the provider (sessions and elements) are objects,
      hence truthy; [null] and [undefined] are [None];
    - a number that holds an integer is a [Z]; [Math.round] of a quotient of
      integers is computed exactly, the success rate in double precision;
    - the entries of a device array are strings. *)

From Stdlib Require Import String Ascii ZArith List Bool Lia DecimalString.
From Stdlib Require Import Floats.
Import ListNotations.
Local Open Scope list_scope.
Local Open Scope string_scope.
Set Warnings "-register-all".

(** ** JavaScript strings, numbers and errors *)

Module Js.

(** An [Error] object; the script only ever reads [message]. *)
Record Error : Type := mkError { message : string }.

(** [null] and [undefined]: reading a property of either throws. *)
Inductive Nullish : Type := JsNull | JsUndefined.

(** A value that is thrown, or that a promise rejects with.  Any value can
    be: an [Error] object, [null] or [undefined], or some other value (a
    string, a number, a plain object), whose [message] is [undefined]. *)
Inductive Thrown : Type :=
| ErrorObject (e : Error)
| NullishValue (n : Nullish)
| OtherValue.
Coercion ErrorObject : Error >-> Thrown.

(** The thrown value is an object with a [message]. *)
Definition has_message (value : Thrown) : bool :=
  match value with ErrorObject _ => true | _ => false end.

(** How a statement or a call ends: with a value or with a thrown value. *)
Inductive Completion (A : Type) : Type :=
| Returns (a : A)
| Throws (value : Thrown).
Arguments Returns {A} a.
Arguments Throws {A} value.

(** The double quote character, for building the selector strings. *)
Definition dquote : string := String (ascii_of_nat 34) EmptyString.
Definition newline : string := String (ascii_of_nat 10) EmptyString.

(** A string is truthy when it is not empty. *)
Definition truthy (s : string) : bool :=
  match s with EmptyString => false | String _ _ => true end.

(** [process.env.X] and optional properties: [undefined] is [None]. *)
Definition truthy_opt (o : option string) : bool :=
  match o with None => false | Some s => truthy s end.

(** A string property that may be [undefined], as a template literal or
    [console.log] prints it. *)
Definition show_opt (o : option string) : string :=
  match o with Some s => s | None => "undefined" end.

(** [hay.includes(needle)]. *)
Fixpoint includes (hay needle : string) : bool :=
  prefix needle hay
  || match hay with
     | EmptyString => false
     | String _ rest => includes rest needle
     end.

(** [s.slice(0, n)]. *)
Definition slice0 (s : string) (n : nat) : string := substring 0 n s.

(** [c.repeat(n)]. *)
Fixpoint repeat (c : string) (n : nat) : string :=
  match n with O => EmptyString | S k => c ++ repeat c k end.

(** [xs.join(sep)]. *)
Definition join (xs : list string) (sep : string) : string :=
  String.concat sep xs.

(** A number that holds an integer, as a template literal prints it. *)
Definition show (z : Z) : string := NilZero.string_of_int (Z.to_int z).

(** [Math.round(num / den)] for integers [num] and a positive [den]:
    the nearest integer, halves going up. *)
Definition round_div (num den : Z) : Z := ((2 * num + den) / (2 * den))%Z.

(** [s.toLowerCase()], on the ASCII letters. *)
Definition lower_ascii (c : ascii) : ascii :=
  let n := nat_of_ascii c in
  if (65 <=? n)%nat && (n <=? 90)%nat then ascii_of_nat (n + 32) else c.

Fixpoint toLowerCase (s : string) : string :=
  match s with
  | EmptyString => EmptyString
  | String c rest => String (lower_ascii c) (toLowerCase rest)
  end.

(** The ASCII characters matched by [\s]: tab, line feed, vertical tab,
    form feed, carriage return and space. *)
Definition is_space (c : ascii) : bool :=
  let n := nat_of_ascii c in
  ((9 <=? n)%nat && (n <=? 13)%nat) || (n =? 32)%nat.

(** [s.replace(/\s+/g, '-')]: every maximal run of white space becomes
    one dash.  [in_run] tells that the previous character was a space. *)
Fixpoint dash_runs (in_run : bool) (s : string) : string :=
  match s with
  | EmptyString => EmptyString
  | String c rest =>
      if is_space c
      then (if in_run then dash_runs true rest
            else String "-"%char (dash_runs true rest))
      else String c (dash_runs false rest)
  end.

Definition replace_spaces_with_dash (s : string) : string := dash_runs false s.

(** *** Numbers that are not integers

    The success rate is computed in double precision: the quotient of
    two counts, times one hundred, rounded by [Math.round]. *)

Definition float_of_nat (n : nat) : float :=
  PrimFloat.of_uint63 (Uint63.of_Z (Z.of_nat n)).

(** [String(Math.round(x))]: the nearest integer, halves going up,
    computed exactly from the binary expansion of [x]. *)
Definition show_Math_round (x : float) : string :=
  match Prim2SF x with
  | S754_nan => "NaN"
  | S754_infinity false => "Infinity"
  | S754_infinity true => "-Infinity"
  | S754_zero _ => "0"
  | S754_finite sign m e =>
      let v := if sign then Z.neg m else Z.pos m in
      show (if (0 <=? e)%Z then v * 2 ^ e
            else (2 * v + 2 ^ (- e)) / 2 ^ (- e + 1))%Z
  end.

(** *** [JSON.stringify(value, null, 2)] *)

Inductive Json : Type :=
| JString (s : string)
| JNumber (z : Z)
| JBool (b : bool)
| JArray (items : list Json)
| JObject (fields : list (string * Json)).

Definition hex_digit (n : nat) : ascii :=
  if (n <? 10)%nat then ascii_of_nat (48 + n) else ascii_of_nat (87 + n).

(** One character inside a JSON string literal. *)
Definition json_escape (c : ascii) : string :=
  let n := nat_of_ascii c in
  if (n =? 34)%nat then "\" ++ dquote
  else if (n =? 92)%nat then "\\"
  else if (n =? 8)%nat then "\b"
  else if (n =? 9)%nat then "\t"
  else if (n =? 10)%nat then "\n"
  else if (n =? 12)%nat then "\f"
  else if (n =? 13)%nat then "\r"
  else if (n <? 32)%nat
       then "\u00" ++ String (hex_digit (n / 16))
                        (String (hex_digit (n mod 16)) EmptyString)
  else String c EmptyString.

Fixpoint json_escape_all (s : string) : string :=
  match s with
  | EmptyString => EmptyString
  | String c rest => json_escape c ++ json_escape_all rest
  end.

Definition json_quote (s : string) : string :=
  dquote ++ json_escape_all s ++ dquote.

(** [indent] is the indentation of the line the value starts on. *)
Fixpoint stringify_at (indent : string) (v : Json) : string :=
  let inner := indent ++ "  " in
  match v with
  | JString s => json_quote s
  | JNumber z => show z
  | JBool b => if b then "true" else "false"
  | JArray [] => "[]"
  | JArray items =>
      "[" ++ newline
      ++ join (map (fun x => inner ++ stringify_at inner x) items)
              ("," ++ newline)
      ++ newline ++ indent ++ "]"
  | JObject [] => "{}"
  | JObject fields =>
      "{" ++ newline
      ++ join (map (fun kv => inner ++ json_quote (fst kv) ++ ": "
                              ++ stringify_at inner (snd kv)) fields)
              ("," ++ newline)
      ++ newline ++ indent ++ "}"
  end.

Definition JSON_stringify_2 (v : Json) : string := stringify_at EmptyString v.

End Js.

Import Js.

(** ** Data model *)

(** *** Configuration *)

(** The [settings] block.  A property that is not set is [None]. *)
Record Settings : Type := mkSettings {
  appToSearch : option string;
  timeout : option Z;
  platformVersion : option string;
  waitTime : option Z;
  retries : option Z
}.

(** What a configuration module may hold in its [devices] property: nothing,
    an array of device names, an object of named categories (the shape
    config.js ships), or some other value without a [join] method, of which
    only its truthiness and the way its [length] prints matter. *)
Inductive DevicesField : Type :=
| DevicesUndefined
| DevicesArray (names : list string)
| DevicesObject (categories : list (string * list string))
| DevicesOther (is_truthy : bool) (length_text : string).

(** The object exported by config.js, as [require('./config')] returns it.
    The two flags tell whether an assignment to [devices] and to [settings]
    takes effect: it does on an ordinary object, and is dropped on a frozen
    one. *)
Record ConfigModule : Type := mkConfigModule {
  cm_username : option string;
  cm_accessKey : option string;
  cm_tunnelName : option string;
  cm_devices : DevicesField;
  cm_settings : option Settings;
  cm_devices_writable : bool;
  cm_settings_writable : bool
}.

(** What [require('./config')] returns: an object, or [null] or
    [undefined], of which no property can be read. *)
Inductive Exported : Type :=
| ExportedObject (module : ConfigModule)
| ExportedNullish (n : Nullish).
Coercion ExportedObject : ConfigModule >-> Exported.

(** A configuration of the shape the script expects, such as the built-in
    one: [devices] is an array and [settings] is present. *)
Record Config : Type := mkConfig {
  devices : list string;
  settings : Settings
}.

(** The module-level [config] once the loading block has run: whatever its
    [devices] and [settings] hold by then. *)
Record ConfigObject : Type := mkConfigObject {
  the_devices : DevicesField;
  the_settings : option Settings
}.

Definition as_object (c : Config) : ConfigObject :=
  {| the_devices := DevicesArray (devices c); the_settings := Some (settings c) |}.
Coercion as_object : Config >-> ConfigObject.

Definition DEFAULT_CONFIG : Config :=
  {| devices := ["Galaxy S23"; "Galaxy S22"; "Pixel 7"; "Pixel 6"; "Galaxy S24"];
     settings := {| appToSearch := Some "Google Chrome";
                    timeout := Some 30000%Z;
                    platformVersion := Some "13";
                    waitTime := Some 5000%Z;
                    retries := None |} |}.

(** src/config.js, given the three environment variables it reads. *)
Definition or_default (o : option string) (d : string) : string :=
  match o with
  | Some s => if truthy s then s else d
  | None => d
  end.

Definition shipped_config (LT_USERNAME LT_ACCESS_KEY LT_TUNNEL : option string)
  : ConfigModule :=
  {| cm_username := Some (or_default LT_USERNAME "l_shipilov");
     cm_accessKey := Some (or_default LT_ACCESS_KEY "your-key-here");
     cm_tunnelName :=
       Some (or_default LT_TUNNEL "cacd17af-2f7f-4aab-886f-b6b5c907957e");
     cm_devices :=
       DevicesObject
         [ ("samsung", ["Samsung Galaxy S20"; "Samsung Galaxy S21";
                        "Samsung Galaxy Note 20"; "Samsung Galaxy S20+";
                        "Samsung Galaxy S25"]);
           ("premium", ["OnePlus 9"; "iPhone 12"; "iPhone 13"]);
           ("others", ["Huawei P40"]) ];
     cm_settings := Some {| appToSearch := Some "Google Chrome";
                            timeout := Some 30000%Z;
                            platformVersion := Some "12";
                            waitTime := None;
                            retries := Some 3%Z |};
     cm_devices_writable := true;
     cm_settings_writable := true |}.

(** *** Device table *)

Record DeviceConfig : Type := mkDeviceConfig {
  version : option string;
  reliable : option bool
}.

Definition DEVICE_MAP : list (string * DeviceConfig) :=
  [ ("Galaxy S24", {| version := Some "14"; reliable := Some true |});
    ("Galaxy S23", {| version := Some "13"; reliable := Some true |});
    ("Galaxy S22", {| version := Some "12"; reliable := Some true |});
    ("Pixel 7", {| version := Some "13"; reliable := Some true |});
    ("Pixel 6", {| version := Some "12"; reliable := Some true |});
    ("OnePlus 11", {| version := Some "13"; reliable := Some false |});
    ("Galaxy Note 20", {| version := Some "11"; reliable := Some false |}) ].

(** [DEVICE_MAP] is an object literal, so a lookup by an arbitrary name also
    sees the properties inherited from [Object.prototype].  Each of them
    is a truthy value without a [version]. *)
Definition Object_prototype_keys : list string :=
  [ "constructor"; "hasOwnProperty"; "isPrototypeOf"; "propertyIsEnumerable";
    "toLocaleString"; "toString"; "valueOf"; "__proto__";
    "__defineGetter__"; "__defineSetter__"; "__lookupGetter__";
    "__lookupSetter__" ].

Fixpoint assoc {A : Type} (k : string) (l : list (string * A)) : option A :=
  match l with
  | [] => None
  | (k', v) :: rest => if String.eqb k k' then Some v else assoc k rest
  end.

Definition mem_string (k : string) (l : list string) : bool :=
  existsb (String.eqb k) l.

(** [DEVICE_MAP[deviceName] || { version: '12', reliable: false }] *)
Definition deviceConfig_of (deviceName : string) : DeviceConfig :=
  match assoc deviceName DEVICE_MAP with
  | Some cfg => cfg
  | None =>
      if mem_string deviceName Object_prototype_keys
      then {| version := None; reliable := None |}
      else {| version := Some "12"; reliable := Some false |}
  end.

(** *** Session request *)

Record LTOptions : Type := mkLTOptions {
  lt_user : string;
  lt_accessKey : string;
  lt_build : string;
  lt_name : string;
  lt_deviceName : string;
  lt_platformVersion : option string;
  lt_isRealMobile : bool;
  lt_w3c : bool;
  lt_visual : bool;
  lt_video : bool;
  lt_network : bool;
  lt_console : bool;
  lt_timezone : string;
  lt_location : string;
  lt_timeout : Z;
  lt_idleTimeout : Z;
  lt_project : string;
  lt_tags : list string
}.

Record Capabilities : Type := mkCapabilities {
  platformName : string;
  appium_appPackage : string;
  appium_appActivity : string;
  appium_automationName : string;
  LT_Options : LTOptions
}.

Record RemoteOptions : Type := mkRemoteOptions {
  protocol : string;
  hostname : string;
  port : Z;
  path : string;
  capabilities : Capabilities;
  connectionRetryTimeout : Z;
  connectionRetryCount : Z;
  logLevel : string
}.

(** The capabilities as a JSON value; a property whose value is
    [undefined] is left out, as [JSON.stringify] does. *)
Definition json_optional (key : string) (o : option string)
  : list (string * Json) :=
  match o with Some s => [(key, JString s)] | None => [] end.

Definition json_of_LTOptions (o : LTOptions) : Json :=
  JObject
    ([ ("user", JString (lt_user o));
       ("accessKey", JString (lt_accessKey o));
       ("build", JString (lt_build o));
       ("name", JString (lt_name o));
       ("deviceName", JString (lt_deviceName o)) ]
     ++ json_optional "platformVersion" (lt_platformVersion o)
     ++ [ ("isRealMobile", JBool (lt_isRealMobile o));
          ("w3c", JBool (lt_w3c o));
          ("visual", JBool (lt_visual o));
          ("video", JBool (lt_video o));
          ("network", JBool (lt_network o));
          ("console", JBool (lt_console o));
          ("timezone", JString (lt_timezone o));
          ("location", JString (lt_location o));
          ("timeout", JNumber (lt_timeout o));
          ("idleTimeout", JNumber (lt_idleTimeout o));
          ("project", JString (lt_project o));
          ("tags", JArray (map JString (lt_tags o))) ])%list.

Definition json_of_Capabilities (c : Capabilities) : Json :=
  JObject
    [ ("platformName", JString (platformName c));
      ("appium:appPackage", JString (appium_appPackage c));
      ("appium:appActivity", JString (appium_appActivity c));
      ("appium:automationName", JString (appium_automationName c));
      ("LT:Options", json_of_LTOptions (LT_Options c)) ].

(** *** Results *)

Record RunResult : Type := mkRunResult {
  device : string;
  success : bool;
  duration : Z;
  error : option string;
  sessionId : option string
}.

(** ** The outside world *)

(** Handles handed out by the automation provider: a session ([driver])
    and an element of the device's screen. *)
Record Driver : Type := mkDriver { driver_id : nat }.
Record Element : Type := mkElement { element_id : nat }.

(** The calls the script makes to the provider. *)
Inductive Request : Type :=
| Remote (opts : RemoteOptions)              (* remote({...})            *)
| GetSessionId (d : Driver)                  (* driver.getSessionId()    *)
| Pause (d : Driver) (ms : Z)                (* driver.pause(ms)         *)
| Dollar (d : Driver) (selector : string)    (* driver.$(selector)       *)
| IsDisplayed (el : Element)                 (* element.isDisplayed()    *)
| Click (el : Element)                       (* element.click()          *)
| SetValue (el : Element) (value : string)   (* element.setValue(value)  *)
| PressKeyCode (d : Driver) (code : Z)       (* driver.pressKeyCode(n)   *)
| DeleteSession (d : Driver).                (* driver.deleteSession()   *)

(** What each call resolves to when it does not reject. *)
Definition reply_type (r : Request) : Type :=
  match r with
  | Remote _ => Driver
  | GetSessionId _ => string
  | Dollar _ _ => Element
  | IsDisplayed _ => bool
  | Pause _ _ | Click _ | SetValue _ _ | PressKeyCode _ _ | DeleteSession _ => unit
  end.

(** Everything observable that the script does, most recent first. *)
Inductive Event : Type :=
| Called (r : Request)
| ConsoleLog (line : string)
| ConsoleError (line : string)
| DateNow
| SetTimeout (ms : Z).

Definition History : Type := list Event.

(** The calls among the events, most recent first. *)
Fixpoint calls_of (h : History) : list Request :=
  match h with
  | [] => []
  | Called r :: rest => r :: calls_of rest
  | _ :: rest => calls_of rest
  end.

(** The environment of one execution.  The provider answers a call
    knowing the calls made before it; the clock answers a reading knowing
    everything that happened before it.  The wording of the two kinds of
    [TypeError] that the script can run into is the engine's:
    [cannot_read n p] for reading property [p] of [null] or [undefined], and
    [not_a_function e] for calling [e] when it is not a function. *)
Record World : Type := mkWorld {
  LT_USERNAME : option string;
  LT_ACCESS_KEY : option string;
  require_config : Completion Exported;
  provider : forall (past : list Request) (r : Request), Completion (reply_type r);
  clock : History -> Z;
  toLocaleDateString : Z -> string;
  toLocaleTimeString : Z -> string;
  cannot_read : Nullish -> string -> string;
  not_a_function : string -> string
}.

(** ** The monad of the script *)

(** The state of a running function: its [let] variables and the history. *)
Record Mem (L : Type) : Type := mkMem { locals : L; history : History }.
Arguments mkMem {L} locals history.
Arguments locals {L} m.
Arguments history {L} m.

Definition M (L A : Type) : Type := Mem L -> Completion A * Mem L.

Definition ret {L A} (a : A) : M L A := fun s => (Returns a, s).

Definition bind {L A B} (m : M L A) (k : A -> M L B) : M L B :=
  fun s =>
    match m s with
    | (Returns a, s') => k a s'
    | (Throws value, s') => (Throws value, s')
    end.

Declare Scope js_scope.
Delimit Scope js_scope with js.
Notation "x <- m ;; k" := (bind m (fun x => k))
  (at level 100, m at next level, right associativity) : js_scope.
Notation "m ;; k" := (bind m (fun _ => k))
  (at level 100, right associativity) : js_scope.
Local Open Scope js_scope.

(** [throw new Error(msg)], and an error that the engine throws. *)
Definition throw {L A} (msg : string) : M L A :=
  fun s => (Throws (mkError msg), s).

(** [try { m } catch (e) { handler e }]: what [m] did before it threw
    stays done, and [e] is whatever value was thrown. *)
Definition try_catch {L A} (m : M L A) (handler : Thrown -> M L A) : M L A :=
  fun s =>
    match m s with
    | (Returns a, s') => (Returns a, s')
    | (Throws value, s') => handler value s'
    end.

(** [try { m } finally { cleanup }]: [cleanup] runs however [m] ended, and
    [m]'s completion stands unless [cleanup] itself throws. *)
Definition try_finally {L A} (m : M L A) (cleanup : M L unit) : M L A :=
  fun s =>
    match m s with
    | (r, s') =>
        match cleanup s' with
        | (Returns _, s'') => (r, s'')
        | (Throws value, s'') => (Throws value, s'')
        end
    end.

Definition get_locals {L} : M L L := fun s => (Returns (locals s), s).

Definition modify_locals {L} (f : L -> L) : M L unit :=
  fun s => (Returns tt, mkMem (f (locals s)) (history s)).

Definition emit {L} (ev : Event) : M L unit :=
  fun s => (Returns tt, mkMem (locals s) (ev :: history s)).

Definition console_log {L} (line : string) : M L unit := emit (ConsoleLog line).
Definition console_error {L} (line : string) : M L unit := emit (ConsoleError line).

(** A function call: the callee runs on variables of its own, which are
    gone when it returns or throws. *)
Definition invoke {L L' A} (fresh : L') (m : M L' A) : M L A :=
  fun s =>
    match m (mkMem fresh (history s)) with
    | (r, s') => (r, mkMem (locals s) (history s'))
    end.

(** Loops. *)
Inductive LoopControl : Type := Continue | Break.

Fixpoint for_of {L A} (xs : list A) (body : A -> M L LoopControl) : M L unit :=
  match xs with
  | [] => ret tt
  | x :: rest =>
      c <- body x ;;
      match c with
      | Break => ret tt
      | Continue => for_of rest body
      end
  end.

Section Script.

Variable W : World.

(** [Date.now()] *)
Definition Date_now {L} : M L Z :=
  fun s => (Returns (clock W (history s)), mkMem (locals s) (DateNow :: history s)).

(** [await] of a call to the provider. *)
Definition await {L} (r : Request) : M L (reply_type r) :=
  fun s =>
    (provider W (calls_of (history s)) r,
     mkMem (locals s) (Called r :: history s)).

(** The provider's operations, as the script calls them. *)
Definition remote {L} (opts : RemoteOptions) : M L Driver := await (Remote opts).
Definition getSessionId {L} (d : Driver) : M L string := await (GetSessionId d).
Definition pause {L} (d : Driver) (ms : Z) : M L unit := await (Pause d ms).
Definition dollar {L} (d : Driver) (sel : string) : M L Element :=
  await (Dollar d sel).
Definition isDisplayed {L} (el : Element) : M L bool := await (IsDisplayed el).
Definition click {L} (el : Element) : M L unit := await (Click el).
Definition setValue {L} (el : Element) (value : string) : M L unit :=
  await (SetValue el value).
Definition pressKeyCode {L} (d : Driver) (code : Z) : M L unit :=
  await (PressKeyCode d code).
Definition deleteSession {L} (d : Driver) : M L unit := await (DeleteSession d).

(** [await new Promise(resolve => setTimeout(resolve, ms))] *)
Definition sleep {L} (ms : Z) : M L unit := emit (SetTimeout ms).

(** [new Date().toLocaleDateString()] and [toLocaleTimeString()] *)
Definition new_Date_toLocaleDateString {L} : M L string :=
  t <- Date_now ;; ret (toLocaleDateString W t).
Definition new_Date_toLocaleTimeString {L} : M L string :=
  t <- Date_now ;; ret (toLocaleTimeString W t).

(** ** Reading a caught value *)

(** [value.message]: a [TypeError] when [value] is [null] or [undefined],
    [undefined] when it has no message. *)
Definition message_of {L} (value : Thrown) : M L (option string) :=
  match value with
  | ErrorObject e => ret (Some (message e))
  | NullishValue n => throw (cannot_read W n "message")
  | OtherValue => ret None
  end.

(** The receiver of a method call [m.method(...)] on a message: a string
    has the method, [undefined] has no properties. *)
Definition receiver {L} (m : option string) (method : string) : M L string :=
  match m with
  | Some text => ret text
  | None => throw (cannot_read W JsUndefined method)
  end.

(** ** Loading the configuration (module level) *)

(** [!config.devices] negated, [Array.isArray(config.devices)] and
    [config.devices.length === 0]. *)
Definition devices_truthy (d : DevicesField) : bool :=
  match d with
  | DevicesUndefined => false
  | DevicesArray _ => true
  | DevicesObject _ => true
  | DevicesOther b _ => b
  end.

Definition Array_isArray (d : DevicesField) : bool :=
  match d with DevicesArray _ => true | _ => false end.

(** The names of an array; the test before it lets nothing else through. *)
Definition array_names (d : DevicesField) : list string :=
  match d with DevicesArray names => names | _ => [] end.

Definition invalid_devices (d : DevicesField) : bool :=
  negb (devices_truthy d) || negb (Array_isArray d)
  || (List.length (array_names d) =? 0)%nat.

Definition require_config_module {L} : M L Exported :=
  fun s => (require_config W, s).

(** [config.devices], the first property read of what was loaded. *)
Definition exported_object {L} (exported : Exported) : M L ConfigModule :=
  match exported with
  | ExportedObject loaded => ret loaded
  | ExportedNullish n => throw (cannot_read W n "devices")
  end.

(** [object.property = value], where the object holds [current]: the
    property holds [value] afterwards only when the object accepts the
    assignment. *)
Definition assign_property {A} (writable : bool) (current value : A) : A :=
  if writable then value else current.

Definition load_config {L} : M L ConfigObject :=
  try_catch
    (exported <- require_config_module ;;
     console_log "config.js file loaded" ;;
     loaded <- exported_object exported ;;
     (* Ensure devices is an array *)
     devs <- (if invalid_devices (cm_devices loaded)
              then console_log " Invalid config.devices, using default devices" ;;
                   ret (assign_property (cm_devices_writable loaded)
                          (cm_devices loaded)
                          (DevicesArray (devices DEFAULT_CONFIG)))
              else ret (cm_devices loaded)) ;;
     (* Ensure settings exist *)
     let setts := match cm_settings loaded with
                  | Some st => Some st
                  | None => assign_property (cm_settings_writable loaded)
                              None (Some (settings DEFAULT_CONFIG))
                  end in
     ret {| the_devices := devs; the_settings := setts |})
    (fun _ =>
       console_log "⚠️ config.js not found, using default settings" ;;
       ret (as_object DEFAULT_CONFIG)).

Section WithConfig.

(** ** The flow on one device *)

Variable config : ConfigObject.

(** The [let] variables of [runPlayStoreDownloadFlow]. *)
Record FlowVars : Type := mkFlowVars {
  driver : option Driver;
  searchElement : option Element;
  appElement : option Element
}.

Definition fresh_vars : FlowVars :=
  {| driver := None; searchElement := None; appElement := None |}.

Definition set_driver (d : Driver) (v : FlowVars) : FlowVars :=
  {| driver := Some d; searchElement := searchElement v; appElement := appElement v |}.
Definition set_searchElement (el : Element) (v : FlowVars) : FlowVars :=
  {| driver := driver v; searchElement := Some el; appElement := appElement v |}.
Definition set_appElement (el : Element) (v : FlowVars) : FlowVars :=
  {| driver := driver v; searchElement := searchElement v; appElement := Some el |}.

Record Strategy : Type := mkStrategy { name : string; selector : string }.

(** An environment variable that is set to a non-empty string. *)
Definition present (o : option string) : option string :=
  match o with
  | Some v => if truthy v then Some v else None
  | None => None
  end.

Definition capabilities_for (deviceName username accessKey : string) (now : Z)
  : Capabilities :=
  {| platformName := "Android";
     appium_appPackage := "com.android.vending";
     appium_appActivity := "com.google.android.finsky.activities.MainActivity";
     appium_automationName := "UiAutomator2";
     LT_Options :=
       {| lt_user := username;
          lt_accessKey := accessKey;
          lt_build := "PlayStore-Download-" ++ show now;
          lt_name := "PlayStore Download Test - " ++ deviceName;
          lt_deviceName := deviceName;
          lt_platformVersion := version (deviceConfig_of deviceName);
          lt_isRealMobile := true;
          lt_w3c := true;
          lt_visual := true;
          lt_video := true;
          lt_network := true;
          lt_console := true;
          lt_timezone := "UTC+01:00";
          lt_location := "MA";
          lt_timeout := 900;
          lt_idleTimeout := 300;
          lt_project := "Mobile Automation";
          lt_tags := ["playstore"; "download";
                      replace_spaces_with_dash (toLowerCase deviceName)] |} |}.

Definition remote_options (caps : Capabilities) : RemoteOptions :=
  {| protocol := "https";
     hostname := "mobile-hub.lambdatest.com";
     port := 443;
     path := "/wd/hub";
     capabilities := caps;
     connectionRetryTimeout := 120000;
     connectionRetryCount := 5;
     logLevel := "info" |}.

(** Lines 72-133: credentials, capabilities, session, warm-up. *)
Definition open_session (deviceName : string) : M FlowVars (Driver * string) :=
  (* Validate credentials from environment variables *)
  match present (LT_USERNAME W), present (LT_ACCESS_KEY W) with
  | Some username, Some accessKey =>
      console_log (" Starting test on: " ++ deviceName) ;;
      console_log ("User: " ++ username) ;;
      console_log (" Access Key: " ++ slice0 accessKey 10 ++ "...") ;;
      now <- Date_now ;;
      let caps := capabilities_for deviceName username accessKey now in
      console_log (" Device capabilities: "
                   ++ JSON_stringify_2 (json_of_Capabilities caps)) ;;
      d <- remote (remote_options caps) ;;
      modify_locals (set_driver d) ;;
      console_log ("Successfully connected to " ++ deviceName) ;;
      sid <- getSessionId d ;;
      console_log (" Session ID: " ++ sid) ;;
      console_log "Waiting for Play Store to load..." ;;
      pause d 10000 ;;
      ret (d, sid)
  | _, _ => throw " LambdaTest credentials missing! Check your .env file"
  end.

(** The loop of lines 146-158 and, with other texts and another
    variable, of lines 190-202: one pass of its body for one strategy. *)
Record ScanText : Type := mkScanText {
  found_prefix : string;
  clicked_line : string;
  failed_prefix : string
}.

Definition attempt (d : Driver) (assign : Element -> FlowVars -> FlowVars)
    (text : ScanText) (strategy : Strategy) : M FlowVars LoopControl :=
  try_catch
    (el <- dollar d (selector strategy) ;;
     modify_locals (assign el) ;;
     visible <- isDisplayed el ;;
     if visible : bool then
       console_log (found_prefix text ++ name strategy) ;;
       click el ;;
       console_log (clicked_line text) ;;
       ret Break
     else ret Continue)
    (fun e =>
       m <- message_of e ;;
       msg <- receiver m "slice" ;;
       console_log (failed_prefix text ++ name strategy ++ ": "
                    ++ slice0 msg 50 ++ "...") ;;
       ret Continue).

Definition scan (d : Driver) (assign : Element -> FlowVars -> FlowVars)
    (text : ScanText) (strategies : list Strategy) : M FlowVars unit :=
  for_of strategies (attempt d assign text).

Definition searchStrategies : list Strategy :=
  [ {| name := "Main Search Box";
       selector := "android=new UiSelector().resourceId(" ++ dquote
                   ++ "com.android.vending:id/search_box_idle_text" ++ dquote ++ ")" |};
    {| name := "General Search Box";
       selector := "android=new UiSelector().resourceId(" ++ dquote
                   ++ "com.android.vending:id/search_box" ++ dquote ++ ")" |};
    {| name := "Search Text";
       selector := "android=new UiSelector().textContains(" ++ dquote
                   ++ "Search" ++ dquote ++ ")" |};
    {| name := "Search Description";
       selector := "android=new UiSelector().descriptionContains(" ++ dquote
                   ++ "Search" ++ dquote ++ ")" |};
    {| name := "XPath Resource ID";
       selector := "//*[@resource-id=" ++ dquote
                   ++ "com.android.vending:id/search_box_idle_text" ++ dquote ++ "]" |} ].

Definition search_text : ScanText :=
  {| found_prefix := " Element found: ";
     clicked_line := " Search box clicked";
     failed_prefix := "Attempt failed for " |}.

(** Step 1 (lines 135-162): find and click the search box. *)
Definition find_search_box (d : Driver) : M FlowVars unit :=
  console_log " Searching for the search box..." ;;
  scan d set_searchElement search_text searchStrategies ;;
  v <- get_locals ;;
  match searchElement v with
  | None => throw " Search box not found."
  | Some _ => ret tt
  end.

(** [config.settings?.appToSearch || "Google Chrome"] *)
Definition appToSearch_setting : string :=
  or_default (match the_settings config with
              | Some st => appToSearch st
              | None => None
              end) "Google Chrome".

Definition input_selector : string :=
  "android=new UiSelector().className(" ++ dquote
  ++ "android.widget.EditText" ++ dquote ++ ")".

(** Step 2 (lines 164-178): type the query and press enter. *)
Definition type_query (d : Driver) (app : string) : M FlowVars unit :=
  console_log ("Typing " ++ dquote ++ app ++ dquote ++ " and searching...") ;;
  inputField <- dollar d input_selector ;;
  shown <- isDisplayed inputField ;;
  (if shown : bool then
     setValue inputField app ;;
     pressKeyCode d 66 ;;
     console_log " Search successful"
   else throw " Text field not found.") ;;
  pause d 5000.

Definition appResultStrategies (app : string) : list Strategy :=
  [ {| name := "Text match";
       selector := "android=new UiSelector().textContains(" ++ dquote ++ app
                   ++ dquote ++ ").className(" ++ dquote
                   ++ "android.widget.TextView" ++ dquote ++ ")" |};
    {| name := "Description match";
       selector := "android=new UiSelector().descriptionContains(" ++ dquote
                   ++ app ++ dquote ++ ").className(" ++ dquote
                   ++ "android.view.View" ++ dquote ++ ")" |} ].

Definition app_text : ScanText :=
  {| found_prefix := "App found: ";
     clicked_line := "App clicked";
     failed_prefix := " Attempt failed for " |}.

(** Step 3 (lines 180-208): find and click the app among the results. *)
Definition select_app (d : Driver) (app : string) : M FlowVars unit :=
  console_log (" Searching for " ++ dquote ++ app ++ dquote ++ " in results...") ;;
  scan d set_appElement app_text (appResultStrategies app) ;;
  v <- get_locals ;;
  match appElement v with
  | None => throw (dquote ++ app ++ dquote ++ " not found in results.")
  | Some _ => ret tt
  end ;;
  pause d 5000.

Definition install_selector : string :=
  "android=new UiSelector().text(" ++ dquote ++ "Install" ++ dquote
  ++ ").className(" ++ dquote ++ "android.widget.Button" ++ dquote ++ ")".

Definition open_selector : string :=
  "android=new UiSelector().textContains(" ++ dquote ++ "Open" ++ dquote
  ++ ").className(" ++ dquote ++ "android.widget.Button" ++ dquote ++ ")".

(** Step 4 (lines 210-236): press Install, or else Open. *)
Definition install_or_open (d : Driver) : M FlowVars unit :=
  console_log " Searching for the 'Install' button..." ;;
  installButton <- dollar d install_selector ;;
  isInstallButtonVisible <- isDisplayed installButton ;;
  if isInstallButtonVisible : bool then
    console_log " 'Install' button found" ;;
    click installButton ;;
    console_log " 'Install' button clicked. Download will start automatically."
  else
    console_log " 'Install' button not present or app is already installed." ;;
    console_log " Searching for 'Open' or 'Update' button as an alternative..." ;;
    openOrUpdateButton <- dollar d open_selector ;;
    isButtonVisible <- isDisplayed openOrUpdateButton ;;
    if isButtonVisible : bool then
      console_log " 'Open' or 'Update' button found." ;;
      click openOrUpdateButton ;;
      console_log " Button clicked. The app will now open or update."
    else
      console_log " No valid button found." ;;
      throw " 'Install' or 'Open' button not found.".

(** [Math.round((endTime - startTime) / 1000)] *)
Definition seconds_between (startTime endTime : Z) : Z :=
  round_div (endTime - startTime) 1000.

(** Lines 238-252: observe, then report success. *)
Definition conclude (deviceName : string) (startTime : Z) (d : Driver)
    (sid : string) : M FlowVars RunResult :=
  console_log "Observing results for 30 seconds..." ;;
  pause d 30000 ;;
  endTime <- Date_now ;;
  let duration := seconds_between startTime endTime in
  console_log ("Test finished on " ++ deviceName ++ " in " ++ show duration
               ++ " seconds") ;;
  ret {| device := deviceName;
         success := true;
         duration := duration;
         error := None;
         sessionId := Some sid |}.

(** The [try] block, lines 71-252. *)
Definition flow_try (deviceName : string) (startTime : Z) : M FlowVars RunResult :=
  ds <- open_session deviceName ;;
  let d := fst ds in
  let sid := snd ds in
  find_search_box d ;;
  type_query d appToSearch_setting ;;
  select_app d appToSearch_setting ;;
  install_or_open d ;;
  conclude deviceName startTime d sid.

(** The hint printed after the error, lines 261-269. *)
Definition error_hint (msg : string) : option string :=
  if includes msg "authentication" || includes msg "401"
  then Some " Authentication error - check LambdaTest credentials"
  else if includes msg "device" || includes msg "Device not found"
  then Some "Device unavailable - try another device"
  else if includes msg "timeout" || includes msg "ECONNRESET"
  then Some "Connection timeout - check your internet connection"
  else if includes msg "session" || includes msg "concurrent"
  then Some "Concurrent session limit exceeded"
  else None.

(** The [catch] block, lines 254-277. *)
Definition flow_catch (deviceName : string) (startTime : Z) (err : Thrown)
  : M FlowVars RunResult :=
  endTime <- Date_now ;;
  let duration := seconds_between startTime endTime in
  console_error (" Error on " ++ deviceName ++ " after " ++ show duration
                 ++ " seconds:") ;;
  m <- message_of err ;;
  console_error (" " ++ show_opt m) ;;
  msg <- receiver m "includes" ;;
  match error_hint msg with
  | Some hint => console_error hint
  | None => ret tt
  end ;;
  ret {| device := deviceName;
         success := false;
         duration := duration;
         error := Some msg;
         sessionId := None |}.

(** The [finally] block, lines 279-288. *)
Definition flow_finally (deviceName : string) : M FlowVars unit :=
  v <- get_locals ;;
  match driver v with
  | Some d =>
      try_catch
        (deleteSession d ;;
         console_log (" Session for " ++ deviceName ++ " closed"))
        (fun closeError =>
           m <- message_of closeError ;;
           console_log (" Problem closing session for " ++ deviceName ++ ":"
                        ++ " " ++ show_opt m))
  | None => ret tt
  end.

(** The body of [runPlayStoreDownloadFlow], on its own variables. *)
Definition flow (deviceName : string) : M FlowVars RunResult :=
  startTime <- Date_now ;;
  try_finally
    (try_catch (flow_try deviceName startTime) (flow_catch deviceName startTime))
    (flow_finally deviceName).

Definition runPlayStoreDownloadFlow {L} (deviceName : string) : M L RunResult :=
  invoke fresh_vars (flow deviceName).

(** ** The batch over all devices *)

(** The [let] and array variables of [runAllDevices]. *)
Record BatchVars : Type := mkBatchVars {
  results : list RunResult;
  successCount : nat;
  failureCount : nat
}.

Definition fresh_batch : BatchVars :=
  {| results := []; successCount := 0; failureCount := 0 |}.

Definition push (r : RunResult) (v : BatchVars) : BatchVars :=
  {| results := (results v ++ [r])%list;
     successCount := successCount v;
     failureCount := failureCount v |}.
Definition incr_successCount (v : BatchVars) : BatchVars :=
  {| results := results v;
     successCount := S (successCount v);
     failureCount := failureCount v |}.
Definition incr_failureCount (v : BatchVars) : BatchVars :=
  {| results := results v;
     successCount := successCount v;
     failureCount := S (failureCount v) |}.

Definition show_nat (n : nat) : string := show (Z.of_nat n).

(** One pass of the loop of lines 310-350, for index [i].  The runner is a
    function of its own: it is called on variables of its own and cannot
    touch those of the batch. *)
Definition batch_step (run : string -> M unit RunResult)
    (devices : list string) (i : nat) : M BatchVars LoopControl :=
  let device := nth i devices EmptyString in
  let deviceNumber := (i + 1)%nat in
  console_log (newline ++ repeat "=" 60) ;;
  console_log (" Device " ++ show_nat deviceNumber ++ "/"
               ++ show_nat (List.length devices) ++ ": " ++ device) ;;
  console_log (repeat "=" 60) ;;
  try_catch
    (result <- invoke tt (run device) ;;
     modify_locals (push result) ;;
     (if success result then
        modify_locals incr_successCount ;;
        console_log (" " ++ device ++ ": Succeeded in "
                     ++ show (duration result) ++ "s")
      else
        modify_locals incr_failureCount ;;
        console_log (" " ++ device ++ ": Failed in "
                     ++ show (duration result) ++ "s")) ;;
     (* Wait between tests (except for last one) *)
     if (Z.of_nat i <? Z.of_nat (List.length devices) - 1)%Z then
       let waitTime := 15%Z in
       console_log ("⏳ Waiting for " ++ show waitTime
                    ++ " seconds before next test...") ;;
       sleep (waitTime * 1000)
     else ret tt)
    (fun err =>
       modify_locals incr_failureCount ;;
       m <- message_of err ;;
       let failedResult := {| device := device;
                              success := false;
                              duration := 0;
                              error := m;
                              sessionId := None |} in
       modify_locals (push failedResult) ;;
       msg <- receiver m "slice" ;;
       console_error (" " ++ device ++ ": Completely failed - "
                      ++ slice0 msg 100 ++ "...")) ;;
  ret Continue.

(** One line of the device details, lines 366-370. *)
Definition detail_line (index : nat) (result : RunResult) : string :=
  let status := if success result then "yes" else "no" in
  let duration := if (duration result =? 0)%Z then 0%Z else duration result in
  status ++ " " ++ show_nat (index + 1) ++ ". " ++ device result ++ ": "
  ++ show duration ++ "s "
  ++ match error result with
     | Some msg => if truthy msg then "(" ++ slice0 msg 50 ++ "...)" else EmptyString
     | None => EmptyString
     end.

(** The final summary, lines 352-373. *)
Definition report (startTime : Z) (devices : list string) : M BatchVars unit :=
  endTime <- Date_now ;;
  let totalDuration := seconds_between startTime endTime in
  v <- get_locals ;;
  console_log (newline ++ repeat "=" 80) ;;
  console_log " Final Results Report" ;;
  console_log (repeat "=" 80) ;;
  console_log (" Total Duration: " ++ show totalDuration ++ " seconds ("
               ++ show (round_div totalDuration 60) ++ " minutes)") ;;
  console_log (" Total Devices: " ++ show_nat (List.length devices)) ;;
  console_log (" Success: " ++ show_nat (successCount v)) ;;
  console_log (" Failure: " ++ show_nat (failureCount v)) ;;
  console_log (" Success Rate: "
               ++ show_Math_round (float_of_nat (successCount v)
                                   / float_of_nat (List.length devices)
                                   * float_of_nat 100)%float
               ++ "%") ;;
  console_log " Device details:" ;;
  for_of (combine (seq 0 (List.length (results v))) (results v))
    (fun ir => console_log (detail_line (fst ir) (snd ir)) ;; ret Continue) ;;
  console_log (repeat "=" 80) ;;
  console_log "🎉 Test completed! Check LambdaTest Dashboard for results".

(** [config.devices || DEFAULT_CONFIG.devices] *)
Definition devices_or_default (d : DevicesField) : DevicesField :=
  if devices_truthy d then d else DevicesArray (devices DEFAULT_CONFIG).

(** [`${devices.length}`]: the number of names of an array; for an object
    of categories [undefined], or the names of a category that is called
    length, as an array prints. *)
Definition length_text (d : DevicesField) : string :=
  match d with
  | DevicesUndefined => "undefined"
  | DevicesArray names => show_nat (List.length names)
  | DevicesObject categories =>
      match assoc "length" categories with
      | Some names => join names ","
      | None => "undefined"
      end
  | DevicesOther _ text => text
  end.

(** The body of [runAllDevices], for any per-device runner. *)
Definition batch (run : string -> M unit RunResult)
  : M BatchVars (list RunResult) :=
  startTime <- Date_now ;;
  let value := devices_or_default (the_devices config) in
  console_log ("🚀 Starting test on " ++ length_text value ++ " devices...") ;;
  match value with
  | DevicesArray devices =>
      console_log ("📋 Device list: " ++ join devices ", ") ;;
      today <- new_Date_toLocaleDateString ;;
      console_log ("⏰ Start time: " ++ today) ;;
      console_log (repeat "=" 80) ;;
      for_of (seq 0 (List.length devices)) (batch_step run devices) ;;
      report startTime devices ;;
      v <- get_locals ;;
      ret (results v)
  | _ =>
      (* devices.join(', ') on a value that has no such method *)
      throw (not_a_function W "devices.join")
  end.

Definition runAllDevices_with {L} (run : string -> M unit RunResult)
  : M L (list RunResult) :=
  invoke fresh_batch (batch run).

Definition runAllDevices {L} : M L (list RunResult) :=
  runAllDevices_with runPlayStoreDownloadFlow.

(** ** The main module, lines 386-403 *)

(** The exit code passed to [process.exit], for any batch procedure. *)
Definition banner {L} : M L unit :=
  console_log " Running Play Store Automation test" ;;
  today <- new_Date_toLocaleDateString ;;
  console_log (" Date: " ++ today) ;;
  time <- new_Date_toLocaleTimeString ;;
  console_log (" Time: " ++ time).

(** A rejection that no handler takes: by Node's default since version
    15, it is raised as an uncaught exception, and the process exits with
    code 1. *)
Definition unhandled_rejection_exit_code : Z := 1.

Definition main_with {L} (all : M L (list RunResult)) : M L Z :=
  banner ;;
  try_catch
    (try_catch
       (results <- all ;;
        let successCount := List.length (filter success results) in
        console_log (" All tests finished: " ++ show_nat successCount ++ "/"
                     ++ show_nat (List.length results) ++ " succeeded") ;;
        ret (if (0 <? successCount)%nat then 0%Z else 1%Z))
       (fun err =>
          m <- message_of err ;;
          console_error (" General error during execution:" ++ " "
                         ++ show_opt m) ;;
          console_error "Check settings and try again" ;;
          ret 1%Z))
    (* the handler itself threw: nothing takes the rejection *)
    (fun _ => ret unhandled_rejection_exit_code).

Definition main {L} : M L Z := main_with runAllDevices.

End WithConfig.

(** The script run as the main module: load the configuration, then run. *)
Definition script : M unit Z :=
  config <- load_config ;;
  main config.

Definition run_script : Completion Z * Mem unit := script (mkMem tt []).

End Script.

(** ** Reading histories and results *)

(** The sessions torn down, the elements clicked and the selectors
    resolved in a history, most recent first. *)
Fixpoint teardowns (h : History) : list Driver :=
  match h with
  | [] => []
  | Called (DeleteSession d) :: rest => d :: teardowns rest
  | _ :: rest => teardowns rest
  end.

Fixpoint clicks (h : History) : list Element :=
  match h with
  | [] => []
  | Called (Click el) :: rest => el :: clicks rest
  | _ :: rest => clicks rest
  end.

Fixpoint resolutions (h : History) : list string :=
  match h with
  | [] => []
  | Called (Dollar _ sel) :: rest => sel :: resolutions rest
  | _ :: rest => resolutions rest
  end.

(** The result built by the [catch] block of the flow. *)
Definition failed_result (deviceName : string) (startTime endTime : Z)
    (err : Error) : RunResult :=
  {| device := deviceName;
     success := false;
     duration := seconds_between startTime endTime;
     error := Some (message err);
     sessionId := None |}.

(** The result the batch makes up when the runner itself throws. *)
Definition synthesized_failure (deviceName : string) (err : Error) : RunResult :=
  {| device := deviceName;
     success := false;
     duration := 0;
     error := Some (message err);
     sessionId := None |}.

(** A provider that rejects with [Error] objects only, as a WebDriver
    client does. *)
Definition rejects_with_errors (W : World) : Prop :=
  forall past r value,
    provider W past r = Throws value -> has_message value = true.

(** A runner that throws [Error] objects only. *)
Definition throws_errors {L A} (m : M L A) : Prop :=
  forall s value s', m s = (Throws value, s') -> has_message value = true.

Definition credentials_message : string :=
  " LambdaTest credentials missing! Check your .env file".


(** ** Trying one candidate *)

Section Probing.

Variable W : World.

(** What the provider makes of a selector when [past] are the calls made
    so far: how [driver.$] and then [isDisplayed] would end. *)
Inductive Probe : Type :=
| Rejected (e : Thrown)                   (* driver.$ throws               *)
| Unreadable (el : Element) (e : Thrown)  (* it resolves, isDisplayed throws *)
| Hidden (el : Element)                   (* it resolves, not displayed    *)
| Visible (el : Element).                 (* it resolves and is displayed  *)

Definition probe (past : list Request) (d : Driver) (sel : string) : Probe :=
  match provider W past (Dollar d sel) with
  | Throws e => Rejected e
  | Returns el =>
      match provider W (Dollar d sel :: past) (IsDisplayed el) with
      | Throws e => Unreadable el e
      | Returns false => Hidden el
      | Returns true => Visible el
      end
  end.

(** The candidate throws an error or resolves to an element that is not
    visible. *)
Definition fails (p : Probe) : bool :=
  match p with
  | Visible _ => false
  | Hidden _ => true
  | Rejected e | Unreadable _ e => has_message e
  end.

(** The answer to the click that follows a visible probe. *)
Definition click_reply (past : list Request) (d : Driver) (sel : string)
    (el : Element) : Completion unit :=
  provider W (IsDisplayed el :: Dollar d sel :: past) (Click el).

(** The two places where the flow scans a list of strategies. *)
Inductive Resolution : Type := SearchBox | AppEntry.

Definition assign_of (which : Resolution) : Element -> FlowVars -> FlowVars :=
  match which with SearchBox => set_searchElement | AppEntry => set_appElement end.

Definition text_of (which : Resolution) : ScanText :=
  match which with SearchBox => search_text | AppEntry => app_text end.

(** The variable tested after the loop. *)
Definition found_of (which : Resolution) (v : FlowVars) : option Element :=
  match which with SearchBox => searchElement v | AppEntry => appElement v end.

Definition scan_of (which : Resolution) (d : Driver) (cands : list Strategy)
  : M FlowVars unit :=
  scan W d (assign_of which) (text_of which) cands.

(** Every candidate of [cands], tried in turn from state [s], throws an
    error or resolves to an element that is not visible. *)
Fixpoint all_fail (which : Resolution) (d : Driver) (cands : list Strategy)
    (s : Mem FlowVars) : bool :=
  match cands with
  | [] => true
  | c :: rest =>
      fails (probe (calls_of (history s)) d (selector c))
      && all_fail which d rest
           (snd (attempt W d (assign_of which) (text_of which) c s))
  end.

(** Every candidate of [cands], tried in turn from state [s], is rejected
    by [driver.$] with an error. *)
Fixpoint all_rejected (which : Resolution) (d : Driver) (cands : list Strategy)
    (s : Mem FlowVars) : bool :=
  match cands with
  | [] => true
  | c :: rest =>
      match probe (calls_of (history s)) d (selector c) with
      | Rejected (ErrorObject _) =>
          all_rejected which d rest
            (snd (attempt W d (assign_of which) (text_of which) c s))
      | _ => false
      end
  end.

(** What C5 promises for the candidate [c] that comes after the failing
    candidates [pre] and resolves to the visible element [el]: it is the one
    selected, it is clicked once, and the scan does nothing after it. *)
Definition first_visible_wins (which : Resolution) (d : Driver)
    (pre : list Strategy) (c : Strategy) (rest : list Strategy)
    (s : Mem FlowVars) (el : Element) : Prop :=
  let sK := snd (scan_of which d pre s) in
  exists s',
    scan_of which d (pre ++ c :: rest)%list s = (Returns tt, s')
    /\ found_of which (locals s') = Some el
    /\ clicks (history s') = el :: clicks (history s)
    /\ history s'
       = ([ ConsoleLog (clicked_line (text_of which));
            Called (Click el);
            ConsoleLog (found_prefix (text_of which) ++ name c);
            Called (IsDisplayed el);
            Called (Dollar d (selector c)) ] ++ history sK)%list.

End Probing.

(** ** The flow up to the detail page *)

(** Lines 71-208 of the [try] block: everything before the Install
    button is looked for.  It yields the session and its identifier. *)
Definition steps_before_install (W : World) (config : ConfigObject)
    (deviceName : string) : M FlowVars (Driver * string) :=
  ds <- open_session W deviceName ;;
  find_search_box W (fst ds) ;;
  type_query W (fst ds) (appToSearch_setting config) ;;
  select_app W (fst ds) (appToSearch_setting config) ;;
  ret ds.

Definition no_button_message : string := " 'Install' or 'Open' button not found.".

(** The state in which the [try] block starts. *)
Definition entry {L} (s : Mem L) : Mem FlowVars :=
  mkMem fresh_vars (DateNow :: history s).

(** ** Sessions opened and torn down *)

(** The sessions that the events [evs] opened: the handles returned by the
    [remote] calls among them that did not reject.  [base] are the calls
    made before [evs]. *)
Fixpoint sessions_opened (W : World) (base : list Request) (evs : History)
  : list Driver :=
  match evs with
  | [] => []
  | Called r :: rest =>
      match r as r0 return Completion (reply_type r0) -> list Driver with
      | Remote _ => fun reply =>
          match reply with
          | Returns d => d :: sessions_opened W base rest
          | Throws _ => sessions_opened W base rest
          end
      | _ => fun _ => sessions_opened W base rest
      end (provider W (calls_of rest ++ base)%list r)
  | _ :: rest => sessions_opened W base rest
  end.

(** Events that neither open nor close a session. *)
Definition session_free_event (ev : Event) : bool :=
  match ev with
  | Called (Remote _) | Called (DeleteSession _) => false
  | _ => true
  end.

Definition session_free (evs : History) : bool := forallb session_free_event evs.

(** The [message] of a value that is not [null] or [undefined]. *)
Definition message_text (value : Thrown) : option string :=
  match value with ErrorObject e => Some (message e) | _ => None end.

(** What the attempt to close session [d] leaves in the history, when
    [past] are the calls made before it: the call, and the line printed
    after it, if one is. *)
Definition teardown_events (W : World) (deviceName : string) (d : Driver)
    (past : list Request) : History :=
  match provider W past (DeleteSession d) with
  | Returns _ =>
      [ ConsoleLog (" Session for " ++ deviceName ++ " closed");
        Called (DeleteSession d) ]
  | Throws (NullishValue _) => [ Called (DeleteSession d) ]
  | Throws closeError =>
      [ ConsoleLog (" Problem closing session for " ++ deviceName ++ ":" ++ " "
                    ++ show_opt (message_text closeError));
        Called (DeleteSession d) ]
  end%list.

(** The error with which the attempt to close session [d] ends, if it does
    end with one: the [TypeError] of reading the message of [null] or
    [undefined]. *)
Definition teardown_error (W : World) (d : Driver) (past : list Request)
  : option Error :=
  match provider W past (DeleteSession d) with
  | Throws (NullishValue n) => Some (mkError (cannot_read W n "message"))
  | _ => None
  end.

(** The [try] and [catch] blocks of the flow, from the state in which the
    [try] block starts. *)
Definition protected_part (W : World) (config : ConfigObject)
    (deviceName : string) {L} (s : Mem L) : Completion RunResult * Mem FlowVars :=
  try_catch (flow_try W config deviceName (clock W (history s)))
            (flow_catch W deviceName (clock W (history s)))
            (entry s).

(** What the [finally] block adds to the history when it starts in [s1],
    and how the run ends when the two blocks before it ended with [c]. *)
Definition finally_events (W : World) (deviceName : string) (s1 : Mem FlowVars)
  : History :=
  match driver (locals s1) with
  | Some d => teardown_events W deviceName d (calls_of (history s1))
  | None => []
  end%list.

Definition after_finally (W : World) (s1 : Mem FlowVars)
    (c : Completion RunResult) : Completion RunResult :=
  match driver (locals s1) with
  | Some d =>
      match teardown_error W d (calls_of (history s1)) with
      | Some e => Throws e
      | None => c
      end
  | None => c
  end.

(** How the [catch] block of the flow ends when it caught [value]: with
    the failed result when the value is an error, and with a [TypeError] of
    its own when the value has no message to read. *)
Definition caught (W : World) (deviceName : string) (startTime endTime : Z)
    (value : Thrown) : Completion RunResult :=
  match value with
  | ErrorObject e => Returns (failed_result deviceName startTime endTime e)
  | NullishValue n => Throws (mkError (cannot_read W n "message"))
  | OtherValue => Throws (mkError (cannot_read W JsUndefined "includes"))
  end.

(** C3 as stated: the run returns a result. *)
Definition never_throws (W : World) (config : ConfigObject)
    (deviceName : string) {L} (s : Mem L) : Prop :=
  exists r s', runPlayStoreDownloadFlow W config deviceName s = (Returns r, s').

(** C6 as stated: the run attempts the teardown exactly once. *)
Definition torn_down_exactly_once (W : World) (config : ConfigObject)
    (deviceName : string) {L} (s : Mem L) : Prop :=
  exists r evs,
    runPlayStoreDownloadFlow W config deviceName s
    = (Returns r, mkMem (locals s) (evs ++ history s)%list)
    /\ List.length (teardowns evs) = 1%nat.

(** A piece of the flow that leaves [driver] alone and neither opens nor
    closes a session. *)
Definition quiet {A} (m : M FlowVars A) : Prop :=
  forall s,
    driver (locals (snd (m s))) = driver (locals s)
    /\ exists evs,
         history (snd (m s)) = (evs ++ history s)%list
         /\ session_free evs = true.

(** The same world, except that the attempts to close a session are
    answered by [reply]. *)
Definition with_teardown_reply (W : World)
    (reply : list Request -> Driver -> Completion unit) : World :=
  {| LT_USERNAME := LT_USERNAME W;
     LT_ACCESS_KEY := LT_ACCESS_KEY W;
     require_config := require_config W;
     provider := fun past r =>
       match r as r0 return Completion (reply_type r0) with
       | DeleteSession d => reply past d
       | r0 => provider W past r0
       end;
     clock := clock W;
     toLocaleDateString := toLocaleDateString W;
     toLocaleTimeString := toLocaleTimeString W;
     cannot_read := cannot_read W;
     not_a_function := not_a_function W |}.

(** An answer to the attempts to close a session that never rejects with
    [null] or [undefined]. *)
Definition never_nullish (reply : list Request -> Driver -> Completion unit)
  : Prop :=
  forall past d n, reply past d <> Throws (NullishValue n).

(** The same world, except that the provider rejects with [value] wherever
    it rejects. *)
Definition rejecting_with (value : Thrown) (W : World) : World :=
  {| LT_USERNAME := LT_USERNAME W;
     LT_ACCESS_KEY := LT_ACCESS_KEY W;
     require_config := require_config W;
     provider := fun past r =>
       match provider W past r with
       | Returns a => Returns a
       | Throws _ => Throws value
       end;
     clock := clock W;
     toLocaleDateString := toLocaleDateString W;
     toLocaleTimeString := toLocaleTimeString W;
     cannot_read := cannot_read W;
     not_a_function := not_a_function W |}.

Definition list_of_option {A} (o : option A) : list A :=
  match o with Some a => [a] | None => [] end.

(** The events since [h0] closed no session and opened the one in [driver],
    if any. *)
Definition tracked (W : World) (h0 : History) (s : Mem FlowVars) : Prop :=
  exists evs,
    history s = (evs ++ h0)%list
    /\ teardowns evs = []
    /\ sessions_opened W (calls_of h0) evs = list_of_option (driver (locals s)).

(** ** Sample worlds *)

(** A provider described by which selectors resolve, which resolved
    elements are shown, and which calls are rejected.  An element handle
    is numbered by the count of calls made before it was resolved; the
    selector an element came from is read back from the history. *)
Record Behaviour : Type := mkBehaviour {
  session_opens : bool;
  resolves : string -> bool;
  shown : string -> bool;
  click_works : string -> bool;
  teardown_works : bool
}.

Fixpoint selector_of (el : Element) (past : list Request) : string :=
  match past with
  | [] => EmptyString
  | Dollar _ sel :: rest =>
      if (element_id el =? List.length rest)%nat then sel else selector_of el rest
  | _ :: rest => selector_of el rest
  end.

Definition scripted (b : Behaviour) (past : list Request) (r : Request)
  : Completion (reply_type r) :=
  match r as r0 return Completion (reply_type r0) with
  | Remote _ =>
      if session_opens b then Returns (mkDriver 1)
      else Throws (mkError "connect ETIMEDOUT: timeout while opening the session")
  | GetSessionId _ => Returns "session-0001"
  | Pause _ _ => Returns tt
  | Dollar _ sel =>
      if resolves b sel then Returns (mkElement (List.length past))
      else Throws (mkError ("no such element: " ++ sel))
  | IsDisplayed el => Returns (shown b (selector_of el past))
  | Click el =>
      if click_works b (selector_of el past) then Returns tt
      else Throws (mkError "element click intercepted")
  | SetValue _ _ => Returns tt
  | PressKeyCode _ _ => Returns tt
  | DeleteSession _ =>
      if teardown_works b then Returns tt
      else Throws (mkError "socket hang up")
  end.

(** A clock that advances one second with each event. *)
Definition ticking_clock (h : History) : Z := (1000 * Z.of_nat (List.length h))%Z.

(** The wording of V8, the engine of Node. *)
Definition v8_cannot_read (n : Nullish) (property : string) : string :=
  "Cannot read properties of "
  ++ match n with JsNull => "null" | JsUndefined => "undefined" end
  ++ " (reading '" ++ property ++ "')".

Definition v8_not_a_function (e : string) : string := e ++ " is not a function".

Definition world_of (user key : option string) (b : Behaviour) : World :=
  {| LT_USERNAME := user;
     LT_ACCESS_KEY := key;
     require_config := Returns (ExportedObject (shipped_config user key None));
     provider := scripted b;
     clock := ticking_clock;
     toLocaleDateString := fun _ => "11/1/2026";
     toLocaleTimeString := fun _ => "10:00:00 AM";
     cannot_read := v8_cannot_read;
     not_a_function := v8_not_a_function |}.

Definition all_fine : Behaviour :=
  {| session_opens := true;
     resolves := fun _ => true;
     shown := fun _ => true;
     click_works := fun _ => true;
     teardown_works := true |}.

Definition happy_world : World := world_of (Some "alice") (Some "0123456789abcdef") all_fine.

Definition start {L} (l : L) : Mem L := mkMem l [].

Definition no_credentials_world : World := world_of None None all_fine.

(** Every search-box selector resolves to an element that is not shown;
    everything else is on the screen. *)
Definition hidden_search_box : Behaviour :=
  {| session_opens := true;
     resolves := fun _ => true;
     shown := fun sel => negb (mem_string sel (map selector searchStrategies));
     click_works := fun _ => true;
     teardown_works := true |}.

Definition hidden_search_box_world : World :=
  world_of (Some "alice") (Some "0123456789abcdef") hidden_search_box.

Definition main_search_box : Strategy := nth 0 searchStrategies (mkStrategy EmptyString EmptyString).
Definition general_search_box : Strategy := nth 1 searchStrategies (mkStrategy EmptyString EmptyString).
Definition search_text_strategy : Strategy := nth 2 searchStrategies (mkStrategy EmptyString EmptyString).

(** The first search box is shown, but the click on it is rejected. *)
Definition stubborn_first_click : Behaviour :=
  {| session_opens := true;
     resolves := fun _ => true;
     shown := fun _ => true;
     click_works := fun sel => negb (String.eqb sel (selector main_search_box));
     teardown_works := true |}.

Definition stubborn_world : World :=
  world_of (Some "alice") (Some "0123456789abcdef") stubborn_first_click.

(** The first search selector is rejected, the second resolves to a hidden
    element, the third is on the screen. *)
Definition third_time_lucky : Behaviour :=
  {| session_opens := true;
     resolves := fun sel => negb (String.eqb sel (selector main_search_box));
     shown := fun sel => negb (String.eqb sel (selector general_search_box));
     click_works := fun _ => true;
     teardown_works := true |}.

Definition third_time_lucky_world : World :=
  world_of (Some "alice") (Some "0123456789abcdef") third_time_lucky.

(** Neither the Install nor the Open button is on the screen. *)
Definition no_buttons : Behaviour :=
  {| session_opens := true;
     resolves := fun _ => true;
     shown := fun sel => negb (String.eqb sel install_selector
                               || String.eqb sel open_selector);
     click_works := fun _ => true;
     teardown_works := true |}.

Definition no_buttons_world : World :=
  world_of (Some "alice") (Some "0123456789abcdef") no_buttons.

(** The session cannot be closed. *)
Definition teardown_rejected : Behaviour :=
  {| session_opens := true;
     resolves := fun _ => true;
     shown := fun _ => true;
     click_works := fun _ => true;
     teardown_works := false |}.

Definition teardown_rejected_world : World :=
  world_of (Some "alice") (Some "0123456789abcdef") teardown_rejected.

(** The session cannot be opened. *)
Definition session_refused : Behaviour :=
  {| session_opens := false;
     resolves := fun _ => true;
     shown := fun _ => true;
     click_works := fun _ => true;
     teardown_works := true |}.

Definition session_refused_world : World :=
  world_of (Some "alice") (Some "0123456789abcdef") session_refused.

Definition the_driver : Driver := mkDriver 1.

(** A runner that throws on one device and succeeds on the others. *)
Definition moody_runner (deviceName : string) : M unit RunResult :=
  if String.eqb deviceName "Galaxy S22"
  then throw "runner crashed"
  else ret {| device := deviceName;
              success := true;
              duration := 7;
              error := None;
              sessionId := Some "s" |}.

(** A flow about to scan, nothing having happened yet. *)
Definition blank : Mem FlowVars := mkMem fresh_vars [].

(** The session request is rejected with [null]. *)
Definition null_rejection_world : World :=
  rejecting_with (NullishValue JsNull) session_refused_world.

(** The attempt to close the session is rejected with [undefined]. *)
Definition undefined_teardown_world : World :=
  rejecting_with (NullishValue JsUndefined) teardown_rejected_world.

(** The first search selector is rejected with a string, not an error. *)
Definition string_rejection_world : World :=
  rejecting_with OtherValue third_time_lucky_world.

(** A detail page described by the labels of its buttons.  The Install
    selector matches a button whose text is Install, the Open selector one
    whose text contains Open, as [UiSelector.text] and
    [UiSelector.textContains] do. *)
Definition button_matches (sel label : string) : bool :=
  (String.eqb sel install_selector && String.eqb label "Install")
  || (String.eqb sel open_selector && includes label "Open").

Definition page_with_buttons (labels : list string) : Behaviour :=
  {| session_opens := true;
     resolves := fun _ => true;
     shown := fun sel =>
       if String.eqb sel install_selector || String.eqb sel open_selector
       then existsb (button_matches sel) labels
       else true;
     click_works := fun _ => true;
     teardown_works := true |}.

(** The app is installed and out of date: the only button is Update. *)
Definition update_only_world : World :=
  world_of (Some "alice") (Some "0123456789abcdef") (page_with_buttons ["Update"]).

(** The app is installed and up to date: the buttons are Uninstall and
    Open. *)
Definition open_button_world : World :=
  world_of (Some "alice") (Some "0123456789abcdef")
           (page_with_buttons ["Uninstall"; "Open"]).


(** ** More to read from histories, strings and states *)

(** The timers set, the session requests made, the texts typed and the
    keys pressed in a history, most recent first. *)
Fixpoint timers (h : History) : list Z :=
  match h with
  | [] => []
  | SetTimeout ms :: rest => ms :: timers rest
  | _ :: rest => timers rest
  end.

Fixpoint remote_calls (h : History) : list RemoteOptions :=
  match h with
  | [] => []
  | Called (Remote opts) :: rest => opts :: remote_calls rest
  | _ :: rest => remote_calls rest
  end.

Fixpoint typed (h : History) : list string :=
  match h with
  | [] => []
  | Called (SetValue _ value) :: rest => value :: typed rest
  | _ :: rest => typed rest
  end.

Fixpoint keys_pressed (h : History) : list Z :=
  match h with
  | [] => []
  | Called (PressKeyCode _ code) :: rest => code :: keys_pressed rest
  | _ :: rest => keys_pressed rest
  end.

(** Every character of a string passes a test. *)
Fixpoint string_forallb (P : ascii -> bool) (s : string) : bool :=
  match s with
  | EmptyString => true
  | String c rest => P c && string_forallb P rest
  end.

Definition is_upper (c : ascii) : bool :=
  let n := nat_of_ascii c in (65 <=? n)%nat && (n <=? 90)%nat.

(** A character that may occur in a device tag. *)
Definition tag_char (c : ascii) : bool := negb (is_space c) && negb (is_upper c).

(** A piece of code, on any variables, all of whose events pass [P]. *)
Definition emits_only {L A} (P : Event -> bool) (m : M L A) : Prop :=
  forall s,
    exists evs,
      history (snd (m s)) = (evs ++ history s)%list /\ forallb P evs = true.


(** What is typed is [app], and the only key pressed is Enter (66). *)
Definition types_only (app : string) (ev : Event) : bool :=
  match ev with
  | Called (SetValue _ value) => String.eqb value app
  | Called (PressKeyCode _ code) => (code =? 66)%Z
  | _ => true
  end.

(** [x] occurs in [s]. *)
Definition contains (s x : string) : Prop :=
  exists pre post, s = pre ++ x ++ post.

(** A character that [JSON.stringify] leaves as it is. *)
Definition plain_char (c : ascii) : bool :=
  let n := nat_of_ascii c in
  (32 <=? n)%nat && negb (n =? 34)%nat && negb (n =? 92)%nat.

Definition no_call (ev : Event) : bool :=
  match ev with Called _ => false | _ => true end.

Definition anything (ev : Event) : bool := true.

(** The counters of the batch agree with its list of results. *)
Definition counters_agree (v : BatchVars) : Prop :=
  successCount v = List.length (filter success (results v))
  /\ failureCount v
     = List.length (filter (fun r => negb (success r)) (results v)).

Definition not_remote (r : Request) : bool :=
  match r with Remote _ => false | _ => true end.

Definition no_remote (ev : Event) : bool :=
  match ev with Called r => not_remote r | _ => true end.

(** Since [h0], the first call was the session request [opts], and no
    other session request followed. *)
Definition opens_first {L} (opts : RemoteOptions) (h0 : History) (s : Mem L)
  : Prop :=
  exists later pre,
    history s = (later ++ Called (Remote opts) :: pre ++ h0)%list
    /\ calls_of pre = []
    /\ forallb no_remote later = true.

(** A configuration module with a device list and settings of its own. *)
Definition custom_config : ConfigModule :=
  {| cm_username := None;
     cm_accessKey := None;
     cm_tunnelName := None;
     cm_devices := DevicesArray ["OnePlus 11"; "Pixel 7"];
     cm_settings := Some {| appToSearch := Some "Signal";
                            timeout := None;
                            platformVersion := None;
                            waitTime := None;
                            retries := None |};
     cm_devices_writable := true;
     cm_settings_writable := true |}.

(** [module.exports = Object.freeze({ devices: [] })] *)
Definition frozen_empty_config : ConfigModule :=
  {| cm_username := None;
     cm_accessKey := None;
     cm_tunnelName := None;
     cm_devices := DevicesArray [];
     cm_settings := None;
     cm_devices_writable := false;
     cm_settings_writable := false |}.

(** The configuration that ships with the script, frozen. *)
Definition frozen_shipped_config : ConfigModule :=
  let shipped := shipped_config None None None in
  {| cm_username := cm_username shipped;
     cm_accessKey := cm_accessKey shipped;
     cm_tunnelName := cm_tunnelName shipped;
     cm_devices := cm_devices shipped;
     cm_settings := cm_settings shipped;
     cm_devices_writable := false;
     cm_settings_writable := false |}.

Definition world_with_config (loaded : Completion Exported) : World :=
  {| LT_USERNAME := Some "alice";
     LT_ACCESS_KEY := Some "0123456789abcdef";
     require_config := loaded;
     provider := scripted all_fine;
     clock := ticking_clock;
     toLocaleDateString := fun _ => "11/1/2026";
     toLocaleTimeString := fun _ => "10:00:00 AM";
     cannot_read := v8_cannot_read;
     not_a_function := v8_not_a_function |}.

(** No search-box selector resolves. *)
Definition no_search_box : Behaviour :=
  {| session_opens := true;
     resolves := fun sel => negb (mem_string sel (map selector searchStrategies));
     shown := fun _ => true;
     click_works := fun _ => true;
     teardown_works := true |}.

Definition no_search_box_world : World :=
  world_of (Some "alice") (Some "0123456789abcdef") no_search_box.

(** The search goes through, but no result entry resolves. *)
Definition no_result_entry : Behaviour :=
  {| session_opens := true;
     resolves := fun sel =>
       negb (mem_string sel (map selector (appResultStrategies "Google Chrome")));
     shown := fun _ => true;
     click_works := fun _ => true;
     teardown_works := true |}.

Definition no_result_entry_world : World :=
  world_of (Some "alice") (Some "0123456789abcdef") no_result_entry.

(** The text field resolves but is not on the screen. *)
Definition hidden_text_field : Behaviour :=
  {| session_opens := true;
     resolves := fun _ => true;
     shown := fun sel => negb (String.eqb sel input_selector);
     click_works := fun _ => true;
     teardown_works := true |}.

Definition hidden_text_field_world : World :=
  world_of (Some "alice") (Some "0123456789abcdef") hidden_text_field.


(** The [try] block up to the search box being found (lines 71-162), and
    up to the query being typed (lines 71-178). *)
Definition steps_before_typing (W : World) (deviceName : string)
  : M FlowVars (Driver * string) :=
  ds <- open_session W deviceName ;;
  find_search_box W (fst ds) ;;
  ret ds.

Definition steps_before_results (W : World) (config : ConfigObject)
    (deviceName : string) : M FlowVars (Driver * string) :=
  ds <- steps_before_typing W deviceName ;;
  type_query W (fst ds) (appToSearch_setting config) ;;
  ret ds.

Definition search_box_message : string := " Search box not found.".
Definition text_field_message : string := " Text field not found.".
Definition app_not_found_message (app : string) : string :=
  dquote ++ app ++ dquote ++ " not found in results.".

(** ** Malformed device lists *)

(** The [devices] of a configuration module is missing, is not an array,
    or is an empty array. *)
Definition malformed (d : DevicesField) : Prop :=
  d = DevicesUndefined \/ Array_isArray d = false \/ d = DevicesArray [].

(** C9 as stated: the loading block ends with the built-in device list in
    place of the malformed one. *)
Definition falls_back_to_default (W : World) {L} (s : Mem L) : Prop :=
  exists cfg s',
    load_config W s = (Returns cfg, s')
    /\ the_devices cfg = DevicesArray (devices DEFAULT_CONFIG).

(** ** The passes of the batch *)

(** The entry that the batch records for the device on which the runner
    ended with [c]: the runner's own result, or the failure made up from the
    error it threw. *)
Definition recorded (deviceName : string) (c : Completion RunResult)
    (r : RunResult) : Prop :=
  match c with
  | Returns r0 => r = r0
  | Throws (ErrorObject e) => r = synthesized_failure deviceName e
  | Throws _ => False
  end.

(** [visits run devs i h rs h']: from device number [i] on, when the
    history is [h], the batch calls the runner once for each remaining
    device of [devs], in the order of the list.  Each call starts from the
    history that the call before it left, to which the batch has only added
    events of its own, [before], none of them a call to the provider.  [rs]
    are the entries recorded for these devices, and [h'] is the history
    when the last call has ended. *)
Inductive visits (run : string -> M unit RunResult) (devs : list string)
  : nat -> History -> list RunResult -> History -> Prop :=
| visits_done h : visits run devs (List.length devs) h [] h
| visits_next i h before r rs h' :
    (i < List.length devs)%nat ->
    forallb no_call before = true ->
    recorded (nth i devs EmptyString)
             (fst (run (nth i devs EmptyString) (mkMem tt (before ++ h)%list))) r ->
    visits run devs (S i)
           (history (snd (run (nth i devs EmptyString) (mkMem tt (before ++ h)%list))))
           rs h' ->
    visits run devs i h (r :: rs) h'.

(** The states in which sample runs on "Pixel 7" reach the three steps. *)
Definition no_search_box_session : Mem FlowVars :=
  snd (open_session no_search_box_world "Pixel 7" (entry (start tt))).

Definition hidden_text_field_state : Mem FlowVars :=
  snd (steps_before_typing hidden_text_field_world "Pixel 7" (entry (start tt))).

Definition no_result_entry_state : Mem FlowVars :=
  snd (steps_before_results no_result_entry_world DEFAULT_CONFIG "Pixel 7"
         (entry (start tt))).

(** * Properties *)

Local Open Scope list_scope.

(** ** Running the monad *)

Ltac run_step :=
  unfold remote, getSessionId, pause, dollar, isDisplayed, click, setValue,
         pressKeyCode, deleteSession, sleep, console_log, console_error,
         new_Date_toLocaleDateString, new_Date_toLocaleTimeString,
         message_of, receiver;
  unfold bind, ret, throw, try_catch, try_finally, get_locals, modify_locals,
         emit, Date_now, await;
  cbn [locals history calls_of fst snd app].

(** Ask the provider's answer to the first pending call of the goal. *)
Ltac ask :=
  match goal with
  | |- context [provider ?w ?past ?r] => destruct (provider w past r) eqn:?
  end; cbn [locals history calls_of fst snd].

(** The events that were put in front of [h0] to make [h]. *)
Ltac prefix_of h h0 :=
  lazymatch h with
  | h0 => constr:(@nil Event)
  | ?ev :: ?rest => let p := prefix_of rest h0 in constr:(ev :: p)
  end.

Ltac exists_prefix :=
  lazymatch goal with
  | |- exists evs, ?h = evs ++ ?h0 /\ _ =>
      let p := prefix_of h h0 in exists p; split; [reflexivity |]
  end.

Lemma bind_returns_inv {L A B} (m : M L A) (k : A -> M L B) s b s' :
  bind m k s = (Returns b, s') ->
  exists a s1, m s = (Returns a, s1) /\ k a s1 = (Returns b, s').
Proof.
  unfold bind. destruct (m s) as [[a | e] s1]; intros H.
  - exists a, s1. split; [reflexivity | exact H].
  - discriminate H.
Qed.

Lemma bind_returns {L A B} (m : M L A) (k : A -> M L B) s a s1 :
  m s = (Returns a, s1) -> bind m k s = k a s1.
Proof. intros H. unfold bind. rewrite H. reflexivity. Qed.

Lemma bind_throws {L A B} (m : M L A) (k : A -> M L B) s e s1 :
  m s = (Throws e, s1) -> bind m k s = (Throws e, s1).
Proof. intros H. unfold bind. rewrite H. reflexivity. Qed.

Lemma no_call_events evs : forallb no_call evs = true -> calls_of evs = [].
Proof.
  induction evs as [| ev rest IH]; [reflexivity |].
  cbn [forallb]. intros H. apply andb_prop in H as [Hev Hrest].
  destruct ev; cbn [calls_of]; try (apply IH; exact Hrest). discriminate Hev.
Qed.

Lemma has_message_inv value :
  has_message value = true -> exists e, value = ErrorObject e.
Proof. destruct value as [e | n |]; try discriminate. exists e. reflexivity. Qed.

(** ** Code that throws errors only *)

Section ThrowsErrors.

Variable W : World.

Lemma te_ret {L A} (a : A) : throws_errors (@ret L A a).
Proof. intros s value s' H. discriminate H. Qed.

Lemma te_throw {L A} msg : throws_errors (@throw L A msg).
Proof. intros s value s' [= <- _]. reflexivity. Qed.

Lemma te_get_locals {L} : throws_errors (@get_locals L).
Proof. intros s value s' H. discriminate H. Qed.

Lemma te_modify_locals {L} (f : L -> L) : throws_errors (modify_locals f).
Proof. intros s value s' H. discriminate H. Qed.

Lemma te_emit {L} ev : throws_errors (@emit L ev).
Proof. intros s value s' H. discriminate H. Qed.

Lemma te_Date_now {L} : throws_errors (@Date_now W L).
Proof. intros s value s' H. discriminate H. Qed.

Lemma te_await {L} r : rejects_with_errors W -> throws_errors (@await W L r).
Proof.
  intros Hw s value s'. unfold await. intros [= H _].
  apply (Hw _ _ _ H).
Qed.

Lemma te_message_of {L} value : throws_errors (@message_of W L value).
Proof. destruct value; [apply te_ret | apply te_throw | apply te_ret]. Qed.

Lemma te_receiver {L} m method : throws_errors (@receiver W L m method).
Proof. destruct m; [apply te_ret | apply te_throw]. Qed.

Lemma te_bind {L A B} (m : M L A) (k : A -> M L B) :
  throws_errors m -> (forall a, throws_errors (k a)) -> throws_errors (bind m k).
Proof.
  intros Hm Hk s value s'. unfold bind.
  destruct (m s) as [[a | value'] s1] eqn:Hms.
  - apply Hk.
  - intros [= <- _]. apply (Hm _ _ _ Hms).
Qed.

(** What the [try] block throws does not matter: the handler decides. *)
Lemma te_try_catch {L A} (m : M L A) (h : Thrown -> M L A) :
  (forall value, throws_errors (h value)) -> throws_errors (try_catch m h).
Proof.
  intros Hh s value s'. unfold try_catch.
  destruct (m s) as [[a | value'] s1]; [intros H; discriminate H | apply Hh].
Qed.

Lemma te_try_finally {L A} (m : M L A) (cleanup : M L unit) :
  throws_errors m -> throws_errors cleanup -> throws_errors (try_finally m cleanup).
Proof.
  intros Hm Hc s value s'. unfold try_finally.
  destruct (m s) as [c s1] eqn:Hms.
  destruct (cleanup s1) as [[[] | value'] s2] eqn:Hcs.
  - destruct c as [a | value']; intros [= <- _]. apply (Hm _ _ _ Hms).
  - intros [= <- _]. apply (Hc _ _ _ Hcs).
Qed.

Lemma te_if {L A} (b : bool) (m1 m2 : M L A) :
  throws_errors m1 -> throws_errors m2 -> throws_errors (if b then m1 else m2).
Proof. destruct b; intros; assumption. Qed.

Lemma te_option {L A B} (o : option B) (m1 : B -> M L A) m2 :
  (forall b, throws_errors (m1 b)) -> throws_errors m2 ->
  throws_errors (match o with Some b => m1 b | None => m2 end).
Proof. destruct o; intros; auto. Qed.

Lemma te_for_of {L A} (xs : list A) (body : A -> M L LoopControl) :
  (forall x, throws_errors (body x)) -> throws_errors (for_of xs body).
Proof.
  intros Hbody. induction xs as [| x rest IH]; cbn [for_of].
  - apply te_ret.
  - apply te_bind; [apply Hbody |]. intros [|]; [exact IH | apply te_ret].
Qed.

Lemma te_invoke {L L' A} (fresh : L') (m : M L' A) :
  throws_errors m -> throws_errors (@invoke L L' A fresh m).
Proof.
  intros Hm s value s'. unfold invoke.
  destruct (m (mkMem fresh (history s))) as [c s1] eqn:Hms.
  intros [= -> _]. apply (Hm _ _ _ Hms).
Qed.

End ThrowsErrors.

(** Decompose a piece of code down to the places where it can throw,
    leaving the calls to the provider to [polite]. *)
Ltac errors_only_using known polite :=
  unfold remote, getSessionId, pause, dollar, isDisplayed, click, setValue,
         pressKeyCode, deleteSession, sleep, console_log, console_error;
  repeat (intros;
          first [ known | apply te_ret | apply te_throw | apply te_get_locals
                | apply te_modify_locals | apply te_emit | apply te_Date_now
                | apply te_message_of | apply te_receiver
                | apply te_try_catch | apply te_try_finally
                | apply te_if | apply te_option | apply te_for_of
                | apply te_invoke
                | lazymatch goal with
                  | |- throws_errors (await ?w ?r) =>
                      refine (te_await w r _); polite
                  end
                | apply te_bind ]).

Ltac errors_only polite := errors_only_using fail polite.

Section RunBoundary.

Variable W : World.
Variable config : ConfigObject.

(** The [catch] block: it reads the clock and prints the first line; then
    it returns the failed result when the caught value is an error, and
    throws when the value has no message to read. *)
Lemma flow_catch_spec deviceName startTime value (s : Mem FlowVars) :
  exists lines,
    flow_catch W deviceName startTime value s
    = (caught W deviceName startTime (clock W (history s)) value,
       mkMem (locals s) (lines ++ DateNow :: history s))
    /\ forallb no_call lines = true.
Proof.
  unfold flow_catch, caught. destruct value as [e | n |]; run_step.
  - destruct (error_hint (message e)) as [hint |]; run_step.
    + eexists [_; _; _]. split; reflexivity.
    + eexists [_; _]. split; reflexivity.
  - eexists [_]. split; reflexivity.
  - eexists [_; _]. split; reflexivity.
Qed.

(** What the [finally] block does, exactly. *)
Lemma flow_finally_spec deviceName (s : Mem FlowVars) :
  flow_finally W deviceName s
  = (match driver (locals s) with
     | Some d =>
         match teardown_error W d (calls_of (history s)) with
         | Some e => Throws e
         | None => Returns tt
         end
     | None => Returns tt
     end,
     mkMem (locals s) (finally_events W deviceName s ++ history s)).
Proof.
  destruct s as [v h].
  unfold flow_finally, finally_events, teardown_events, teardown_error. run_step.
  destruct (driver v) as [d |]; run_step; [| reflexivity].
  destruct (provider W (calls_of h) (DeleteSession d)) as [[] | [e | n |]];
    reflexivity.
Qed.

(** The run is its [try] and [catch] blocks followed by the [finally]
    block. *)
Lemma run_shape deviceName L (s : Mem L) :
  runPlayStoreDownloadFlow W config deviceName s
  = (after_finally W (snd (protected_part W config deviceName s))
                   (fst (protected_part W config deviceName s)),
     mkMem (locals s)
           (finally_events W deviceName (snd (protected_part W config deviceName s))
            ++ history (snd (protected_part W config deviceName s)))).
Proof.
  unfold runPlayStoreDownloadFlow, invoke, flow, bind, Date_now, try_finally.
  cbn [locals history].
  change (try_catch (flow_try W config deviceName (clock W (history s)))
                    (flow_catch W deviceName (clock W (history s)))
                    (mkMem fresh_vars (DateNow :: history s)))
    with (protected_part W config deviceName s).
  destruct (protected_part W config deviceName s) as [c s1].
  rewrite flow_finally_spec. cbn [fst snd locals history]. unfold after_finally.
  destruct (driver (locals s1)) as [d |]; [| reflexivity].
  destruct (teardown_error W d (calls_of (history s1))); reflexivity.
Qed.

(** How the [try] and [catch] blocks end, given how the [try] block does. *)
Lemma protected_part_spec deviceName L (s : Mem L) :
  match flow_try W config deviceName (clock W (history s)) (entry s) with
  | (Returns r0, s1) => protected_part W config deviceName s = (Returns r0, s1)
  | (Throws value, s1) =>
      exists lines,
        protected_part W config deviceName s
        = (caught W deviceName (clock W (history s)) (clock W (history s1)) value,
           mkMem (locals s1) (lines ++ DateNow :: history s1))
        /\ forallb no_call lines = true
  end.
Proof.
  unfold protected_part, try_catch.
  destruct (flow_try W config deviceName (clock W (history s)) (entry s))
    as [[r0 | value] s1]; [reflexivity |].
  apply flow_catch_spec.
Qed.

(** Whatever is thrown inside it, a run throws errors only: the
    [TypeError] of one of its own handlers. *)
Lemma run_throws_errors deviceName L :
  throws_errors (@runPlayStoreDownloadFlow W config L deviceName).
Proof.
  unfold runPlayStoreDownloadFlow, flow. apply te_invoke.
  apply te_bind; [apply te_Date_now | intros startTime].
  apply te_try_finally.
  - apply te_try_catch. intros value. unfold flow_catch. errors_only fail.
  - unfold flow_finally. errors_only fail.
Qed.

Lemma present_none (o : option string) :
  present o = None <-> truthy_opt o = false.
Proof.
  destruct o as [v |]; cbn; [destruct (truthy v) |]; split; congruence.
Qed.

(** Without credentials the [try] block throws at once. *)
Lemma open_session_without_credentials deviceName (s : Mem FlowVars) :
  truthy_opt (LT_USERNAME W) = false \/ truthy_opt (LT_ACCESS_KEY W) = false ->
  open_session W deviceName s = (Throws (mkError credentials_message), s).
Proof.
  intros H. unfold open_session.
  destruct H as [H | H]; apply present_none in H; rewrite H;
    [| destruct (present (LT_USERNAME W))]; reflexivity.
Qed.

(** When the session phase returns, the session is open, its handle is in
    [driver], and the identifier is the provider's. *)
Lemma open_session_returns_inv deviceName (s s1 : Mem FlowVars) d sid :
  open_session W deviceName s = (Returns (d, sid), s1) ->
  driver (locals s1) = Some d
  /\ exists past, provider W past (GetSessionId d) = Returns sid.
Proof.
  unfold open_session.
  destruct (present (LT_USERNAME W)) as [username |];
    [destruct (present (LT_ACCESS_KEY W)) as [accessKey |] |];
    try discriminate.
  run_step.
  repeat ask; try discriminate.
  intros H. injection H as <- <- <-. cbn. split; [reflexivity |].
  eexists. eassumption.
Qed.

(** The [try] block only ever returns a successful result, carrying the
    session identifier the provider gave. *)
Lemma flow_try_returns_inv deviceName startTime (s s' : Mem FlowVars) r :
  flow_try W config deviceName startTime s = (Returns r, s') ->
  success r = true
  /\ error r = None
  /\ device r = deviceName
  /\ exists d sid past,
       provider W past (GetSessionId d) = Returns sid /\ sessionId r = Some sid.
Proof.
  unfold flow_try. intros H.
  apply bind_returns_inv in H as ([d sid] & s1 & Hopen & H).
  apply open_session_returns_inv in Hopen as (_ & past & Hsid).
  do 4 (apply bind_returns_inv in H as (? & ? & _ & H)).
  revert H. unfold conclude. run_step.
  ask; try discriminate.
  intros H. injection H as <- <-. cbn. repeat split.
  exists d, sid, past. split; [exact Hsid | reflexivity].
Qed.

(** What a run returns, when it returns: the result of the [try] block, or
    the failed result that the [catch] block made of an error. *)
Lemma run_returns_inv deviceName L (s : Mem L) r s' :
  runPlayStoreDownloadFlow W config deviceName s = (Returns r, s') ->
  match flow_try W config deviceName (clock W (history s)) (entry s) with
  | (Returns r0, _) => r = r0
  | (Throws value, s1) =>
      exists e,
        value = ErrorObject e
        /\ r = failed_result deviceName (clock W (history s))
                             (clock W (history s1)) e
  end.
Proof.
  rewrite run_shape. intros [= Hc _].
  pose proof (protected_part_spec deviceName L s) as Hp.
  destruct (flow_try W config deviceName (clock W (history s)) (entry s))
    as [[r0 | value] s1].
  - rewrite Hp in Hc. cbn [fst snd] in Hc. unfold after_finally in Hc.
    destruct (driver (locals s1)) as [d |];
      [destruct (teardown_error W d (calls_of (history s1))) |]; congruence.
  - destruct Hp as (lines & Hp & _). rewrite Hp in Hc. cbn [fst snd] in Hc.
    unfold after_finally in Hc. cbn [locals history] in Hc.
    destruct value as [e | n |]; cbn [caught] in Hc.
    + exists e. split; [reflexivity |].
      destruct (driver (locals s1)) as [d |];
        [destruct (teardown_error W d _) |]; congruence.
    + destruct (driver (locals s1)) as [d |];
        [destruct (teardown_error W d _) |]; discriminate Hc.
    + destruct (driver (locals s1)) as [d |];
        [destruct (teardown_error W d _) |]; discriminate Hc.
Qed.

(** When a run throws, it throws the [TypeError] of a handler that found
    no message to read: the [catch] block, when the value it caught is not
    an error, or the handler of the [finally] block, when the teardown was
    rejected with [null] or [undefined]. *)
Lemma run_throws_inv deviceName L (s : Mem L) value s' :
  runPlayStoreDownloadFlow W config deviceName s = (Throws value, s') ->
  (exists n method, value = ErrorObject (mkError (cannot_read W n method)))
  /\ ((exists thrown,
         fst (flow_try W config deviceName (clock W (history s)) (entry s))
         = Throws thrown
         /\ has_message thrown = false)
      \/ (exists d n,
            driver (locals (snd (protected_part W config deviceName s))) = Some d
            /\ provider W
                 (calls_of (history (snd (protected_part W config deviceName s))))
                 (DeleteSession d)
               = Throws (NullishValue n))).
Proof.
  rewrite run_shape. intros [= Hc _].
  assert (Hcatch : forall c,
             fst (protected_part W config deviceName s) = Throws c ->
             (exists n method, c = ErrorObject (mkError (cannot_read W n method)))
             /\ exists thrown,
                  fst (flow_try W config deviceName (clock W (history s)) (entry s))
                  = Throws thrown
                  /\ has_message thrown = false).
  { intros c Hc'. pose proof (protected_part_spec deviceName L s) as Hp.
    destruct (flow_try W config deviceName (clock W (history s)) (entry s))
      as [[r0 | thrown] s2].
    - rewrite Hp in Hc'. discriminate Hc'.
    - destruct Hp as (lines & Hp & _). rewrite Hp in Hc'. cbn [fst] in Hc'.
      destruct thrown as [e | n |]; cbn [caught] in Hc'; try discriminate Hc';
        injection Hc' as <-;
        (split; [eexists _, _; reflexivity | eexists; split; reflexivity]). }
  unfold after_finally, teardown_error in Hc.
  destruct (driver (locals (snd (protected_part W config deviceName s))))
    as [d |] eqn:Hdriver.
  - destruct (provider W
                (calls_of (history (snd (protected_part W config deviceName s))))
                (DeleteSession d)) as [[] | [e | n |]] eqn:Hreply.
    + destruct (Hcatch _ Hc) as [H1 H2]. split; [exact H1 | left; exact H2].
    + destruct (Hcatch _ Hc) as [H1 H2]. split; [exact H1 | left; exact H2].
    + injection Hc as <-. split; [eexists _, _; reflexivity |].
      right. exists d, n. split; [reflexivity | exact Hreply].
    + destruct (Hcatch _ Hc) as [H1 H2]. split; [exact H1 | left; exact H2].
  - destruct (Hcatch _ Hc) as [H1 H2]. split; [exact H1 | left; exact H2].
Qed.

Lemma error_hint_credentials : error_hint credentials_message = None.
Proof. vm_compute. reflexivity. Qed.

(** C4.  When the username or the access key is missing from the
    environment, the run fails with the missing-credentials message, and
    between its start and its end the provider is not called at all: no
    session is opened and nothing else is asked of it. *)
Theorem missing_credentials_no_remote_calls deviceName L (s : Mem L) :
  truthy_opt (LT_USERNAME W) = false \/ truthy_opt (LT_ACCESS_KEY W) = false ->
  exists duration evs,
    runPlayStoreDownloadFlow W config deviceName s
    = (Returns {| device := deviceName;
                  success := false;
                  duration := duration;
                  error := Some credentials_message;
                  sessionId := None |},
       mkMem (locals s) (evs ++ history s))
    /\ calls_of evs = [].
Proof.
  intros Hmissing.
  unfold runPlayStoreDownloadFlow, invoke, flow. run_step.
  unfold flow_try. run_step.
  rewrite (open_session_without_credentials _ _ Hmissing).
  unfold flow_catch. run_step. cbn [message].
  rewrite error_hint_credentials. unfold flow_finally. run_step.
  cbn [driver fresh_vars].
  eexists _, [_; _; _; _]. split; reflexivity.
Qed.

Section Polite.

Hypothesis polite : rejects_with_errors W.

(** When the provider rejects with errors only, so does the [try] block
    throw errors only. *)
Lemma flow_try_throws_errors deviceName startTime :
  throws_errors (flow_try W config deviceName startTime).
Proof.
  unfold flow_try, open_session, find_search_box, type_query, select_app,
         install_or_open, conclude, scan, attempt.
  destruct (present (LT_USERNAME W)); [destruct (present (LT_ACCESS_KEY W)) |];
    errors_only ltac:(exact polite).
Qed.

(** Then the run returns: the [catch] block finds a message to read, and
    so does the handler of the [finally] block. *)
Lemma run_returns deviceName L (s : Mem L) :
  exists r s1,
    protected_part W config deviceName s = (Returns r, s1)
    /\ runPlayStoreDownloadFlow W config deviceName s
       = (Returns r,
          mkMem (locals s) (finally_events W deviceName s1 ++ history s1)).
Proof.
  assert (Hfin : forall (s1 : Mem FlowVars) c, after_finally W s1 c = c).
  { intros s1 c. unfold after_finally, teardown_error.
    destruct (driver (locals s1)) as [d |]; [| reflexivity].
    destruct (provider W (calls_of (history s1)) (DeleteSession d))
      as [[] | [e | n |]] eqn:Hreply; try reflexivity.
    apply polite in Hreply. discriminate Hreply. }
  rewrite run_shape, Hfin.
  pose proof (protected_part_spec deviceName L s) as Hp.
  destruct (flow_try W config deviceName (clock W (history s)) (entry s))
    as [[r0 | value] s1] eqn:Htry.
  - rewrite Hp. eexists _, _. split; reflexivity.
  - destruct Hp as (lines & Hp & _).
    apply flow_try_throws_errors, has_message_inv in Htry as (e & ->).
    rewrite Hp. eexists _, _. split; reflexivity.
Qed.

End Polite.

(** C3, as the code has it.  When every failure inside the run is an error
    (the provider rejects with [Error] objects only), the run returns a
    result and does not throw, whatever the device and whatever happens.
    When the [try] block threw an error, the result has [success = false],
    the duration computed from the clock, in seconds, and the error's
    message. *)
Theorem run_returns_when_failures_are_errors deviceName L (s : Mem L) :
  rejects_with_errors W ->
  exists r s',
    runPlayStoreDownloadFlow W config deviceName s = (Returns r, s')
    /\ match flow_try W config deviceName (clock W (history s)) (entry s) with
       | (Returns r0, _) => r = r0
       | (Throws value, s1) =>
           exists err,
             value = ErrorObject err
             /\ r = {| device := deviceName;
                       success := false;
                       duration := round_div (clock W (history s1)
                                              - clock W (history s)) 1000;
                       error := Some (message err);
                       sessionId := None |}
       end.
Proof.
  intros polite.
  destruct (run_returns polite deviceName L s) as (r & s1 & _ & Hrun).
  eexists r, _. split; [exact Hrun |].
  apply run_returns_inv in Hrun. exact Hrun.
Qed.

(** C10.  A failed run's result has no session identifier, also when the
    session was open when the run failed; a successful run's result carries
    the identifier the provider returned.  This holds of every result that
    a run returns, and a run does return one when the provider rejects with
    errors only. *)
Theorem failed_run_has_null_sessionId deviceName L (s : Mem L) :
  (forall r s',
     runPlayStoreDownloadFlow W config deviceName s = (Returns r, s') ->
     (success r = false /\ sessionId r = None)
     \/ (success r = true
         /\ exists d sid past,
              provider W past (GetSessionId d) = Returns sid
              /\ sessionId r = Some sid))
  /\ (rejects_with_errors W ->
      exists r s', runPlayStoreDownloadFlow W config deviceName s = (Returns r, s')).
Proof.
  split.
  - intros r s' Hrun. apply run_returns_inv in Hrun.
    destruct (flow_try W config deviceName (clock W (history s)) (entry s))
      as [[r0 | value] s1] eqn:Htry.
    + subst r0. apply flow_try_returns_inv in Htry as (Hs & _ & _ & Hsid).
      right. split; assumption.
    + destruct Hrun as (e & _ & ->). left. split; reflexivity.
  - intros polite.
    destruct (run_returns polite deviceName L s) as (r & s1 & _ & Hrun).
    eexists _, _. exact Hrun.
Qed.

End RunBoundary.

(** The session cannot be opened, which the provider tells with an error. *)
Lemma run_returns_when_failures_are_errors_witness :
  rejects_with_errors session_refused_world
  /\ exists r s',
       runPlayStoreDownloadFlow session_refused_world DEFAULT_CONFIG "Pixel 7"
                                (start tt) = (Returns r, s')
       /\ match flow_try session_refused_world DEFAULT_CONFIG "Pixel 7"
                  (clock session_refused_world (history (start tt)))
                  (entry (start tt)) with
          | (Returns r0, _) => r = r0
          | (Throws value, s1) =>
              exists err,
                value = ErrorObject err
                /\ r = {| device := "Pixel 7";
                          success := false;
                          duration :=
                            round_div (clock session_refused_world (history s1)
                                       - clock session_refused_world
                                           (history (start tt))) 1000;
                          error := Some (message err);
                          sessionId := None |}
          end.
Proof.
  assert (polite : rejects_with_errors session_refused_world).
  { intros past r value. destruct r; cbn; try discriminate.
    intros [= <-]. reflexivity. }
  split; [exact polite |].
  apply (run_returns_when_failures_are_errors session_refused_world
           DEFAULT_CONFIG "Pixel 7" unit (start tt) polite).
Defined.

(** C3 as stated does not hold: the provider rejects the session request
    with [null], the [catch] block throws when it reads the message, and
    the run ends with that [TypeError]. *)
Lemma run_throws_when_rejected_with_null :
  fst (runPlayStoreDownloadFlow null_rejection_world DEFAULT_CONFIG "Pixel 7"
         (start tt))
  = Throws (mkError "Cannot read properties of null (reading 'message')")
  /\ ~ never_throws null_rejection_world DEFAULT_CONFIG "Pixel 7" (start tt).
Proof.
  assert (Hcode : fst (runPlayStoreDownloadFlow null_rejection_world
                         DEFAULT_CONFIG "Pixel 7" (start tt))
                  = Throws (mkError
                      "Cannot read properties of null (reading 'message')"))
    by (vm_compute; reflexivity).
  split; [exact Hcode |].
  intros (r & s' & Hrun). rewrite Hrun in Hcode. discriminate Hcode.
Qed.

(** Neither credential is set. *)
Lemma missing_credentials_witness :
  exists duration evs,
    runPlayStoreDownloadFlow no_credentials_world DEFAULT_CONFIG "Pixel 7" (start tt)
    = (Returns {| device := "Pixel 7";
                  success := false;
                  duration := duration;
                  error := Some credentials_message;
                  sessionId := None |},
       mkMem tt (evs ++ []))
    /\ calls_of evs = [].
Proof.
  apply (missing_credentials_no_remote_calls no_credentials_world DEFAULT_CONFIG
           "Pixel 7" unit (start tt)).
  left. reflexivity.
Defined.

(** ** Scanning a list of strategies *)

(** Ask the provider's answer to the first pending call of the goal, and
    what kind of value it rejected with. *)
Ltac ask_value :=
  match goal with
  | |- context [provider ?w ?past ?r] =>
      destruct (provider w past r) as [? | [? | ? |]] eqn:?
  end; cbn [locals history calls_of fst snd].

(** Decide a test on a value that the provider returned. *)
Ltac split_if :=
  match goal with
  | |- context [if ?b then _ else _] => is_var b; destruct b
  end; cbn [locals history calls_of fst snd].

(** Follow a piece of code through every answer of the provider. *)
Ltac walk := repeat first [ask_value | split_if].

Section ScanFacts.

Variable W : World.

Lemma found_of_assign which el v : found_of which (assign_of which el v) = Some el.
Proof. destruct which; reflexivity. Qed.

(** A failing candidate lets the loop go on and clicks nothing. *)
Lemma attempt_fails which d c (s : Mem FlowVars) :
  fails (probe W (calls_of (history s)) d (selector c)) = true ->
  exists s',
    attempt W d (assign_of which) (text_of which) c s = (Returns Continue, s')
    /\ clicks (history s') = clicks (history s).
Proof.
  unfold probe, attempt. run_step. intros Hfail.
  destruct (provider W (calls_of (history s)) (Dollar d (selector c)))
    as [el | [e | n |]]; cbn [locals history calls_of fails has_message] in *;
    try discriminate Hfail.
  - destruct (provider W (Dollar d (selector c) :: calls_of (history s))
                (IsDisplayed el)) as [[|] | [e | n |]];
      cbn [locals history calls_of fails has_message] in *;
      try discriminate Hfail; eexists; split; reflexivity.
  - eexists. split; reflexivity.
Qed.

(** A visible candidate whose click goes through ends the loop. *)
Lemma attempt_visible which d c (s : Mem FlowVars) el :
  probe W (calls_of (history s)) d (selector c) = Visible el ->
  click_reply W (calls_of (history s)) d (selector c) el = Returns tt ->
  attempt W d (assign_of which) (text_of which) c s
  = (Returns Break,
     mkMem (assign_of which el (locals s))
           ([ ConsoleLog (clicked_line (text_of which));
              Called (Click el);
              ConsoleLog (found_prefix (text_of which) ++ name c);
              Called (IsDisplayed el);
              Called (Dollar d (selector c)) ] ++ history s)).
Proof.
  unfold probe, click_reply, attempt. run_step. intros Hprobe Hclick.
  destruct (provider W (calls_of (history s)) (Dollar d (selector c)))
    as [el' | e]; [| discriminate Hprobe]. cbn [locals history calls_of].
  destruct (provider W (Dollar d (selector c) :: calls_of (history s))
              (IsDisplayed el')) as [[|] | e]; try discriminate Hprobe.
  injection Hprobe as ->. cbn [locals history calls_of].
  rewrite Hclick. reflexivity.
Qed.

(** After failing candidates the scan continues with whatever follows. *)
Lemma scan_all_fail which d pre :
  forall s : Mem FlowVars,
    all_fail W which d pre s = true ->
    clicks (history (snd (scan_of W which d pre s))) = clicks (history s)
    /\ forall tail,
         scan_of W which d (pre ++ tail) s
         = scan_of W which d tail (snd (scan_of W which d pre s)).
Proof.
  unfold scan_of, scan.
  induction pre as [| c pre IH]; intros s Hall.
  - split; [reflexivity | intros tail; reflexivity].
  - cbn [all_fail] in Hall. apply andb_prop in Hall as [Hc Hrest].
    destruct (attempt_fails which d c s Hc) as (s1 & Hattempt & Hclicks).
    rewrite Hattempt in Hrest. cbn [snd] in Hrest.
    destruct (IH s1 Hrest) as [IHclicks IHtail].
    cbn [for_of app]. unfold bind at 1 3. rewrite Hattempt.
    split.
    + rewrite IHclicks. exact Hclicks.
    + intros tail. unfold bind at 1. rewrite Hattempt. apply IHtail.
Qed.

End ScanFacts.

(** ** First visible match *)

Section FirstVisible.

Variable W : World.

(** C5, as the code has it.  When the candidates before [c] throw errors
    or resolve to elements that are not visible, [c] resolves to a visible
    element and the click on it goes through, then [c]'s element is the one
    selected, it is the only element clicked, and the scan ends with that
    click: no candidate after [c] is resolved or touched. *)
Theorem first_visible_wins_when_click_returns which d pre c rest
    (s : Mem FlowVars) el :
  all_fail W which d pre s = true ->
  probe W (calls_of (history (snd (scan_of W which d pre s)))) d (selector c)
  = Visible el ->
  click_reply W (calls_of (history (snd (scan_of W which d pre s)))) d
              (selector c) el = Returns tt ->
  first_visible_wins W which d pre c rest s el.
Proof.
  intros Hpre Hprobe Hclick.
  destruct (scan_all_fail W which d pre s Hpre) as [Hclicks Htail].
  unfold first_visible_wins. rewrite Htail.
  set (sK := snd (scan_of W which d pre s)) in *.
  unfold scan_of, scan. cbn [for_of]. unfold bind at 1.
  rewrite (attempt_visible W which d c sK el Hprobe Hclick).
  unfold ret. eexists. split; [reflexivity |].
  cbn [locals history clicks app]. rewrite found_of_assign, Hclicks.
  repeat split.
Qed.

End FirstVisible.

(** The third search strategy is the first visible one. *)
Lemma first_visible_wins_witness :
  first_visible_wins third_time_lucky_world SearchBox the_driver
    [main_search_box; general_search_box] search_text_strategy
    (skipn 3 searchStrategies) blank (mkElement 3).
Proof.
  apply first_visible_wins_when_click_returns; vm_compute; reflexivity.
Defined.

(** C5 as stated does not hold: the first search strategy resolves to a
    visible element, the click on it is rejected, and the scan goes on to
    the second strategy and selects that one. *)
Lemma first_visible_wins_counterexample :
  all_fail stubborn_world SearchBox the_driver [] blank = true
  /\ probe stubborn_world [] the_driver (selector main_search_box)
     = Visible (mkElement 0)
  /\ ~ first_visible_wins stubborn_world SearchBox the_driver
         [] main_search_box (skipn 1 searchStrategies) blank (mkElement 0).
Proof.
  split; [reflexivity |]. split; [vm_compute; reflexivity |].
  intros (s' & Hscan & Hfound & _).
  assert (Hcode : found_of SearchBox
                    (locals (snd (scan_of stubborn_world SearchBox the_driver
                                          ([] ++ main_search_box
                                              :: skipn 1 searchStrategies) blank)))
                  = Some (mkElement 3))
    by (vm_compute; reflexivity).
  rewrite Hscan in Hcode. cbn [snd] in Hcode. congruence.
Qed.

(** Nor does it hold when a candidate before the visible one throws a
    value that is not an error: the handler of the loop throws when it
    reads the message, and the scan ends there. *)
Example scan_ends_when_a_string_is_thrown :
  probe string_rejection_world [] the_driver (selector main_search_box)
  = Rejected OtherValue
  /\ scan_of string_rejection_world SearchBox the_driver searchStrategies blank
     = (Throws (mkError "Cannot read properties of undefined (reading 'slice')"),
        mkMem fresh_vars [Called (Dollar the_driver (selector main_search_box))]).
Proof. split; vm_compute; reflexivity. Qed.

(** ** Candidates that resolve but are not visible *)

Section HiddenCandidates.

Variable W : World.

(** Once the variable holds an element, no later pass clears it. *)
Lemma attempt_keeps_found which d c (s : Mem FlowVars) :
  found_of which (locals s) <> None ->
  found_of which
    (locals (snd (attempt W d (assign_of which) (text_of which) c s))) <> None.
Proof.
  intros Hfound. unfold attempt. run_step.
  walk; cbn [locals snd];
    first [exact Hfound | rewrite found_of_assign; discriminate].
Qed.

Lemma scan_keeps_found which d cands :
  forall s : Mem FlowVars,
    found_of which (locals s) <> None ->
    found_of which (locals (snd (scan_of W which d cands s))) <> None.
Proof.
  unfold scan_of, scan.
  induction cands as [| c rest IH]; intros s Hfound; [exact Hfound |].
  cbn [for_of]. unfold bind at 1.
  pose proof (attempt_keeps_found which d c s Hfound) as Hstep.
  destruct (attempt W d (assign_of which) (text_of which) c s)
    as [[[|] | e] s1]; cbn [snd] in *; try exact Hstep.
  apply IH. exact Hstep.
Qed.

(** The assignment comes before the visibility test: a candidate that
    resolves to an element that is not displayed leaves that element in the
    variable, so the test after the loop does not see that nothing was
    found. *)
Lemma hidden_candidate_is_kept which d c rest (s : Mem FlowVars) el :
  probe W (calls_of (history s)) d (selector c) = Hidden el ->
  found_of which (locals (snd (scan_of W which d (c :: rest) s))) <> None.
Proof.
  intros Hprobe. unfold scan_of, scan. cbn [for_of]. unfold bind at 1.
  assert (Hstep : attempt W d (assign_of which) (text_of which) c s
                  = (Returns Continue,
                     mkMem (assign_of which el (locals s))
                           (Called (IsDisplayed el)
                            :: Called (Dollar d (selector c)) :: history s))).
  { revert Hprobe. unfold probe, attempt. run_step.
    destruct (provider W (calls_of (history s)) (Dollar d (selector c)))
      as [el' | e]; [| discriminate]. cbn [locals history calls_of].
    destruct (provider W (Dollar d (selector c) :: calls_of (history s))
                (IsDisplayed el')) as [[|] | e]; try discriminate.
    intros [= ->]. reflexivity. }
  rewrite Hstep. apply (scan_keeps_found which d rest).
  cbn [locals]. rewrite found_of_assign. discriminate.
Qed.

(** Candidates that are all rejected with errors leave the variable as it
    was. *)
Lemma attempt_rejected which d c (s : Mem FlowVars) (e : Error) :
  probe W (calls_of (history s)) d (selector c) = Rejected e ->
  attempt W d (assign_of which) (text_of which) c s
  = (Returns Continue,
     mkMem (locals s)
           (ConsoleLog (failed_prefix (text_of which) ++ name c ++ ": "
                        ++ slice0 (message e) 50 ++ "...")
            :: Called (Dollar d (selector c)) :: history s)).
Proof.
  unfold probe, attempt. run_step.
  destruct (provider W (calls_of (history s)) (Dollar d (selector c)))
    as [el | e']; cbn [locals history calls_of].
  - destruct (provider W (Dollar d (selector c) :: calls_of (history s))
                (IsDisplayed el)) as [[|] | e'']; discriminate.
  - intros [= ->]. reflexivity.
Qed.

Lemma scan_all_rejected which d cands :
  forall s : Mem FlowVars,
    all_rejected W which d cands s = true ->
    fst (scan_of W which d cands s) = Returns tt
    /\ locals (snd (scan_of W which d cands s)) = locals s.
Proof.
  unfold scan_of, scan.
  induction cands as [| c rest IH]; intros s Hall; [split; reflexivity |].
  cbn [all_rejected] in Hall. cbn [for_of]. unfold bind at 1 2.
  destruct (probe W (calls_of (history s)) d (selector c))
    as [[e | n |] | | |] eqn:Hprobe; try discriminate Hall.
  rewrite (attempt_rejected which d c s e Hprobe) in *. cbn [snd] in Hall.
  apply IH in Hall. exact Hall.
Qed.

(** The search-box step does fail with the not-found error when
    [driver.$] rejects every search selector with an error. *)
Lemma search_box_not_found_when_all_rejected d (s : Mem FlowVars) :
  searchElement (locals s) = None ->
  all_rejected W SearchBox d searchStrategies
    (mkMem (locals s) (ConsoleLog " Searching for the search box..." :: history s))
  = true ->
  fst (find_search_box W d s) = Throws (mkError " Search box not found.").
Proof.
  intros Hnone Hall. apply scan_all_rejected in Hall as [Hret Hlocals].
  unfold scan_of in Hret, Hlocals. cbn [assign_of text_of] in Hret, Hlocals.
  unfold find_search_box. unfold bind at 1. unfold console_log, emit.
  unfold bind at 1.
  destruct (scan W d set_searchElement search_text searchStrategies
              (mkMem (locals s)
                     (ConsoleLog " Searching for the search box..." :: history s)))
    as [[[] | e] s1]; cbn [fst snd locals] in *; [| discriminate Hret].
  run_step. rewrite Hlocals, Hnone. reflexivity.
Qed.

End HiddenCandidates.

(** C1 fails on the code.  In a world where each of the five search-box
    selectors resolves to an element that is not displayed, every candidate
    fails, yet the search-box step returns without the not-found error, the
    variable holds the last hidden element, no search box is ever clicked,
    and the run goes on to report success. *)
Theorem hidden_search_box_is_accepted :
  all_fail hidden_search_box_world SearchBox the_driver searchStrategies blank
  = true
  /\ fst (find_search_box hidden_search_box_world the_driver blank) = Returns tt
  /\ searchElement
       (locals (snd (find_search_box hidden_search_box_world the_driver blank)))
     = Some (mkElement 8)
  /\ probe hidden_search_box_world
       (calls_of (skipn 2 (history (snd (find_search_box hidden_search_box_world
                                                          the_driver blank)))))
       the_driver (selector (nth 4 searchStrategies main_search_box))
     = Hidden (mkElement 8)
  /\ clicks (history (snd (find_search_box hidden_search_box_world the_driver
                                           blank))) = []
  /\ fst (runPlayStoreDownloadFlow hidden_search_box_world DEFAULT_CONFIG
            "Pixel 7" (start tt))
     = Returns {| device := "Pixel 7";
                  success := true;
                  duration := 45;
                  error := None;
                  sessionId := Some "session-0001" |}.
Proof.
  repeat split; vm_compute; reflexivity.
Qed.

(** ** Install, or else Open *)

Section InstallOrOpen.

Variable W : World.
Variable config : ConfigObject.

Lemma flow_try_split deviceName startTime (s : Mem FlowVars) :
  flow_try W config deviceName startTime s
  = bind (steps_before_install W config deviceName)
         (fun ds => install_or_open W (fst ds) ;;
                    conclude W deviceName startTime (fst ds) (snd ds)) s.
Proof.
  unfold flow_try, steps_before_install, bind, ret.
  destruct (open_session W deviceName s) as [[ds | e] s1]; [| reflexivity].
  destruct (find_search_box W (fst ds) s1) as [[[] | e] s2]; [| reflexivity].
  destruct (type_query W (fst ds) (appToSearch_setting config) s2)
    as [[[] | e] s3]; [| reflexivity].
  destruct (select_app W (fst ds) (appToSearch_setting config) s3)
    as [[[] | e] s4]; reflexivity.
Qed.

(** What step 4 does, case by case.  When the Install button resolves: if
    it is displayed it is clicked and the Open button is not looked for; if
    it is not displayed, the Open button is looked for and, when displayed,
    clicked; when neither is displayed the step throws the
    no-actionable-button error and clicks nothing. *)
Lemma install_or_open_cases d (s : Mem FlowVars) installButton
    isInstallButtonVisible :
  provider W (calls_of (history s)) (Dollar d install_selector)
  = Returns installButton ->
  provider W (Dollar d install_selector :: calls_of (history s))
           (IsDisplayed installButton)
  = Returns isInstallButtonVisible ->
  let past := IsDisplayed installButton :: Dollar d install_selector
              :: calls_of (history s) in
  let after := snd (install_or_open W d s) in
  if isInstallButtonVisible then
    clicks (history after) = installButton :: clicks (history s)
    /\ resolutions (history after) = install_selector :: resolutions (history s)
  else
    forall openOrUpdateButton isButtonVisible,
      provider W past (Dollar d open_selector) = Returns openOrUpdateButton ->
      provider W (Dollar d open_selector :: past) (IsDisplayed openOrUpdateButton)
      = Returns isButtonVisible ->
      if isButtonVisible then
        clicks (history after) = openOrUpdateButton :: clicks (history s)
      else
        fst (install_or_open W d s) = Throws (mkError no_button_message)
        /\ clicks (history after) = clicks (history s).
Proof.
  intros Hinstall Hshown past after. subst past after.
  unfold install_or_open. run_step. rewrite Hinstall. cbn [locals history calls_of].
  rewrite Hshown. destruct isInstallButtonVisible; cbn [locals history calls_of].
  - destruct (provider W _ (Click installButton)); cbn [snd history];
      split; reflexivity.
  - intros openOrUpdateButton isButtonVisible Hopen Hshown'.
    rewrite Hopen. cbn [locals history calls_of]. rewrite Hshown'.
    destruct isButtonVisible; cbn [locals history calls_of].
    + destruct (provider W _ (Click openOrUpdateButton)); cbn [snd history];
        reflexivity.
    + cbn [fst snd history]. split; reflexivity.
Qed.

(** The only selectors that step 4 asks the provider to resolve are the
    Install selector and, after it, the Open selector. *)
Lemma install_or_open_resolutions d (s : Mem FlowVars) :
  exists sels,
    resolutions (history (snd (install_or_open W d s)))
    = sels ++ resolutions (history s)
    /\ (sels = [install_selector] \/ sels = [open_selector; install_selector]).
Proof.
  unfold install_or_open. run_step.
  walk; cbn [snd history resolutions];
    first [ exists [install_selector]; split; [reflexivity | left; reflexivity]
          | exists [open_selector; install_selector];
            split; [reflexivity | right; reflexivity] ].
Qed.

End InstallOrOpen.

(** The states in which sample runs on "Pixel 7" reach the detail page. *)
Example detail_page_is_reached :
  fst (steps_before_install update_only_world DEFAULT_CONFIG "Pixel 7"
         (entry (start tt)))
  = Returns (the_driver, "session-0001").
Proof. vm_compute. reflexivity. Qed.

(** C7 fails on the code.  Step 4 announces that it looks for an Open or
    an Update button, but the one selector it sends after the Install
    selector asks for a text that contains Open; neither selector mentions
    Update.  On a detail page whose only button is Update, the element that
    the Open selector resolves to is not displayed, nothing is clicked, and
    the run fails with the no-actionable-button error.  On a page with an
    Open button the substitute works as claimed. *)
Theorem update_button_is_not_looked_for :
  (forall W d (s : Mem FlowVars),
     exists sels,
       resolutions (history (snd (install_or_open W d s)))
       = sels ++ resolutions (history s)
       /\ (sels = [install_selector] \/ sels = [open_selector; install_selector]))
  /\ includes install_selector "Update" = false
  /\ includes open_selector "Update" = false
  /\ (let s := snd (steps_before_install update_only_world DEFAULT_CONFIG
                      "Pixel 7" (entry (start tt))) in
      In (ConsoleLog " Searching for 'Open' or 'Update' button as an alternative...")
         (history (snd (install_or_open update_only_world the_driver s)))
      /\ resolutions (history (snd (install_or_open update_only_world the_driver s)))
         = [open_selector; install_selector] ++ resolutions (history s)
      /\ clicks (history (snd (install_or_open update_only_world the_driver s)))
         = clicks (history s)
      /\ fst (install_or_open update_only_world the_driver s)
         = Throws (mkError no_button_message))
  /\ fst (runPlayStoreDownloadFlow update_only_world DEFAULT_CONFIG "Pixel 7"
            (start tt))
     = Returns {| device := "Pixel 7";
                  success := false;
                  duration := 40;
                  error := Some no_button_message;
                  sessionId := None |}
  /\ fst (runPlayStoreDownloadFlow open_button_world DEFAULT_CONFIG "Pixel 7"
            (start tt))
     = Returns {| device := "Pixel 7";
                  success := true;
                  duration := 44;
                  error := None;
                  sessionId := Some "session-0001" |}.
Proof.
  split; [intros W d s; apply install_or_open_resolutions |].
  split; [vm_compute; reflexivity |].
  split; [vm_compute; reflexivity |].
  split.
  - cbv zeta. split; [| repeat split; vm_compute; reflexivity].
    vm_compute. do 3 right. left. reflexivity.
  - split; vm_compute; reflexivity.
Qed.

(** ** Session teardown *)

Create HintDb quiet.

Section Quiet.

Variable W : World.

Lemma quiet_ret {A} (a : A) : quiet (ret a).
Proof. intros s. split; [reflexivity | exists []; split; reflexivity]. Qed.

Lemma quiet_throw {A} msg : quiet (@throw FlowVars A msg).
Proof. intros s. split; [reflexivity | exists []; split; reflexivity]. Qed.

Lemma quiet_get_locals : quiet (@get_locals FlowVars).
Proof. intros s. split; [reflexivity | exists []; split; reflexivity]. Qed.

Lemma quiet_message_of value : quiet (message_of W value).
Proof. destruct value; [apply quiet_ret | apply quiet_throw | apply quiet_ret]. Qed.

Lemma quiet_receiver m method : quiet (receiver W m method).
Proof. destruct m; [apply quiet_ret | apply quiet_throw]. Qed.

Lemma quiet_emit ev : session_free_event ev = true -> quiet (emit ev).
Proof.
  intros Hev s. split; [reflexivity |].
  exists [ev]. split; [reflexivity |]. cbn. rewrite Hev. reflexivity.
Qed.

Lemma quiet_console_log line : quiet (console_log line).
Proof. apply quiet_emit. reflexivity. Qed.

Lemma quiet_console_error line : quiet (console_error line).
Proof. apply quiet_emit. reflexivity. Qed.

Lemma quiet_Date_now : quiet (Date_now W).
Proof.
  intros s. split; [reflexivity |]. exists [DateNow]. split; reflexivity.
Qed.

Lemma quiet_await r : session_free_event (Called r) = true -> quiet (await W r).
Proof.
  intros Hr s. split; [reflexivity |].
  exists [Called r]. split; [reflexivity |]. cbn [session_free forallb].
  rewrite Hr. reflexivity.
Qed.

Lemma quiet_getSessionId d : quiet (getSessionId W d).
Proof. apply quiet_await. reflexivity. Qed.
Lemma quiet_pause d ms : quiet (pause W d ms).
Proof. apply quiet_await. reflexivity. Qed.
Lemma quiet_dollar d sel : quiet (dollar W d sel).
Proof. apply quiet_await. reflexivity. Qed.
Lemma quiet_isDisplayed el : quiet (isDisplayed W el).
Proof. apply quiet_await. reflexivity. Qed.
Lemma quiet_click el : quiet (click W el).
Proof. apply quiet_await. reflexivity. Qed.
Lemma quiet_setValue el v : quiet (setValue W el v).
Proof. apply quiet_await. reflexivity. Qed.
Lemma quiet_pressKeyCode d n : quiet (pressKeyCode W d n).
Proof. apply quiet_await. reflexivity. Qed.

Lemma quiet_modify_locals f :
  (forall v, driver (f v) = driver v) -> quiet (modify_locals f).
Proof.
  intros Hf s. split; [apply Hf |]. exists []. split; reflexivity.
Qed.

Lemma session_free_app evs1 evs2 :
  session_free evs1 = true -> session_free evs2 = true ->
  session_free (evs2 ++ evs1) = true.
Proof.
  unfold session_free. intros H1 H2. rewrite forallb_app, H1, H2. reflexivity.
Qed.

Lemma quiet_bind {A B} (m : M FlowVars A) (k : A -> M FlowVars B) :
  quiet m -> (forall a, quiet (k a)) -> quiet (bind m k).
Proof.
  intros Hm Hk s. unfold bind.
  destruct (Hm s) as (Hd & evs & Hh & Hfree).
  destruct (m s) as [[a | e] s1]; cbn [snd] in *.
  - destruct (Hk a s1) as (Hd' & evs' & Hh' & Hfree').
    split; [congruence |].
    exists (evs' ++ evs). rewrite Hh', Hh, app_assoc.
    split; [reflexivity | apply session_free_app; assumption].
  - split; [exact Hd |]. exists evs. split; assumption.
Qed.

Lemma quiet_try_catch {A} (m : M FlowVars A) (h : Thrown -> M FlowVars A) :
  quiet m -> (forall e, quiet (h e)) -> quiet (try_catch m h).
Proof.
  intros Hm Hh s. unfold try_catch.
  destruct (Hm s) as (Hd & evs & Hhist & Hfree).
  destruct (m s) as [[a | e] s1]; cbn [snd] in *.
  - split; [exact Hd |]. exists evs. split; assumption.
  - destruct (Hh e s1) as (Hd' & evs' & Hhist' & Hfree').
    split; [congruence |].
    exists (evs' ++ evs). rewrite Hhist', Hhist, app_assoc.
    split; [reflexivity | apply session_free_app; assumption].
Qed.

Lemma quiet_if {A} (b : bool) (m1 m2 : M FlowVars A) :
  quiet m1 -> quiet m2 -> quiet (if b then m1 else m2).
Proof. destruct b; intros; assumption. Qed.

Lemma quiet_option {A B} (o : option B) (m1 : B -> M FlowVars A) m2 :
  (forall b, quiet (m1 b)) -> quiet m2 ->
  quiet (match o with Some b => m1 b | None => m2 end).
Proof. destruct o; intros; auto. Qed.

Lemma quiet_for_of {A} (xs : list A) (body : A -> M FlowVars LoopControl) :
  (forall x, quiet (body x)) -> quiet (for_of xs body).
Proof.
  intros Hbody. induction xs as [| x rest IH]; cbn [for_of].
  - apply quiet_ret.
  - apply quiet_bind; [apply Hbody |].
    intros [|]; [exact IH | apply quiet_ret].
Qed.

#[local] Hint Resolve quiet_ret quiet_throw quiet_get_locals quiet_console_log
  quiet_console_error quiet_Date_now quiet_getSessionId quiet_pause
  quiet_dollar quiet_isDisplayed quiet_click quiet_setValue quiet_pressKeyCode
  quiet_message_of quiet_receiver
  quiet_bind quiet_try_catch quiet_if quiet_option quiet_for_of : quiet.

Lemma assign_keeps_driver which el v : driver (assign_of which el v) = driver v.
Proof. destruct which; reflexivity. Qed.

Lemma quiet_attempt which d c :
  quiet (attempt W d (assign_of which) (text_of which) c).
Proof.
  unfold attempt.
  apply quiet_try_catch; [| auto 10 with quiet].
  apply quiet_bind; [auto with quiet | intros el].
  apply quiet_bind;
    [apply quiet_modify_locals; intros v; apply assign_keeps_driver | intros _].
  auto 10 with quiet.
Qed.

Lemma quiet_scan which d cands : quiet (scan_of W which d cands).
Proof. apply quiet_for_of. intros c. apply quiet_attempt. Qed.

Lemma quiet_find_search_box d : quiet (find_search_box W d).
Proof.
  unfold find_search_box.
  apply quiet_bind; [auto with quiet | intros _].
  apply quiet_bind; [apply (quiet_scan SearchBox) | intros _].
  apply quiet_bind; [auto with quiet | intros v].
  destruct (searchElement v); auto with quiet.
Qed.

Lemma quiet_type_query d app : quiet (type_query W d app).
Proof. unfold type_query. auto 12 with quiet. Qed.

Lemma quiet_select_app d app : quiet (select_app W d app).
Proof.
  unfold select_app.
  apply quiet_bind; [auto with quiet | intros _].
  apply quiet_bind; [apply (quiet_scan AppEntry) | intros _].
  apply quiet_bind; [auto with quiet | intros v].
  apply quiet_bind; [destruct (appElement v); auto with quiet | intros _].
  auto with quiet.
Qed.

Lemma quiet_install_or_open d : quiet (install_or_open W d).
Proof. unfold install_or_open. auto 14 with quiet. Qed.

Lemma quiet_conclude deviceName startTime d sid :
  quiet (conclude W deviceName startTime d sid).
Proof. unfold conclude. auto 10 with quiet. Qed.

Lemma quiet_flow_catch deviceName startTime value :
  quiet (flow_catch W deviceName startTime value).
Proof.
  unfold flow_catch.
  do 5 (apply quiet_bind; [auto with quiet | intros ?]).
  apply quiet_bind; [| auto with quiet].
  match goal with |- context [error_hint ?m] => destruct (error_hint m) end;
    auto with quiet.
Qed.

End Quiet.

#[local] Hint Resolve quiet_ret quiet_throw quiet_get_locals quiet_console_log
  quiet_console_error quiet_Date_now quiet_getSessionId quiet_pause
  quiet_dollar quiet_isDisplayed quiet_click quiet_setValue quiet_pressKeyCode
  quiet_message_of quiet_receiver
  quiet_bind quiet_try_catch quiet_if quiet_option quiet_for_of
  quiet_find_search_box quiet_type_query quiet_select_app
  quiet_install_or_open quiet_conclude quiet_flow_catch : quiet.

Section Teardown.

Variable W : World.
Variable config : ConfigObject.

Lemma calls_of_app evs1 evs2 :
  calls_of (evs2 ++ evs1) = calls_of evs2 ++ calls_of evs1.
Proof.
  induction evs2 as [| ev rest IH]; [reflexivity |].
  destruct ev; cbn [app calls_of]; rewrite IH; reflexivity.
Qed.

Lemma teardowns_app evs1 evs2 :
  teardowns (evs2 ++ evs1) = teardowns evs2 ++ teardowns evs1.
Proof.
  induction evs2 as [| ev rest IH]; [reflexivity |].
  destruct ev as [r | | | |]; cbn [app teardowns]; try exact IH.
  destruct r; cbn [app]; rewrite IH; reflexivity.
Qed.

Lemma sessions_opened_app base evs1 evs2 :
  sessions_opened W base (evs2 ++ evs1)
  = sessions_opened W (calls_of evs1 ++ base) evs2 ++ sessions_opened W base evs1.
Proof.
  induction evs2 as [| ev rest IH]; [reflexivity |].
  destruct ev as [r | | | |]; cbn [app sessions_opened]; try exact IH.
  rewrite calls_of_app, <- app_assoc.
  destruct r; try exact IH.
  destruct (provider W (calls_of rest ++ calls_of evs1 ++ base) (Remote opts));
    cbn [app]; rewrite IH; reflexivity.
Qed.

Lemma session_free_silent base evs :
  session_free evs = true ->
  teardowns evs = [] /\ sessions_opened W base evs = [].
Proof.
  induction evs as [| ev rest IH]; [split; reflexivity |].
  cbn [session_free forallb]. intros H. apply andb_prop in H as [Hev Hrest].
  destruct (IH Hrest) as [IHt IHs].
  destruct ev as [r | | | |]; cbn [teardowns sessions_opened]; try (split; assumption).
  destruct r; try discriminate Hev; split; assumption.
Qed.

Lemma tracked_quiet {A} h0 (s : Mem FlowVars) (m : M FlowVars A) :
  tracked W h0 s -> quiet m -> tracked W h0 (snd (m s)).
Proof.
  intros (evs & Hh & Ht & Ho) Hm.
  destruct (Hm s) as (Hd & evs' & Hh' & Hfree).
  destruct (session_free_silent (calls_of evs ++ calls_of h0) evs' Hfree)
    as [Ht' Ho'].
  exists (evs' ++ evs). rewrite Hh', Hh, app_assoc. split; [reflexivity |].
  rewrite teardowns_app, Ht, Ht', sessions_opened_app, Ho', Ho, Hd.
  split; reflexivity.
Qed.

Lemma open_session_tracked deviceName (s : Mem FlowVars) :
  driver (locals s) = None ->
  tracked W (history s) (snd (open_session W deviceName s)).
Proof.
  intros Hnone. unfold open_session.
  destruct (present (LT_USERNAME W)) as [username |];
    [destruct (present (LT_ACCESS_KEY W)) as [accessKey |] |];
    try (exists []; cbn; rewrite Hnone; repeat split).
  run_step.
  match goal with
  | |- context [provider W ?past (Remote ?opts)] =>
      destruct (provider W past (Remote opts)) as [d | e] eqn:Hremote
  end; cbn [locals history calls_of fst snd].
  - repeat ask; unfold tracked; cbn [snd history locals]; exists_prefix;
      cbn [teardowns sessions_opened calls_of app locals driver set_driver
           list_of_option];
      rewrite Hremote; split; reflexivity.
  - unfold tracked; cbn [snd history locals]; exists_prefix.
    cbn [teardowns sessions_opened calls_of app locals].
    rewrite Hremote, Hnone. split; reflexivity.
Qed.

Lemma flow_try_tracked deviceName startTime (s : Mem FlowVars) :
  driver (locals s) = None ->
  tracked W (history s) (snd (flow_try W config deviceName startTime s)).
Proof.
  intros Hnone. pose proof (open_session_tracked deviceName s Hnone) as Hopen.
  unfold flow_try. unfold bind at 1.
  destruct (open_session W deviceName s) as [[ds | e] s1]; cbn [snd] in *;
    [| exact Hopen].
  match goal with
  | |- tracked _ _ (snd (?m s1)) => apply (tracked_quiet (history s) s1 m Hopen)
  end.
  auto 10 with quiet.
Qed.

(** The state after the [try] and [catch] blocks, before [finally]: no
    session was closed, and [driver] holds the session that was opened, if
    one was. *)
Lemma protected_part_tracked deviceName L (s : Mem L) :
  tracked W (history (entry s)) (snd (protected_part W config deviceName s)).
Proof.
  pose proof (flow_try_tracked deviceName (clock W (history s)) (entry s)
                               eq_refl) as Htry.
  unfold protected_part, try_catch.
  destruct (flow_try W config deviceName (clock W (history s)) (entry s))
    as [[r0 | value] s1]; cbn [snd] in Htry; [exact Htry |].
  apply (tracked_quiet (history (entry s)) s1 _ Htry
           (quiet_flow_catch W deviceName (clock W (history s)) value)).
Qed.

Lemma teardown_events_facts deviceName d past base :
  teardowns (teardown_events W deviceName d past) = [d]
  /\ sessions_opened W base (teardown_events W deviceName d past) = [].
Proof.
  unfold teardown_events.
  destruct (provider W past (DeleteSession d)) as [[] | [e | n |]];
    split; reflexivity.
Qed.

(** An answer to the teardown that is not [null] or [undefined] has no
    influence on how the run ends. *)
Lemma teardown_reply_is_ignored reply deviceName L (s : Mem L) :
  never_nullish reply ->
  fst (runPlayStoreDownloadFlow (with_teardown_reply W reply) config deviceName s)
  = fst (protected_part W config deviceName s).
Proof.
  intros Hreply. rewrite run_shape. cbn [fst].
  change (protected_part (with_teardown_reply W reply) config deviceName s)
    with (protected_part W config deviceName s).
  destruct (protected_part W config deviceName s) as [c s1]. cbn [fst snd].
  unfold after_finally, teardown_error.
  destruct (driver (locals s1)) as [d |]; [| reflexivity].
  cbn [provider with_teardown_reply].
  destruct (reply (calls_of (history s1)) d) as [[] | [e | n |]] eqn:Hr;
    try reflexivity.
  exfalso. apply (Hreply _ _ _ Hr).
Qed.

(** C6, as the code has it.  The run tears down exactly the sessions it
    opened: once when [remote] returned a session, not at all when no
    session was opened.  What is printed after the attempt tells whether it
    failed.  With [c] the way the [try] and [catch] blocks ended, the run
    ends in the same way [c] for every answer to the teardown that is not a
    rejection with [null] or [undefined]: neither success nor failure of the
    teardown changes the result.  (When the teardown is rejected with [null]
    or [undefined], the handler of the [finally] block throws, which is what
    [after_finally] says.) *)
Theorem teardown_once_per_opened_session deviceName L (s : Mem L) :
  exists c s1 evs,
    protected_part W config deviceName s = (c, s1)
    /\ runPlayStoreDownloadFlow W config deviceName s
       = (after_finally W s1 c, mkMem (locals s) (evs ++ history s))
    /\ teardowns evs = sessions_opened W (calls_of (history s)) evs
    /\ (List.length (teardowns evs) <= 1)%nat
    /\ match teardowns evs with
       | d :: _ =>
           exists evs',
             evs = teardown_events W deviceName d (calls_of (evs' ++ history s))
                   ++ evs'
       | [] => True
       end
    /\ forall reply,
         never_nullish reply ->
         fst (runPlayStoreDownloadFlow (with_teardown_reply W reply) config
                                       deviceName s)
         = c.
Proof.
  pose proof (protected_part_tracked deviceName L s) as (evs & Hh & Ht & Ho).
  pose proof (fun reply H => teardown_reply_is_ignored reply deviceName L s H)
    as Hreply.
  pose proof (run_shape W config deviceName L s) as Hrun.
  destruct (protected_part W config deviceName s) as [c s1].
  cbn [fst snd history entry calls_of] in *.
  exists c, s1, (finally_events W deviceName s1 ++ evs ++ [DateNow]).
  split; [reflexivity |].
  split.
  { rewrite Hrun, Hh, <- !app_assoc. reflexivity. }
  rewrite !teardowns_app, !sessions_opened_app. cbn [calls_of app].
  rewrite Ht, Ho. unfold finally_events.
  destruct (driver (locals s1)) as [d |].
  - match goal with
    | |- context [sessions_opened W ?base (teardown_events W deviceName d ?past)] =>
        destruct (teardown_events_facts deviceName d past base) as [Hd Hnone]
    end.
    rewrite Hd, Hnone.
    cbn [teardowns sessions_opened app list_of_option List.length].
    split; [reflexivity |]. split; [apply le_n |]. split; [| exact Hreply].
    exists (evs ++ [DateNow]). rewrite Hh, <- !app_assoc. reflexivity.
  - cbn [teardowns sessions_opened app list_of_option List.length].
    split; [reflexivity |]. split; [apply le_0_n |]. split; [exact I | exact Hreply].
Qed.

End Teardown.

(** C6 as stated fails: without credentials no session is opened, and the
    teardown is not attempted at all. *)
Lemma teardown_not_attempted_without_session :
  ~ torn_down_exactly_once no_credentials_world DEFAULT_CONFIG "Pixel 7" (start tt).
Proof.
  intros (r & evs & Hrun & Hlen).
  assert (Hcode : teardowns
                    (history (snd (runPlayStoreDownloadFlow no_credentials_world
                                     DEFAULT_CONFIG "Pixel 7" (start tt)))) = [])
    by (vm_compute; reflexivity).
  rewrite Hrun in Hcode. cbn [snd history start] in Hcode.
  rewrite app_nil_r in Hcode. rewrite Hcode in Hlen. discriminate Hlen.
Qed.

(** It also fails in that a teardown failure can change the result: the
    run succeeds, the teardown is rejected with [undefined], the handler of
    the [finally] block throws when it reads the message, and the run ends
    with that [TypeError] in place of the successful result. *)
Example teardown_rejected_with_undefined_is_thrown :
  fst (protected_part undefined_teardown_world DEFAULT_CONFIG "Pixel 7" (start tt))
  = Returns {| device := "Pixel 7";
               success := true;
               duration := 40;
               error := None;
               sessionId := Some "session-0001" |}
  /\ fst (runPlayStoreDownloadFlow undefined_teardown_world DEFAULT_CONFIG
            "Pixel 7" (start tt))
     = Throws (mkError "Cannot read properties of undefined (reading 'message')")
  /\ teardowns (history (snd (runPlayStoreDownloadFlow undefined_teardown_world
                                DEFAULT_CONFIG "Pixel 7" (start tt))))
     = [the_driver].
Proof. repeat split; vm_compute; reflexivity. Qed.

(** A run that succeeds and then cannot close its session: the failure is
    printed, the result still says success. *)
Example teardown_failure_is_only_logged :
  let outcome := runPlayStoreDownloadFlow teardown_rejected_world DEFAULT_CONFIG
                   "Pixel 7" (start tt) in
  fst outcome = Returns {| device := "Pixel 7";
                           success := true;
                           duration := 40;
                           error := None;
                           sessionId := Some "session-0001" |}
  /\ hd DateNow (history (snd outcome))
     = ConsoleLog " Problem closing session for Pixel 7: socket hang up"
  /\ teardowns (history (snd outcome)) = [the_driver].
Proof. repeat split; vm_compute; reflexivity. Qed.

(** A run that fails with its session open: the result has no session
    identifier, and the session is closed once. *)
Example failure_with_open_session :
  let outcome := runPlayStoreDownloadFlow no_buttons_world DEFAULT_CONFIG
                   "Pixel 7" (start tt) in
  fst outcome = Returns {| device := "Pixel 7";
                           success := false;
                           duration := 40;
                           error := Some no_button_message;
                           sessionId := None |}
  /\ nth 1 (rev (calls_of (history (snd outcome)))) (Pause the_driver 0)
     = GetSessionId the_driver
  /\ teardowns (history (snd outcome)) = [the_driver].
Proof. repeat split; vm_compute; reflexivity. Qed.

(** ** Loading the configuration *)

Section Loading.

Variable W : World.

(** Whatever [require] does, the loading block ends with a configuration. *)
Lemma load_config_never_throws L (s : Mem L) :
  exists cfg s', load_config W s = (Returns cfg, s').
Proof.
  unfold load_config, require_config_module, exported_object. run_step.
  destruct (require_config W) as [[loaded | n] | e];
    try (eexists _, _; reflexivity).
  destruct (invalid_devices (cm_devices loaded)); eexists _, _; reflexivity.
Qed.

Lemma malformed_is_invalid d : malformed d -> invalid_devices d = true.
Proof.
  unfold invalid_devices. intros [-> | [H | ->]]; try reflexivity.
  rewrite H. apply orb_true_iff. left. apply orb_true_r.
Qed.

(** C9, as the code has it.  When the loaded module's [devices] is
    missing, is not an array or is an empty array, and the module accepts an
    assignment to [devices], the loading block prints the warning, takes the
    built-in device list and does not throw. *)
Theorem malformed_devices_fall_back (loaded : ConfigModule) L (s : Mem L) :
  require_config W = Returns (ExportedObject loaded) ->
  malformed (cm_devices loaded) ->
  cm_devices_writable loaded = true ->
  exists cfg,
    load_config W s
    = (Returns cfg,
       mkMem (locals s)
             (ConsoleLog " Invalid config.devices, using default devices"
              :: ConsoleLog "config.js file loaded" :: history s))
    /\ the_devices cfg
       = DevicesArray ["Galaxy S23"; "Galaxy S22"; "Pixel 7"; "Pixel 6"; "Galaxy S24"].
Proof.
  intros Hload Hshape Hwritable. apply malformed_is_invalid in Hshape.
  unfold load_config, require_config_module, exported_object. run_step.
  rewrite Hload, Hshape, Hwritable. eexists. split; reflexivity.
Qed.

(** A module that does not accept the assignment keeps its malformed
    [devices], although the warning is printed. *)
Lemma frozen_devices_stay (loaded : ConfigModule) L (s : Mem L) :
  require_config W = Returns (ExportedObject loaded) ->
  malformed (cm_devices loaded) ->
  cm_devices_writable loaded = false ->
  exists cfg,
    load_config W s
    = (Returns cfg,
       mkMem (locals s)
             (ConsoleLog " Invalid config.devices, using default devices"
              :: ConsoleLog "config.js file loaded" :: history s))
    /\ the_devices cfg = cm_devices loaded.
Proof.
  intros Hload Hshape Hwritable. apply malformed_is_invalid in Hshape.
  unfold load_config, require_config_module, exported_object. run_step.
  rewrite Hload, Hshape, Hwritable. eexists. split; reflexivity.
Qed.

End Loading.

(** The configuration file that ships with the script: its [devices] is an
    object of categories, not an array. *)
Lemma malformed_devices_fall_back_witness :
  exists cfg,
    load_config happy_world (start tt)
    = (Returns cfg,
       mkMem tt [ ConsoleLog " Invalid config.devices, using default devices";
                  ConsoleLog "config.js file loaded" ])
    /\ the_devices cfg
       = DevicesArray ["Galaxy S23"; "Galaxy S22"; "Pixel 7"; "Pixel 6"; "Galaxy S24"].
Proof.
  apply (malformed_devices_fall_back happy_world
           (shipped_config (Some "alice") (Some "0123456789abcdef") None)
           unit (start tt)).
  - reflexivity.
  - right. left. reflexivity.
  - reflexivity.
Defined.

(** C9 as stated does not hold: a module that exports a frozen object with
    an empty device list keeps the empty list.  The warning says that the
    default devices are used, and the batch that follows runs on no device
    at all. *)
Lemma frozen_devices_are_kept :
  require_config (world_with_config (Returns (ExportedObject frozen_empty_config)))
  = Returns (ExportedObject frozen_empty_config)
  /\ malformed (cm_devices frozen_empty_config)
  /\ ~ falls_back_to_default
         (world_with_config (Returns (ExportedObject frozen_empty_config)))
         (start tt)
  /\ load_config (world_with_config (Returns (ExportedObject frozen_empty_config)))
       (start tt)
     = (Returns {| the_devices := DevicesArray []; the_settings := None |},
        mkMem tt [ ConsoleLog " Invalid config.devices, using default devices";
                   ConsoleLog "config.js file loaded" ])
  /\ fst (runAllDevices
            (world_with_config (Returns (ExportedObject frozen_empty_config)))
            {| the_devices := DevicesArray []; the_settings := None |} (start tt))
     = Returns [].
Proof.
  split; [reflexivity |]. split; [right; right; reflexivity |].
  split; [| split; vm_compute; reflexivity].
  intros (cfg & s' & Hload & Hdevices).
  assert (Hcode : the_devices
                    (match fst (load_config
                                  (world_with_config
                                     (Returns (ExportedObject frozen_empty_config)))
                                  (start tt)) with
                     | Returns c => c
                     | Throws _ => as_object DEFAULT_CONFIG
                     end) = DevicesArray [])
    by (vm_compute; reflexivity).
  rewrite Hload in Hcode. cbn [fst] in Hcode. rewrite Hdevices in Hcode.
  discriminate Hcode.
Qed.

(** With the shipped configuration frozen, the object of categories stays,
    and the batch throws when it calls [join] on it; the script exits with
    code 1 without having run on any device. *)
Example frozen_categories_end_the_batch :
  let W := world_with_config (Returns (ExportedObject frozen_shipped_config)) in
  fst (run_script W) = Returns 1%Z
  /\ calls_of (history (snd (run_script W))) = []
  /\ nth 1 (history (snd (run_script W))) DateNow
     = ConsoleError " General error during execution: devices.join is not a function".
Proof. repeat split; vm_compute; reflexivity. Qed.

(** ** The exit code *)

Section ExitCode.

Variable W : World.

Lemma some_success results :
  (0 <? List.length (filter success results))%nat = existsb success results.
Proof.
  induction results as [| r rest IH]; [reflexivity |].
  cbn [filter existsb]. destruct (success r); [reflexivity | exact IH].
Qed.

Lemma banner_returns L (s : Mem L) : exists s1, banner W s = (Returns tt, s1).
Proof. unfold banner. run_step. eexists. reflexivity. Qed.

Lemma main_exit_code L (all : M L (list RunResult))
    (s : Mem L) :
  exists code s',
    main_with W all s = (Returns code, s')
    /\ match all (snd (banner W s)) with
       | (Returns results, _) =>
           code = if existsb success results then 0%Z else 1%Z
       | (Throws _, _) => code = 1%Z
       end.
Proof.
  unfold main_with. unfold bind at 1.
  destruct (banner_returns L s) as (s1 & Hbanner). rewrite Hbanner. cbn [snd].
  unfold try_catch, bind at 1.
  destruct (all s1) as [[results | [e | n |]] s2].
  - run_step. rewrite some_success. eexists _, _. split; reflexivity.
  - run_step. eexists _, _. split; reflexivity.
  - run_step. eexists _, _. split; reflexivity.
  - run_step. eexists _, _. split; reflexivity.
Qed.


End ExitCode.

Example exit_code_with_a_success : fst (run_script happy_world) = Returns 0%Z.
Proof. vm_compute. reflexivity. Qed.

Example exit_code_without_a_success :
  fst (run_script no_credentials_world) = Returns 1%Z.
Proof. vm_compute. reflexivity. Qed.

(** ** Events a piece of code can produce *)

Section Footprint.

Variable W : World.
Variable P : Event -> bool.

Lemma eo_ret {L A} (a : A) : emits_only P (@ret L A a).
Proof. intros s. exists []. split; reflexivity. Qed.

Lemma eo_throw {L A} msg : emits_only P (@throw L A msg).
Proof. intros s. exists []. split; reflexivity. Qed.

Lemma eo_get_locals {L} : emits_only P (@get_locals L).
Proof. intros s. exists []. split; reflexivity. Qed.

Lemma eo_modify_locals {L} (f : L -> L) : emits_only P (modify_locals f).
Proof. intros s. exists []. split; reflexivity. Qed.

Lemma eo_message_of {L} value : emits_only P (@message_of W L value).
Proof. destruct value; [apply eo_ret | apply eo_throw | apply eo_ret]. Qed.

Lemma eo_receiver {L} m method : emits_only P (@receiver W L m method).
Proof. destruct m; [apply eo_ret | apply eo_throw]. Qed.

Lemma eo_emit {L} ev : P ev = true -> emits_only P (@emit L ev).
Proof.
  intros Hev s. exists [ev]. split; [reflexivity |]. cbn. rewrite Hev. reflexivity.
Qed.

Lemma eo_Date_now {L} : P DateNow = true -> emits_only P (@Date_now W L).
Proof.
  intros Hev s. exists [DateNow]. split; [reflexivity |].
  cbn. rewrite Hev. reflexivity.
Qed.

Lemma eo_await {L} r : P (Called r) = true -> emits_only P (@await W L r).
Proof.
  intros Hev s. exists [Called r]. split; [reflexivity |].
  cbn. rewrite Hev. reflexivity.
Qed.

Lemma eo_bind {L A B} (m : M L A) (k : A -> M L B) :
  emits_only P m -> (forall a, emits_only P (k a)) -> emits_only P (bind m k).
Proof.
  intros Hm Hk s. unfold bind.
  destruct (Hm s) as (evs & Hh & Hev).
  destruct (m s) as [[a | e] s1]; cbn [snd] in *.
  - destruct (Hk a s1) as (evs' & Hh' & Hev').
    exists (evs' ++ evs). rewrite Hh', Hh, app_assoc, forallb_app, Hev, Hev'.
    split; reflexivity.
  - exists evs. split; assumption.
Qed.

Lemma eo_try_catch {L A} (m : M L A) (h : Thrown -> M L A) :
  emits_only P m -> (forall e, emits_only P (h e)) -> emits_only P (try_catch m h).
Proof.
  intros Hm Hh s. unfold try_catch.
  destruct (Hm s) as (evs & Hhist & Hev).
  destruct (m s) as [[a | e] s1]; cbn [snd] in *.
  - exists evs. split; assumption.
  - destruct (Hh e s1) as (evs' & Hhist' & Hev').
    exists (evs' ++ evs). rewrite Hhist', Hhist, app_assoc, forallb_app, Hev, Hev'.
    split; reflexivity.
Qed.

Lemma eo_try_finally {L A} (m : M L A) (cleanup : M L unit) :
  emits_only P m -> emits_only P cleanup -> emits_only P (try_finally m cleanup).
Proof.
  intros Hm Hc s. unfold try_finally.
  destruct (Hm s) as (evs & Hhist & Hev).
  destruct (m s) as [r s1]; cbn [snd] in *.
  destruct (Hc s1) as (evs' & Hhist' & Hev').
  exists (evs' ++ evs).
  destruct (cleanup s1) as [[[] | e] s2]; cbn [snd] in *;
    rewrite Hhist', Hhist, app_assoc, forallb_app, Hev, Hev'; split; reflexivity.
Qed.

Lemma eo_if {L A} (b : bool) (m1 m2 : M L A) :
  emits_only P m1 -> emits_only P m2 -> emits_only P (if b then m1 else m2).
Proof. destruct b; intros; assumption. Qed.

Lemma eo_option {L A B} (o : option B) (m1 : B -> M L A) m2 :
  (forall b, emits_only P (m1 b)) -> emits_only P m2 ->
  emits_only P (match o with Some b => m1 b | None => m2 end).
Proof. destruct o; intros; auto. Qed.

Lemma eo_for_of {L A} (xs : list A) (body : A -> M L LoopControl) :
  (forall x, emits_only P (body x)) -> emits_only P (for_of xs body).
Proof.
  intros Hbody. induction xs as [| x rest IH]; cbn [for_of].
  - apply eo_ret.
  - apply eo_bind; [apply Hbody |]. intros [|]; [exact IH | apply eo_ret].
Qed.

Lemma eo_invoke {L L' A} (fresh : L') (m : M L' A) :
  emits_only P m -> emits_only P (@invoke L L' A fresh m).
Proof.
  intros Hm s. unfold invoke.
  destruct (Hm (mkMem fresh (history s))) as (evs & Hh & Hev).
  destruct (m (mkMem fresh (history s))) as [r s1]; cbn [snd history] in *.
  exists evs. split; assumption.
Qed.

End Footprint.

(** Decompose a piece of code down to its events, leaving the events that
    need an argument of their own. *)
Ltac footprint_using known :=
  unfold remote, getSessionId, pause, dollar, isDisplayed, click, setValue,
         pressKeyCode, deleteSession, sleep, console_log, console_error;
  repeat (intros;
          first [ known | apply eo_ret | apply eo_throw | apply eo_get_locals
                | apply eo_modify_locals | apply eo_message_of
                | apply eo_receiver
                | apply eo_try_catch | apply eo_try_finally
                | apply eo_if | apply eo_option | apply eo_for_of
                | apply eo_invoke
                | apply eo_emit; reflexivity
                | apply eo_Date_now; reflexivity
                | apply eo_await; reflexivity
                | apply eo_bind ]).

Ltac footprint := footprint_using fail.

(** ** One result per device *)

Section Batch.

Variable W : World.
Variable run : string -> M unit RunResult.

Hypothesis run_throws_errors_only : forall deviceName, throws_errors (run deviceName).

(** One pass of the loop calls the runner once, on its device, after
    three lines of its own; it records exactly one result, the one of that
    call, and lets the loop go on. *)
Lemma batch_step_visits devs i (s : Mem BatchVars) :
  exists before r s' after,
    batch_step W run devs i s = (Returns Continue, s')
    /\ forallb no_call before = true
    /\ recorded (nth i devs EmptyString)
                (fst (run (nth i devs EmptyString) (mkMem tt (before ++ history s)))) r
    /\ results (locals s') = results (locals s) ++ [r]
    /\ history s'
       = after ++ history (snd (run (nth i devs EmptyString)
                                    (mkMem tt (before ++ history s))))
    /\ forallb no_call after = true.
Proof.
  unfold batch_step, invoke. run_step.
  match goal with
  | |- context [run ?dev (mkMem tt ?h)] =>
      let p := prefix_of h (history s) in
      exists p; change h with (p ++ history s);
      destruct (run dev (mkMem tt (p ++ history s))) as [[r0 | value] s1] eqn:Hrun
  end; cbn [locals history fst snd].
  - exists r0.
    destruct (success r0);
      destruct (Z.of_nat i <? Z.of_nat (List.length devs) - 1)%Z;
      cbn [locals history];
      eexists _, _;
      (split; [reflexivity |]); (split; [reflexivity |]);
      (split; [reflexivity |]); (split; [reflexivity |]);
      cbn [locals history fst snd];
      match goal with
      | |- ?h = _ ++ ?h0 /\ _ =>
          let p := prefix_of h h0 in instantiate (1 := p); split; reflexivity
      end.
  - apply run_throws_errors_only, has_message_inv in Hrun as Hvalue.
    destruct Hvalue as (e & ->). run_step.
    eexists _, _, [_].
    split; [reflexivity |]. split; [reflexivity |].
    split; [reflexivity |]. split; [reflexivity |]. split; reflexivity.
Qed.

Lemma batch_loop devs n :
  forall k (s : Mem BatchVars) pending h,
    (k + n = List.length devs)%nat ->
    history s = pending ++ h ->
    forallb no_call pending = true ->
    exists rs s' h' after,
      for_of (seq k n) (batch_step W run devs) s = (Returns tt, s')
      /\ results (locals s') = results (locals s) ++ rs
      /\ visits run devs k h rs h'
      /\ history s' = after ++ h'
      /\ forallb no_call after = true.
Proof.
  induction n as [| n IH]; intros k s pending h Hlen Hh Hpending.
  - exists [], s, h, pending. cbn [seq for_of]. rewrite app_nil_r.
    rewrite Nat.add_0_r in Hlen. subst k.
    repeat split; try assumption. constructor.
  - destruct (batch_step_visits devs k s)
      as (before & r & s1 & after1 & Hstep & Hbefore & Hr & Hres & Hh1 & Hafter1).
    rewrite Hh, app_assoc in Hr, Hh1.
    destruct (IH (S k) s1 after1 _ ltac:(lia) Hh1 Hafter1)
      as (rs & s' & h' & after & Hloop & Hres' & Hvisits & Hh' & Hafter).
    exists (r :: rs), s', h', after. cbn [seq for_of]. unfold bind at 1.
    rewrite Hstep. split; [exact Hloop |]. split.
    { rewrite Hres', Hres, <- app_assoc. reflexivity. }
    split; [| split; assumption].
    apply (visits_next run devs k h (before ++ pending) r rs h').
    + lia.
    + rewrite forallb_app, Hbefore, Hpending. reflexivity.
    + exact Hr.
    + exact Hvisits.
Qed.

Lemma for_of_lines {A} (line : A -> string) (xs : list A) :
  forall s : Mem BatchVars,
  exists s',
    for_of xs (fun x => console_log (line x) ;; ret Continue) s = (Returns tt, s')
    /\ locals s' = locals s.
Proof.
  induction xs as [| x rest IH]; intros s.
  - exists s. split; reflexivity.
  - cbn [for_of]. run_step.
    destruct (IH (mkMem (locals s) (ConsoleLog (line x) :: history s)))
      as (s' & Hrest & Hlocals).
    exists s'. split; [exact Hrest | exact Hlocals].
Qed.

Lemma report_returns startTime devs (s : Mem BatchVars) :
  exists s', report W startTime devs s = (Returns tt, s') /\ locals s' = locals s.
Proof.
  unfold report. run_step.
  match goal with
  | |- context [for_of ?xs ?body ?m] =>
      destruct (for_of_lines (fun ir => detail_line (fst ir) (snd ir)) xs m)
        as (s1 & Hlines & Hlocals)
  end.
  unfold console_log, emit, bind, ret in Hlines. rewrite Hlines.
  eexists. split; [reflexivity | exact Hlocals].
Qed.

Lemma report_calls_nothing startTime devs :
  emits_only no_call (report W startTime devs).
Proof. unfold report. footprint. Qed.

Lemma visits_length devs i h rs h' :
  visits run devs i h rs h' -> List.length rs = (List.length devs - i)%nat.
Proof.
  induction 1 as [h | i h before r rs h' Hi Hbefore Hr Hrest IH].
  - rewrite Nat.sub_diag. reflexivity.
  - cbn [List.length]. rewrite IH. lia.
Qed.

(** The entries name the devices, when the runner's results do. *)
Lemma visits_devices devs i h rs h' :
  (forall deviceName s r s',
     run deviceName s = (Returns r, s') -> device r = deviceName) ->
  visits run devs i h rs h' -> map device rs = skipn i devs.
Proof.
  intros Hrun.
  induction 1 as [h | i h before r rs h' Hi Hbefore Hr Hrest IH].
  - rewrite skipn_all. reflexivity.
  - cbn [map]. rewrite IH.
    assert (Hdev : device r = nth i devs EmptyString).
    { destruct (run (nth i devs EmptyString) (mkMem tt (before ++ h)))
        as [[r0 | [e | n |]] s1] eqn:Hcall; cbn [fst recorded] in Hr;
        try contradiction.
      - subst r0. apply (Hrun _ _ _ _ Hcall).
      - subst r. reflexivity. }
    rewrite Hdev. clear - Hi. revert i Hi.
    induction devs as [| x devs IHdevs]; intros i Hi; [cbn in Hi; lia |].
    destruct i as [| i]; [reflexivity |].
    cbn [nth skipn]. apply IHdevs. cbn [List.length] in Hi. lia.
Qed.

(** The batch on a configuration whose [devices] is an array, or is
    replaced by the built-in array. *)
Lemma batch_visits (config : ConfigObject) devs L (s : Mem L) :
  devices_or_default (the_devices config) = DevicesArray devs ->
  exists rs s' h after,
    runAllDevices_with W config run s = (Returns rs, s')
    /\ locals s' = locals s
    /\ List.length rs = List.length devs
    /\ visits run devs 0 (history s) rs h
    /\ history s' = after ++ h
    /\ forallb no_call after = true.
Proof.
  intros Hdevices.
  unfold runAllDevices_with, invoke, batch. rewrite Hdevices. run_step.
  match goal with
  | |- context [for_of (seq 0 ?n) ?body (mkMem ?v ?h0)] =>
      let p := prefix_of h0 (history s) in
      destruct (batch_loop devs n 0 (mkMem v h0) p (history s) eq_refl eq_refl
                           eq_refl)
        as (rs & s1 & h' & after & Hloop & Hres & Hvisits & Hh & Hafter)
  end.
  rewrite Hloop.
  match goal with
  | |- context [report W ?t ?ds s1] =>
      destruct (report_returns t ds s1) as (s2 & Hreport & Hlocals);
      destruct (report_calls_nothing t ds s1) as (evs & Hevs & Hnone)
  end.
  rewrite Hreport in *. cbn [locals history snd] in *.
  exists rs. eexists. exists h', (evs ++ after).
  split; [rewrite Hlocals, Hres; reflexivity |].
  split; [reflexivity |].
  split; [rewrite (visits_length _ _ _ _ _ Hvisits); lia |].
  split; [exact Hvisits |].
  split; [rewrite Hevs, Hh, app_assoc; reflexivity |].
  rewrite forallb_app, Hnone, Hafter. reflexivity.
Qed.

End Batch.

Section BatchOfFlows.

Variable W : World.

(** A result of the flow names the device it was run on. *)
Lemma flow_result_names_device (config : ConfigObject) deviceName L (s : Mem L)
    r s' :
  runPlayStoreDownloadFlow W config deviceName s = (Returns r, s') ->
  device r = deviceName.
Proof.
  intros Hrun. apply run_returns_inv in Hrun.
  destruct (flow_try W config deviceName (clock W (history s)) (entry s))
    as [[r0 | value] s1] eqn:Htry.
  - subst r0. apply flow_try_returns_inv in Htry as (_ & _ & Hdev & _). exact Hdev.
  - destruct Hrun as (e & _ & ->). reflexivity.
Qed.

(** The batch of flows on a configuration whose [devices] is an array, or
    is replaced by the built-in array, returns one result per device, in
    order. *)
Lemma batch_of_flows (config : ConfigObject) devs L (s : Mem L) :
  devices_or_default (the_devices config) = DevicesArray devs ->
  exists rs s' h after,
    runAllDevices W config s = (Returns rs, s')
    /\ locals s' = locals s
    /\ List.length rs = List.length devs
    /\ map device rs = devs
    /\ visits (runPlayStoreDownloadFlow W config) devs 0 (history s) rs h
    /\ history s' = after ++ h
    /\ forallb no_call after = true.
Proof.
  intros Hdevices.
  destruct (batch_visits W (runPlayStoreDownloadFlow W config)
              (fun deviceName => run_throws_errors W config deviceName unit)
              config devs L s Hdevices)
    as (rs & s' & h & after & Hrun & Hlocals & Hlen & Hvisits & Hh & Hafter).
  exists rs, s', h, after. repeat split; try assumption.
  apply (visits_devices (runPlayStoreDownloadFlow W config) devs 0 _ _ _
           (fun deviceName s0 r s1 => flow_result_names_device config deviceName
                                        unit s0 r s1) Hvisits).
Qed.

(** Like a single run, the batch of flows throws errors only: the
    [TypeError] of calling [join] on a list that is not an array.  So the
    handler of the main module always finds a message to print. *)
Lemma batch_of_flows_throws_errors (config : ConfigObject) L :
  throws_errors (@runAllDevices W config L).
Proof.
  unfold runAllDevices, runAllDevices_with, batch, report, batch_step,
         new_Date_toLocaleDateString.
  destruct (devices_or_default (the_devices config));
    errors_only_using
      ltac:(idtac; lazymatch goal with
            | |- throws_errors (runPlayStoreDownloadFlow _ _ _) =>
                apply run_throws_errors
            end)
      fail.
Qed.

Variable config : Config.

(** C2.  The batch returns a list with exactly one entry per configured
    device, in the order of the configuration.  It calls the runner once
    for each device, in that order, each call starting where the call
    before it ended (the batch adds only events of its own in between, and
    no call to the provider), and the entry of a device is what that very
    call returned or, when it threw an error, a failed result with duration
    0 and the message of the error: this is what [visits] and [recorded]
    say.  A runner that fails or throws an error does not stop the batch.
    This holds for any runner that throws errors only, and for the flow as
    the runner, whatever the provider does; with the flow, the devices named
    by the entries are the configured devices, in order. *)
Theorem one_result_per_device L (s : Mem L) :
  (forall run : string -> M unit RunResult,
     (forall deviceName, throws_errors (run deviceName)) ->
     exists rs s' h after,
       runAllDevices_with W config run s = (Returns rs, s')
       /\ List.length rs = List.length (devices config)
       /\ visits run (devices config) 0 (history s) rs h
       /\ history s' = after ++ h
       /\ forallb no_call after = true)
  /\ exists rs s' h after,
       runAllDevices W config s = (Returns rs, s')
       /\ List.length rs = List.length (devices config)
       /\ map device rs = devices config
       /\ visits (runPlayStoreDownloadFlow W config) (devices config) 0
                 (history s) rs h
       /\ history s' = after ++ h
       /\ forallb no_call after = true.
Proof.
  split.
  - intros run Hrun.
    destruct (batch_visits W run Hrun config (devices config) L s eq_refl)
      as (rs & s' & h & after & Hbatch & _ & Hlen & Hvisits & Hh & Hafter).
    exists rs, s', h, after. repeat split; assumption.
  - destruct (batch_of_flows config (devices config) L s eq_refl)
      as (rs & s' & h & after & Hbatch & _ & Hlen & Hdev & Hvisits & Hh & Hafter).
    exists rs, s', h, after. repeat split; assumption.
Qed.

End BatchOfFlows.

(** A runner that throws on the second device: the batch goes on, and the
    second result is the made-up failure. *)
Example batch_survives_a_throwing_runner :
  fst (runAllDevices_with happy_world DEFAULT_CONFIG moody_runner (start tt))
  = Returns
      [ {| device := "Galaxy S23"; success := true; duration := 7;
           error := None; sessionId := Some "s" |};
        {| device := "Galaxy S22"; success := false; duration := 0;
           error := Some "runner crashed"; sessionId := None |};
        {| device := "Pixel 7"; success := true; duration := 7;
           error := None; sessionId := Some "s" |};
        {| device := "Pixel 6"; success := true; duration := 7;
           error := None; sessionId := Some "s" |};
        {| device := "Galaxy S24"; success := true; duration := 7;
           error := None; sessionId := Some "s" |} ].
Proof. vm_compute. reflexivity. Qed.

(** The flow as the runner, when every run throws: the provider rejects
    each session request with [null], each run ends with the [TypeError] of
    its [catch] block, and the batch records five made-up failures. *)
Example batch_survives_throwing_runs :
  map (fun r => (device r, duration r, error r))
      (match fst (runAllDevices null_rejection_world DEFAULT_CONFIG (start tt)) with
       | Returns rs => rs
       | Throws _ => []
       end)
  = map (fun deviceName =>
           (deviceName, 0%Z,
            Some "Cannot read properties of null (reading 'message')"))
        (devices DEFAULT_CONFIG).
Proof. vm_compute. reflexivity. Qed.


(** * Further properties of the code *)

(** ** Durations, tags and the device table *)

(** X1.  The duration reported for a run is within half a second of the
    time elapsed on the clock, and it is not negative when the clock did
    not go back. *)
Theorem seconds_between_is_nearest startTime endTime :
  (1000 * seconds_between startTime endTime - 500 <= endTime - startTime
   < 1000 * seconds_between startTime endTime + 500)%Z
  /\ ((startTime <= endTime)%Z -> (0 <= seconds_between startTime endTime)%Z).
Proof.
  unfold seconds_between, round_div.
  pose proof (Z.mul_div_le (2 * (endTime - startTime) + 1000) (2 * 1000)).
  pose proof (Z.mul_succ_div_gt (2 * (endTime - startTime) + 1000) (2 * 1000)).
  split; [lia |]. intros Hle. apply Z.div_pos; lia.
Qed.

Lemma lower_ascii_tag_char c :
  is_space c = false -> tag_char (lower_ascii c) = true.
Proof.
  destruct c as [[] [] [] [] [] [] [] []]; vm_compute; congruence.
Qed.

Lemma dash_runs_tag_chars s :
  forall in_run,
    string_forallb tag_char (dash_runs in_run (toLowerCase s)) = true.
Proof.
  induction s as [| c rest IH]; intros in_run; [reflexivity |].
  cbn [toLowerCase dash_runs].
  destruct (is_space (lower_ascii c)) eqn:Hspace.
  - destruct in_run; [apply IH |]. cbn [string_forallb]. rewrite IH. reflexivity.
  - cbn [string_forallb]. rewrite IH, andb_true_r.
    unfold tag_char. rewrite Hspace. cbn [negb andb].
    destruct c as [[] [] [] [] [] [] [] []]; vm_compute; reflexivity.
Qed.

(** X2.  Whatever the device name, the tag derived from it for the session
    request holds no white space and no upper-case letter, and the other
    two tags are fixed. *)
Theorem device_tag_is_normalised deviceName username accessKey now :
  exists tag,
    lt_tags (LT_Options (capabilities_for deviceName username accessKey now))
    = ["playstore"; "download"; tag]
    /\ string_forallb tag_char tag = true.
Proof.
  eexists. split; [reflexivity |]. apply dash_runs_tag_chars.
Qed.

Lemma assoc_DEVICE_MAP_some name cfg :
  assoc name DEVICE_MAP = Some cfg ->
  version cfg <> None /\ mem_string name Object_prototype_keys = false.
Proof.
  unfold DEVICE_MAP. cbn [assoc].
  repeat match goal with
         | |- context [String.eqb name ?k] =>
             destruct (String.eqb_spec name k) as [-> | _];
             [intros [= <-]; split; [discriminate | reflexivity] |]
         end.
  discriminate.
Qed.

(** X3.  The platform version sent for a device is the one of the table
    for a device of the table, and "12" for any other name, except for the
    names that every object inherits (constructor, toString, ...): for those,
    and only for those, the version is [undefined]. *)
Theorem platform_version_of_device deviceName :
  (forall cfg, assoc deviceName DEVICE_MAP = Some cfg ->
               version (deviceConfig_of deviceName) = version cfg)
  /\ (assoc deviceName DEVICE_MAP = None ->
      mem_string deviceName Object_prototype_keys = false ->
      version (deviceConfig_of deviceName) = Some "12")
  /\ (version (deviceConfig_of deviceName) = None
      <-> mem_string deviceName Object_prototype_keys = true).
Proof.
  unfold deviceConfig_of.
  destruct (assoc deviceName DEVICE_MAP) as [cfg |] eqn:Hassoc.
  - apply assoc_DEVICE_MAP_some in Hassoc as [Hv Hm].
    split; [intros ? [= <-]; reflexivity |]. split; [discriminate |].
    rewrite Hm. split; [intros H; contradiction | discriminate].
  - split; [discriminate |].
    destruct (mem_string deviceName Object_prototype_keys);
      split; try discriminate; try reflexivity; split; try discriminate; reflexivity.
Qed.

(** ** The loaded configuration *)

Section LoadedConfig.

Variable W : World.

(** X4.  Whatever the configuration module holds and whether or not it can
    be loaded, the loading block ends without throwing.  The device list it
    ends with is an array that is not empty, with one exception: a module
    whose list is malformed and which does not accept the assignment keeps
    its list. *)
Theorem loaded_devices_never_empty L (s : Mem L) :
  exists cfg s',
    load_config W s = (Returns cfg, s')
    /\ locals s' = locals s
    /\ ((exists name names, the_devices cfg = DevicesArray (name :: names))
        \/ (exists loaded : ConfigModule,
              require_config W = Returns (ExportedObject loaded)
              /\ invalid_devices (cm_devices loaded) = true
              /\ cm_devices_writable loaded = false
              /\ the_devices cfg = cm_devices loaded)).
Proof.
  unfold load_config, require_config_module, exported_object. run_step.
  destruct (require_config W) as [[loaded | n] | e];
    try (eexists _, _; split; [reflexivity |]; split; [reflexivity |];
         left; eexists _, _; reflexivity).
  destruct (invalid_devices (cm_devices loaded)) eqn:Hinvalid.
  - destruct (cm_devices_writable loaded) eqn:Hwritable;
      eexists _, _; (split; [reflexivity |]); (split; [reflexivity |]).
    + left. eexists _, _. reflexivity.
    + right. exists loaded. repeat split; assumption.
  - eexists _, _. split; [reflexivity |]. split; [reflexivity |]. left.
    cbn [the_devices]. unfold invalid_devices in Hinvalid.
    destruct (cm_devices loaded) as [| [| name names] | | [] ?];
      cbn in Hinvalid; try discriminate.
    eexists _, _. reflexivity.
Qed.

(** X5.  A module whose [devices] is an array with at least one name is
    taken as it is: the only line printed is that the file was loaded, the
    settings are the module's when it has some and otherwise the built-in
    ones (or none, when the module does not accept the assignment), and the
    batch that follows runs on exactly the devices of the array, in its
    order. *)
Theorem valid_devices_are_run (loaded : ConfigModule) name names L (s : Mem L) :
  require_config W = Returns (ExportedObject loaded) ->
  cm_devices loaded = DevicesArray (name :: names) ->
  let cfg := {| the_devices := DevicesArray (name :: names);
                the_settings :=
                  match cm_settings loaded with
                  | Some st => Some st
                  | None => if cm_settings_writable loaded
                            then Some (settings DEFAULT_CONFIG)
                            else None
                  end |} in
  let s1 := mkMem (locals s) (ConsoleLog "config.js file loaded" :: history s) in
  load_config W s = (Returns cfg, s1)
  /\ exists rs s2,
       runAllDevices W cfg s1 = (Returns rs, s2)
       /\ map device rs = name :: names.
Proof.
  intros Hload Hdevices cfg s1. split.
  - unfold load_config, require_config_module, exported_object. run_step.
    rewrite Hload, Hdevices. reflexivity.
  - destruct (batch_of_flows W cfg (name :: names) L s1 eq_refl)
      as (rs & s2 & _ & _ & Hrun & _ & _ & Hdev & _).
    exists rs, s2. split; assumption.
Qed.

(** When loading the module throws, for whatever reason and whatever
    value, the script carries on with the built-in configuration and says
    the file was not found. *)
Theorem unloadable_config_falls_back value L (s : Mem L) :
  require_config W = Throws value ->
  load_config W s
  = (Returns (as_object DEFAULT_CONFIG),
     mkMem (locals s)
           (ConsoleLog "⚠️ config.js not found, using default settings"
            :: history s)).
Proof.
  intros Hload. unfold load_config, require_config_module. run_step.
  rewrite Hload. reflexivity.
Qed.

End LoadedConfig.

Lemma valid_devices_are_run_witness :
  load_config (world_with_config (Returns (ExportedObject custom_config)))
              (start tt)
  = (Returns {| the_devices := DevicesArray ["OnePlus 11"; "Pixel 7"];
                the_settings := Some {| appToSearch := Some "Signal";
                                        timeout := None;
                                        platformVersion := None;
                                        waitTime := None;
                                        retries := None |} |},
     mkMem tt [ConsoleLog "config.js file loaded"])
  /\ exists rs s2,
       runAllDevices (world_with_config (Returns (ExportedObject custom_config)))
         {| the_devices := DevicesArray ["OnePlus 11"; "Pixel 7"];
            the_settings := Some {| appToSearch := Some "Signal";
                                    timeout := None;
                                    platformVersion := None;
                                    waitTime := None;
                                    retries := None |} |}
         (mkMem tt [ConsoleLog "config.js file loaded"]) = (Returns rs, s2)
       /\ map device rs = ["OnePlus 11"; "Pixel 7"].
Proof.
  apply (valid_devices_are_run
           (world_with_config (Returns (ExportedObject custom_config)))
           custom_config "OnePlus 11" ["Pixel 7"] unit (start tt));
    reflexivity.
Defined.

Lemma unloadable_config_falls_back_witness :
  load_config
    (world_with_config (Throws (mkError "Unexpected token in config.js")))
    (start tt)
  = (Returns (as_object DEFAULT_CONFIG),
     mkMem tt [ConsoleLog "⚠️ config.js not found, using default settings"]).
Proof.
  apply (unloadable_config_falls_back
           (world_with_config (Throws (mkError "Unexpected token in config.js")))
           (mkError "Unexpected token in config.js") unit (start tt)).
  reflexivity.
Defined.

(** ** What a scan does and does not do *)

Section ScanFootprint.

Variable W : World.




End ScanFootprint.

(** ** Steps that fail the run *)

Section FailingSteps.

Variable W : World.
Variable config : ConfigObject.

(** The session phase only sets [driver]. *)
Lemma open_session_locals deviceName (s s1 : Mem FlowVars) d sid :
  open_session W deviceName s = (Returns (d, sid), s1) ->
  locals s1 = set_driver d (locals s).
Proof.
  unfold open_session.
  destruct (present (LT_USERNAME W)) as [username |];
    [destruct (present (LT_ACCESS_KEY W)) as [accessKey |] |];
    try discriminate.
  run_step. repeat ask; try discriminate.
  intros [= <- <- <-]. reflexivity.
Qed.

Lemma attempt_search_keeps_app d c (s : Mem FlowVars) :
  appElement (locals (snd (attempt W d set_searchElement search_text c s)))
  = appElement (locals s).
Proof. unfold attempt. run_step. walk; reflexivity. Qed.

Lemma find_search_box_keeps_app d (s : Mem FlowVars) :
  appElement (locals (snd (find_search_box W d s))) = appElement (locals s).
Proof.
  unfold find_search_box. unfold bind at 1. unfold console_log, emit.
  unfold bind at 1.
  assert (Hscan : forall cands (m : Mem FlowVars),
             appElement
               (locals (snd (scan W d set_searchElement search_text cands m)))
             = appElement (locals m)).
  { unfold scan. induction cands as [| c rest IH]; intros m; [reflexivity |].
    cbn [for_of]. unfold bind at 1.
    pose proof (attempt_search_keeps_app d c m) as Hstep.
    destruct (attempt W d set_searchElement search_text c m)
      as [[[|] | e] m1]; cbn [snd] in *; try exact Hstep.
    rewrite IH. exact Hstep. }
  specialize (Hscan searchStrategies
                (mkMem (locals s)
                       (ConsoleLog " Searching for the search box..." :: history s))).
  destruct (scan W d set_searchElement search_text searchStrategies
              (mkMem (locals s)
                     (ConsoleLog " Searching for the search box..." :: history s)))
    as [[[] | e] s1]; cbn [snd locals] in *; [| exact Hscan].
  run_step. destruct (searchElement (locals s1)); exact Hscan.
Qed.

Lemma type_query_keeps_locals d app (s : Mem FlowVars) :
  locals (snd (type_query W d app s)) = locals s.
Proof. unfold type_query. run_step. walk; reflexivity. Qed.

(** When the provider rejects with errors only, the [finally] block lets
    the run end as the two blocks before it did. *)
Lemma after_finally_polite (s1 : Mem FlowVars) c :
  rejects_with_errors W -> after_finally W s1 c = c.
Proof.
  intros polite. unfold after_finally, teardown_error.
  destruct (driver (locals s1)) as [d |]; [| reflexivity].
  destruct (provider W (calls_of (history s1)) (DeleteSession d))
    as [[] | [e | n |]] eqn:Hreply; try reflexivity.
  apply polite in Hreply. discriminate Hreply.
Qed.

(** A step that throws an error makes the [catch] block build the failed
    result with the step's message, and the run return it, if the [finally]
    block lets it. *)
Lemma run_fails_with {A} (before : M FlowVars (Driver * string))
    (step : Driver * string -> M FlowVars A)
    (rest : Driver * string -> A -> M FlowVars RunResult)
    deviceName L (s0 : Mem L) ds (s : Mem FlowVars) msg :
  (forall m, flow_try W config deviceName (clock W (history s0)) m
             = bind before (fun ds => a <- step ds ;; rest ds a) m) ->
  before (entry s0) = (Returns ds, s) ->
  fst (step ds s) = Throws (mkError msg) ->
  exists r s1,
    protected_part W config deviceName s0 = (Returns r, s1)
    /\ success r = false
    /\ error r = Some msg
    /\ sessionId r = None
    /\ fst (runPlayStoreDownloadFlow W config deviceName s0)
       = after_finally W s1 (Returns r)
    /\ (rejects_with_errors W ->
        fst (runPlayStoreDownloadFlow W config deviceName s0) = Returns r).
Proof.
  intros Hsplit Hbefore Hstep.
  pose proof (protected_part_spec W config deviceName L s0) as Hp.
  rewrite Hsplit in Hp. unfold bind at 1 in Hp. rewrite Hbefore in Hp.
  unfold bind at 1 in Hp.
  destruct (step ds s) as [[a | e] s1]; cbn [fst] in Hstep; [discriminate |].
  injection Hstep as ->. destruct Hp as (lines & Hp & _). cbn [caught] in Hp.
  rewrite run_shape, Hp. cbn [fst snd].
  eexists _, _. split; [reflexivity |]. repeat split.
  intros polite. apply after_finally_polite. exact polite.
Qed.

Lemma flow_try_from_typing deviceName startTime (m : Mem FlowVars) :
  flow_try W config deviceName startTime m
  = bind (steps_before_typing W deviceName)
         (fun ds =>
            a <- type_query W (fst ds) (appToSearch_setting config) ;;
            (fun ds _ => select_app W (fst ds) (appToSearch_setting config) ;;
                         install_or_open W (fst ds) ;;
                         conclude W deviceName startTime (fst ds) (snd ds)) ds a) m.
Proof.
  unfold flow_try, steps_before_typing, bind, ret.
  destruct (open_session W deviceName m) as [[ds | e] s1]; [| reflexivity].
  destruct (find_search_box W (fst ds) s1) as [[[] | e] s2]; reflexivity.
Qed.

Lemma flow_try_from_results deviceName startTime (m : Mem FlowVars) :
  flow_try W config deviceName startTime m
  = bind (steps_before_results W config deviceName)
         (fun ds =>
            a <- select_app W (fst ds) (appToSearch_setting config) ;;
            (fun ds _ => install_or_open W (fst ds) ;;
                         conclude W deviceName startTime (fst ds) (snd ds)) ds a) m.
Proof.
  unfold flow_try, steps_before_results, steps_before_typing, bind, ret.
  destruct (open_session W deviceName m) as [[ds | e] s1]; [| reflexivity].
  destruct (find_search_box W (fst ds) s1) as [[[] | e] s2]; [| reflexivity].
  destruct (type_query W (fst ds) (appToSearch_setting config) s2)
    as [[[] | e] s3]; reflexivity.
Qed.

(** X7.  When the session is open and [driver.$] rejects every one of the
    five search-box selectors with an error, the [catch] block builds a
    failed result whose error is the search-box message.  The run ends as
    the [finally] block lets it: it returns that result, unless the teardown
    is rejected with [null] or [undefined]; in particular it returns it when
    the provider rejects with errors only. *)
Theorem run_fails_when_search_box_is_rejected deviceName L (s0 : Mem L) d sid
    (s : Mem FlowVars) :
  open_session W deviceName (entry s0) = (Returns (d, sid), s) ->
  all_rejected W SearchBox d searchStrategies
    (mkMem (locals s) (ConsoleLog " Searching for the search box..." :: history s))
  = true ->
  exists r s1,
    protected_part W config deviceName s0 = (Returns r, s1)
    /\ success r = false
    /\ error r = Some search_box_message
    /\ sessionId r = None
    /\ fst (runPlayStoreDownloadFlow W config deviceName s0)
       = after_finally W s1 (Returns r)
    /\ (rejects_with_errors W ->
        fst (runPlayStoreDownloadFlow W config deviceName s0) = Returns r).
Proof.
  intros Hopen Hall.
  apply (run_fails_with (open_session W deviceName)
           (fun ds => find_search_box W (fst ds))
           (fun ds _ => type_query W (fst ds) (appToSearch_setting config) ;;
                        select_app W (fst ds) (appToSearch_setting config) ;;
                        install_or_open W (fst ds) ;;
                        conclude W deviceName (clock W (history s0)) (fst ds) (snd ds))
           deviceName L s0 (d, sid) s search_box_message).
  - intros m. reflexivity.
  - exact Hopen.
  - apply search_box_not_found_when_all_rejected; [| exact Hall].
    rewrite (open_session_locals _ _ _ _ _ Hopen). reflexivity.
Qed.

(** X8.  When the search box was passed and the text field resolves but is
    not displayed, nothing is typed and no key is pressed, and the [catch]
    block builds a failed result whose error is the text-field message.
    The run returns that result, unless the teardown is rejected with [null]
    or [undefined]; in particular it returns it when the provider rejects
    with errors only. *)
Theorem run_fails_when_text_field_is_hidden deviceName L (s0 : Mem L) d sid
    (s : Mem FlowVars) inputField :
  steps_before_typing W deviceName (entry s0) = (Returns (d, sid), s) ->
  provider W (calls_of (history s)) (Dollar d input_selector) = Returns inputField ->
  provider W (Dollar d input_selector :: calls_of (history s))
           (IsDisplayed inputField) = Returns false ->
  let after := snd (type_query W d (appToSearch_setting config) s) in
  typed (history after) = typed (history s)
  /\ keys_pressed (history after) = keys_pressed (history s)
  /\ exists r s1,
       protected_part W config deviceName s0 = (Returns r, s1)
       /\ success r = false
       /\ error r = Some text_field_message
       /\ sessionId r = None
       /\ fst (runPlayStoreDownloadFlow W config deviceName s0)
          = after_finally W s1 (Returns r)
       /\ (rejects_with_errors W ->
           fst (runPlayStoreDownloadFlow W config deviceName s0) = Returns r).
Proof.
  intros Hbefore Hfield Hshown after.
  assert (Hstep : type_query W d (appToSearch_setting config) s
                  = (Throws (mkError text_field_message),
                     mkMem (locals s)
                           (Called (IsDisplayed inputField)
                            :: Called (Dollar d input_selector)
                            :: ConsoleLog ("Typing " ++ dquote
                                           ++ appToSearch_setting config ++ dquote
                                           ++ " and searching...")
                            :: history s))).
  { unfold type_query. run_step. rewrite Hfield. cbn [locals history calls_of].
    rewrite Hshown. reflexivity. }
  subst after. rewrite Hstep. cbn [snd history typed keys_pressed].
  split; [reflexivity |]. split; [reflexivity |].
  apply (run_fails_with (steps_before_typing W deviceName)
           (fun ds => type_query W (fst ds) (appToSearch_setting config))
           (fun ds _ => select_app W (fst ds) (appToSearch_setting config) ;;
                        install_or_open W (fst ds) ;;
                        conclude W deviceName (clock W (history s0)) (fst ds) (snd ds))
           deviceName L s0 (d, sid) s text_field_message).
  - intros m. apply flow_try_from_typing.
  - exact Hbefore.
  - cbn [fst]. rewrite Hstep. reflexivity.
Qed.

(** The result-entry step fails with the not-found error when [driver.$]
    rejects both result selectors with an error. *)
Lemma app_not_found_when_all_rejected d app (s : Mem FlowVars) :
  appElement (locals s) = None ->
  all_rejected W AppEntry d (appResultStrategies app)
    (mkMem (locals s)
           (ConsoleLog (" Searching for " ++ dquote ++ app ++ dquote
                        ++ " in results...") :: history s))
  = true ->
  fst (select_app W d app s) = Throws (mkError (app_not_found_message app)).
Proof.
  intros Hnone Hall. apply scan_all_rejected in Hall as [Hret Hlocals].
  unfold scan_of in Hret, Hlocals. cbn [assign_of text_of] in Hret, Hlocals.
  unfold select_app. unfold bind at 1. unfold console_log, emit.
  unfold bind at 1.
  destruct (scan W d set_appElement app_text (appResultStrategies app)
              (mkMem (locals s)
                     (ConsoleLog (" Searching for " ++ dquote ++ app ++ dquote
                                  ++ " in results...") :: history s)))
    as [[[] | e] s1]; cbn [fst snd locals] in *; [| discriminate Hret].
  run_step. rewrite Hlocals, Hnone. reflexivity.
Qed.

Lemma steps_before_results_app_none deviceName L (s0 : Mem L) ds
    (s : Mem FlowVars) :
  steps_before_results W config deviceName (entry s0) = (Returns ds, s) ->
  appElement (locals s) = None.
Proof.
  unfold steps_before_results, steps_before_typing. intros H.
  apply bind_returns_inv in H as (ds1 & s3 & H1 & H).
  apply bind_returns_inv in H as ([] & s4 & Htype & H).
  injection H as <- <-.
  apply bind_returns_inv in H1 as ([d sid] & s1 & Hopen & H1).
  apply bind_returns_inv in H1 as ([] & s2 & Hfind & H1).
  injection H1 as <- <-.
  pose proof (type_query_keeps_locals (fst (d, sid)) (appToSearch_setting config) s2)
    as Ht.
  rewrite Htype in Ht. cbn [snd] in Ht. rewrite Ht.
  pose proof (find_search_box_keeps_app (fst (d, sid)) s1) as Hf.
  rewrite Hfind in Hf. cbn [snd] in Hf. rewrite Hf.
  rewrite (open_session_locals _ _ _ _ _ Hopen). reflexivity.
Qed.

(** X9.  When the query was typed and [driver.$] rejects both result
    selectors with an error, the [catch] block builds a failed result whose
    error names the app that was searched for.  The run returns that result,
    unless the teardown is rejected with [null] or [undefined]; in
    particular it returns it when the provider rejects with errors only. *)
Theorem run_fails_when_app_is_not_listed deviceName L (s0 : Mem L) d sid
    (s : Mem FlowVars) :
  steps_before_results W config deviceName (entry s0) = (Returns (d, sid), s) ->
  all_rejected W AppEntry d (appResultStrategies (appToSearch_setting config))
    (mkMem (locals s)
           (ConsoleLog (" Searching for " ++ dquote ++ appToSearch_setting config
                        ++ dquote ++ " in results...") :: history s))
  = true ->
  exists r s1,
    protected_part W config deviceName s0 = (Returns r, s1)
    /\ success r = false
    /\ error r = Some (app_not_found_message (appToSearch_setting config))
    /\ sessionId r = None
    /\ fst (runPlayStoreDownloadFlow W config deviceName s0)
       = after_finally W s1 (Returns r)
    /\ (rejects_with_errors W ->
        fst (runPlayStoreDownloadFlow W config deviceName s0) = Returns r).
Proof.
  intros Hbefore Hall.
  apply (run_fails_with (steps_before_results W config deviceName)
           (fun ds => select_app W (fst ds) (appToSearch_setting config))
           (fun ds _ => install_or_open W (fst ds) ;;
                        conclude W deviceName (clock W (history s0)) (fst ds) (snd ds))
           deviceName L s0 (d, sid) s
           (app_not_found_message (appToSearch_setting config))).
  - intros m. apply flow_try_from_results.
  - exact Hbefore.
  - apply app_not_found_when_all_rejected; [| exact Hall].
    apply (steps_before_results_app_none deviceName L s0 (d, sid)). exact Hbefore.
Qed.

End FailingSteps.

Lemma run_fails_when_search_box_is_rejected_witness :
  exists r s1,
    protected_part no_search_box_world DEFAULT_CONFIG "Pixel 7" (start tt)
    = (Returns r, s1)
    /\ success r = false
    /\ error r = Some search_box_message
    /\ sessionId r = None
    /\ fst (runPlayStoreDownloadFlow no_search_box_world DEFAULT_CONFIG "Pixel 7"
              (start tt))
       = after_finally no_search_box_world s1 (Returns r)
    /\ (rejects_with_errors no_search_box_world ->
        fst (runPlayStoreDownloadFlow no_search_box_world DEFAULT_CONFIG "Pixel 7"
               (start tt)) = Returns r).
Proof.
  apply (run_fails_when_search_box_is_rejected no_search_box_world DEFAULT_CONFIG
           "Pixel 7" unit (start tt) the_driver "session-0001"
           no_search_box_session);
    vm_compute; reflexivity.
Defined.

Lemma run_fails_when_text_field_is_hidden_witness :
  typed (history (snd (type_query hidden_text_field_world the_driver
                         (appToSearch_setting DEFAULT_CONFIG)
                         hidden_text_field_state)))
  = typed (history hidden_text_field_state)
  /\ keys_pressed (history (snd (type_query hidden_text_field_world the_driver
                                   (appToSearch_setting DEFAULT_CONFIG)
                                   hidden_text_field_state)))
     = keys_pressed (history hidden_text_field_state)
  /\ exists r s1,
       protected_part hidden_text_field_world DEFAULT_CONFIG "Pixel 7" (start tt)
       = (Returns r, s1)
       /\ success r = false
       /\ error r = Some text_field_message
       /\ sessionId r = None
       /\ fst (runPlayStoreDownloadFlow hidden_text_field_world DEFAULT_CONFIG
                 "Pixel 7" (start tt))
          = after_finally hidden_text_field_world s1 (Returns r)
       /\ (rejects_with_errors hidden_text_field_world ->
           fst (runPlayStoreDownloadFlow hidden_text_field_world DEFAULT_CONFIG
                  "Pixel 7" (start tt)) = Returns r).
Proof.
  apply (run_fails_when_text_field_is_hidden hidden_text_field_world
           DEFAULT_CONFIG "Pixel 7" unit (start tt) the_driver "session-0001"
           hidden_text_field_state (mkElement 6));
    vm_compute; reflexivity.
Defined.

Lemma run_fails_when_app_is_not_listed_witness :
  exists r s1,
    protected_part no_result_entry_world DEFAULT_CONFIG "Pixel 7" (start tt)
    = (Returns r, s1)
    /\ success r = false
    /\ error r = Some (app_not_found_message (appToSearch_setting DEFAULT_CONFIG))
    /\ sessionId r = None
    /\ fst (runPlayStoreDownloadFlow no_result_entry_world DEFAULT_CONFIG "Pixel 7"
              (start tt))
       = after_finally no_result_entry_world s1 (Returns r)
    /\ (rejects_with_errors no_result_entry_world ->
        fst (runPlayStoreDownloadFlow no_result_entry_world DEFAULT_CONFIG
               "Pixel 7" (start tt)) = Returns r).
Proof.
  apply (run_fails_when_app_is_not_listed no_result_entry_world DEFAULT_CONFIG
           "Pixel 7" unit (start tt) the_driver "session-0001"
           no_result_entry_state);
    vm_compute; reflexivity.
Defined.

(** A result selector rejected with a string, not an error: the handler of
    the loop throws, and the error of the failed result is the message of
    that [TypeError], not the not-found message. *)
Example run_fails_with_the_handlers_error :
  fst (runPlayStoreDownloadFlow string_rejection_world DEFAULT_CONFIG "Pixel 7"
         (start tt))
  = Returns {| device := "Pixel 7";
               success := false;
               duration := 14;
               error := Some "Cannot read properties of undefined (reading 'slice')";
               sessionId := None |}.
Proof. vm_compute. reflexivity. Qed.

(** ** What a result says about its run *)

Section ResultShape.

Variable W : World.
Variable config : ConfigObject.

(** X10.  In a result that a run returns, the device is the one the run
    was asked for, an error message is present exactly when the run failed,
    and the session identifier is absent exactly when the run failed.  A run
    does return a result when the provider rejects with errors only. *)
Theorem result_fields_agree deviceName L (s : Mem L) :
  (forall r s',
     runPlayStoreDownloadFlow W config deviceName s = (Returns r, s') ->
     device r = deviceName
     /\ (error r = None <-> success r = true)
     /\ (sessionId r = None <-> success r = false))
  /\ (rejects_with_errors W ->
      exists r s', runPlayStoreDownloadFlow W config deviceName s = (Returns r, s')).
Proof.
  split.
  - intros r s' Hrun. apply run_returns_inv in Hrun.
    destruct (flow_try W config deviceName (clock W (history s)) (entry s))
      as [[r0 | value] s1] eqn:Htry.
    + subst r0.
      apply flow_try_returns_inv in Htry
        as (Hs & He & Hd & d & sid & past & _ & Hsid).
      rewrite Hs, He, Hd, Hsid. repeat split; congruence.
    + destruct Hrun as (e & _ & ->). cbn. repeat split; congruence.
  - intros polite.
    destruct (run_returns W config polite deviceName L s) as (r & s1 & _ & Hrun).
    eexists _, _. exact Hrun.
Qed.

(** When the last step returns, it has just clicked the Install button or
    the button that stands in for it. *)
Lemma install_or_open_returns_inv d (s s' : Mem FlowVars) :
  install_or_open W d s = (Returns tt, s') ->
  exists el past,
    hd_error (clicks (history s')) = Some el
    /\ (provider W past (Dollar d install_selector) = Returns el
        \/ provider W past (Dollar d open_selector) = Returns el).
Proof.
  unfold install_or_open. run_step.
  destruct (provider W (calls_of (history s)) (Dollar d install_selector))
    as [el | e] eqn:Hinstall; cbn [locals history calls_of]; [| discriminate].
  destruct (provider W (Dollar d install_selector :: calls_of (history s))
              (IsDisplayed el)) as [[|] | e]; cbn [locals history calls_of];
    [| | discriminate].
  - destruct (provider W _ (Click el)); [| discriminate].
    intros [= <-]. exists el. eexists. split; [reflexivity |].
    left. exact Hinstall.
  - match goal with
    | |- context [provider W ?past (Dollar d open_selector)] =>
        destruct (provider W past (Dollar d open_selector)) as [el' | e] eqn:Hopen
    end; cbn [locals history calls_of]; [| discriminate].
    match goal with
    | |- context [provider W ?past (IsDisplayed el')] =>
        destruct (provider W past (IsDisplayed el')) as [[|] | e]
    end; cbn [locals history calls_of]; try discriminate.
    destruct (provider W _ (Click el')); [| discriminate].
    intros [= <-]. exists el'. eexists. split; [reflexivity |].
    right. exact Hopen.
Qed.

Lemma clicks_app evs1 evs2 : clicks (evs2 ++ evs1) = clicks evs2 ++ clicks evs1.
Proof.
  induction evs2 as [| ev rest IH]; [reflexivity |].
  destruct ev as [r | | | |]; cbn [app clicks]; try exact IH.
  destruct r; cbn [app]; rewrite IH; reflexivity.
Qed.

Lemma finally_events_click_nothing deviceName (s1 : Mem FlowVars) :
  clicks (finally_events W deviceName s1) = [].
Proof.
  unfold finally_events, teardown_events.
  destruct (driver (locals s1)) as [d |]; [| reflexivity].
  destruct (provider W (calls_of (history s1)) (DeleteSession d))
    as [[] | [e | n |]]; reflexivity.
Qed.

(** When the run returns, the [finally] block has let stand what the two
    blocks before it ended with. *)
Lemma after_finally_returns_inv (s1 : Mem FlowVars) c r :
  after_finally W s1 c = Returns r -> c = Returns r.
Proof.
  unfold after_finally. destruct (driver (locals s1)) as [d |]; [| auto].
  destruct (teardown_error W d (calls_of (history s1))); [discriminate | auto].
Qed.

(** X11.  A run reports success only after a click on the element that the
    Install selector, or else the Open selector, resolved to: in the history
    of a run that returned a successful result, the most recent click is
    that one.  A run does return a result when the provider rejects with
    errors only. *)
Theorem success_follows_the_install_click deviceName L (s : Mem L) :
  (forall r s',
     runPlayStoreDownloadFlow W config deviceName s = (Returns r, s') ->
     success r = true ->
     exists el d past,
       hd_error (clicks (history s')) = Some el
       /\ (provider W past (Dollar d install_selector) = Returns el
           \/ provider W past (Dollar d open_selector) = Returns el))
  /\ (rejects_with_errors W ->
      exists r s', runPlayStoreDownloadFlow W config deviceName s = (Returns r, s')).
Proof.
  split.
  - intros r s'. rewrite run_shape. intros [= Hc <-] Hsuccess. cbn [history].
    rewrite clicks_app, finally_events_click_nothing. cbn [app].
    apply after_finally_returns_inv in Hc.
    pose proof (protected_part_spec W config deviceName L s) as Hp.
    destruct (flow_try W config deviceName (clock W (history s)) (entry s))
      as [[r0 | value] s2] eqn:Htry.
    + rewrite Hp in *. cbn [fst snd] in *. injection Hc as ->.
      rewrite flow_try_split in Htry.
      apply bind_returns_inv in Htry as ([d sid] & sa & _ & Htry).
      apply bind_returns_inv in Htry as ([] & sb & Hinstall & Hconclude).
      apply install_or_open_returns_inv in Hinstall as (el & past & Hhd & Hel).
      exists el, d, past. split; [| exact Hel].
      revert Hconclude. unfold conclude. cbn [fst snd]. run_step.
      destruct (provider W (calls_of (history sb)) (Pause d 30000));
        [| discriminate].
      intros [= _ <-]. cbn [history clicks]. exact Hhd.
    + destruct Hp as (lines & Hp & _). rewrite Hp in Hc. cbn [fst] in Hc.
      destruct value; cbn [caught] in Hc; try discriminate Hc.
      injection Hc as <-. discriminate Hsuccess.
  - intros polite.
    destruct (run_returns W config polite deviceName L s) as (r & s1 & _ & Hrun).
    eexists _, _. exact Hrun.
Qed.

End ResultShape.

Section NoTimers.

Variable W : World.
Variable config : ConfigObject.



End NoTimers.

(** ** Waiting between devices *)

Section BatchTimers.

Variable W : World.
Variable config : ConfigObject.








End BatchTimers.

Section BatchTimersTotal.

Variable W : World.
Variable config : Config.


End BatchTimersTotal.

(** The provider rejects every session request with [null]: every run
    throws, and the batch over five devices sets no timer at all.  When it
    rejects them with an error, every run returns, and there are four. *)
Example no_wait_after_a_run_that_throws :
  timers (history (snd (runAllDevices null_rejection_world DEFAULT_CONFIG
                          (start tt)))) = []
  /\ timers (history (snd (runAllDevices session_refused_world DEFAULT_CONFIG
                             (start tt))))
     = [15000; 15000; 15000; 15000]%Z.
Proof. split; vm_compute; reflexivity. Qed.

(** ** What is typed, and the session request *)

Section Typing.

Variable W : World.
Variable config : ConfigObject.

Lemma appToSearch_setting_not_empty : truthy (appToSearch_setting config) = true.
Proof.
  unfold appToSearch_setting, or_default.
  destruct (the_settings config) as [st |]; [| reflexivity].
  destruct (appToSearch st) as [v |]; [| reflexivity].
  destruct (truthy v) eqn:Hv; [exact Hv | reflexivity].
Qed.

Lemma open_session_types_nothing deviceName app :
  emits_only (types_only app) (open_session W deviceName).
Proof.
  unfold open_session.
  destruct (present (LT_USERNAME W)); [destruct (present (LT_ACCESS_KEY W)) |];
    footprint.
Qed.

(** X13.  Whatever a run types into the store is the configured app name,
    or "Google Chrome" when none is configured or it is empty; it is never
    the empty string, and the only key a run presses is Enter (code 66). *)
Theorem run_types_only_the_app_name deviceName L (s : Mem L) :
  truthy (appToSearch_setting config) = true
  /\ exists evs,
       history (snd (runPlayStoreDownloadFlow W config deviceName s))
       = evs ++ history s
       /\ forallb (types_only (appToSearch_setting config)) evs = true.
Proof.
  split; [apply appToSearch_setting_not_empty |].
  revert s. change (emits_only (types_only (appToSearch_setting config))
                      (@runPlayStoreDownloadFlow W config L deviceName)).
  unfold runPlayStoreDownloadFlow, flow. apply eo_invoke.
  apply eo_bind; [footprint | intros startTime].
  apply eo_try_finally.
  - apply eo_try_catch.
    + unfold flow_try. apply eo_bind; [apply open_session_types_nothing |].
      intros ds. cbn zeta.
      unfold find_search_box, type_query, select_app, install_or_open, conclude,
             scan, attempt.
      footprint.
      apply (eo_await W). cbn [types_only]. apply String.eqb_refl.
    + intros err. unfold flow_catch. footprint.
  - unfold flow_finally. footprint.
Qed.

End Typing.

Ltac before_remote h :=
  lazymatch h with
  | Called (Remote _) :: _ => constr:(@nil Event)
  | ?ev :: ?rest => let p := before_remote rest in constr:(ev :: p)
  end.

Ltac after_remote h h0 :=
  lazymatch h with
  | Called (Remote _) :: ?rest => prefix_of rest h0
  | _ :: ?rest => after_remote rest h0
  end.

Section SessionRequest.

Variable W : World.
Variable config : ConfigObject.

Lemma opens_first_step {L A} opts h0 (s1 : Mem L) (m : M L A) :
  opens_first opts h0 s1 -> emits_only no_remote m ->
  opens_first opts h0 (snd (m s1)).
Proof.
  intros (later & pre & Hh & Hpre & Hlater) Hm.
  destruct (Hm s1) as (evs & Hh' & Hev).
  exists (evs ++ later), pre. rewrite Hh', Hh, app_assoc, forallb_app, Hev, Hlater.
  repeat split. exact Hpre.
Qed.

Lemma open_session_opens_first deviceName username accessKey (s : Mem FlowVars) :
  present (LT_USERNAME W) = Some username ->
  present (LT_ACCESS_KEY W) = Some accessKey ->
  exists now,
    opens_first (remote_options (capabilities_for deviceName username accessKey now))
                (history s) (snd (open_session W deviceName s)).
Proof.
  intros Hu Hk. unfold open_session. rewrite Hu, Hk. run_step.
  eexists. unfold opens_first.
  repeat ask; cbn [snd history];
    match goal with
    | |- exists later pre, ?h = _ /\ _ =>
        let l := before_remote h in
        let p := after_remote h (history s) in
        exists l, p
    end; repeat split; reflexivity.
Qed.

Lemma flow_try_opens_first deviceName startTime username accessKey
    (s : Mem FlowVars) :
  present (LT_USERNAME W) = Some username ->
  present (LT_ACCESS_KEY W) = Some accessKey ->
  exists now,
    opens_first (remote_options (capabilities_for deviceName username accessKey now))
                (history s) (snd (flow_try W config deviceName startTime s)).
Proof.
  intros Hu Hk.
  destruct (open_session_opens_first deviceName username accessKey s Hu Hk)
    as (now & Hopen).
  exists now. unfold flow_try. unfold bind at 1.
  destruct (open_session W deviceName s) as [[ds | e] s1]; cbn [snd] in *;
    [| exact Hopen].
  match goal with
  | |- opens_first _ _ (snd (?m s1)) => apply (opens_first_step _ _ s1 m Hopen)
  end.
  cbn zeta.
  unfold find_search_box, type_query, select_app, install_or_open, conclude,
         scan, attempt.
  footprint.
Qed.

Lemma calls_of_no_remote evs :
  forallb no_remote evs = true -> forallb not_remote (calls_of evs) = true.
Proof.
  induction evs as [| ev rest IH]; [reflexivity |].
  cbn [forallb]. intros H. apply andb_prop in H as [Hev Hrest].
  destruct ev; cbn [calls_of forallb]; try (apply IH; exact Hrest).
  cbn [no_remote] in Hev. rewrite Hev. apply IH. exact Hrest.
Qed.

Lemma finally_events_no_remote deviceName (s1 : Mem FlowVars) :
  forallb no_remote (finally_events W deviceName s1) = true.
Proof.
  unfold finally_events, teardown_events.
  destruct (driver (locals s1)) as [d |]; [| reflexivity].
  destruct (provider W (calls_of (history s1)) (DeleteSession d))
    as [[] | [e | n |]]; reflexivity.
Qed.

(** X14.  With both credentials set, the first thing a run asks of the
    provider is one session: a [remote] call to the LambdaTest hub whose
    capabilities carry the two credentials, the device name and the platform
    version of the device table.  The run makes no second [remote] call,
    whatever happens: a session that cannot be opened is not retried. *)
Theorem run_requests_one_session_first deviceName username accessKey L
    (s : Mem L) :
  present (LT_USERNAME W) = Some username ->
  present (LT_ACCESS_KEY W) = Some accessKey ->
  exists now later,
    calls_of (history (snd (runPlayStoreDownloadFlow W config deviceName s)))
    = later
      ++ Remote {| protocol := "https";
                   hostname := "mobile-hub.lambdatest.com";
                   port := 443;
                   path := "/wd/hub";
                   capabilities :=
                     capabilities_for deviceName username accessKey now;
                   connectionRetryTimeout := 120000;
                   connectionRetryCount := 5;
                   logLevel := "info" |}
      :: calls_of (history s)
    /\ forallb not_remote later = true
    /\ lt_user (LT_Options (capabilities_for deviceName username accessKey now))
       = username
    /\ lt_accessKey (LT_Options (capabilities_for deviceName username accessKey now))
       = accessKey
    /\ lt_deviceName (LT_Options (capabilities_for deviceName username accessKey now))
       = deviceName
    /\ lt_platformVersion
         (LT_Options (capabilities_for deviceName username accessKey now))
       = version (deviceConfig_of deviceName).
Proof.
  intros Hu Hk.
  destruct (flow_try_opens_first deviceName (clock W (history s)) username
              accessKey (entry s) Hu Hk) as (now & Htry).
  assert (Hs1 : opens_first
                  (remote_options
                     (capabilities_for deviceName username accessKey now))
                  (history (entry s))
                  (snd (protected_part W config deviceName s))).
  { unfold protected_part, try_catch.
    destruct (flow_try W config deviceName (clock W (history s)) (entry s))
      as [[r0 | value] s2]; cbn [snd] in Htry; [exact Htry |].
    apply (opens_first_step _ _ s2
             (flow_catch W deviceName (clock W (history s)) value) Htry).
    unfold flow_catch. footprint. }
  destruct Hs1 as (later & pre & Hh & Hpre & Hlater).
  rewrite run_shape. cbn [snd history].
  set (s1 := snd (protected_part W config deviceName s)) in *.
  exists now, (calls_of (finally_events W deviceName s1 ++ later)).
  split.
  - rewrite Hh, app_assoc, !calls_of_app. cbn [calls_of entry history].
    rewrite calls_of_app, Hpre. cbn [calls_of app].
    rewrite <- calls_of_app. reflexivity.
  - split; [| repeat split].
    apply calls_of_no_remote.
    rewrite forallb_app, Hlater, finally_events_no_remote. reflexivity.
Qed.

End SessionRequest.

Lemma run_requests_one_session_first_witness :
  exists now later,
    calls_of (history (snd (runPlayStoreDownloadFlow happy_world DEFAULT_CONFIG
                              "Pixel 7" (start tt))))
    = later
      ++ Remote {| protocol := "https";
                   hostname := "mobile-hub.lambdatest.com";
                   port := 443;
                   path := "/wd/hub";
                   capabilities :=
                     capabilities_for "Pixel 7" "alice" "0123456789abcdef" now;
                   connectionRetryTimeout := 120000;
                   connectionRetryCount := 5;
                   logLevel := "info" |}
      :: calls_of (history (start tt))
    /\ forallb not_remote later = true
    /\ lt_user (LT_Options (capabilities_for "Pixel 7" "alice"
                                             "0123456789abcdef" now))
       = "alice"
    /\ lt_accessKey (LT_Options (capabilities_for "Pixel 7" "alice"
                                                  "0123456789abcdef" now))
       = "0123456789abcdef"
    /\ lt_deviceName (LT_Options (capabilities_for "Pixel 7" "alice"
                                                   "0123456789abcdef" now))
       = "Pixel 7"
    /\ lt_platformVersion
         (LT_Options (capabilities_for "Pixel 7" "alice" "0123456789abcdef" now))
       = version (deviceConfig_of "Pixel 7").
Proof.
  apply (run_requests_one_session_first happy_world DEFAULT_CONFIG "Pixel 7"
           "alice" "0123456789abcdef" unit (start tt));
    reflexivity.
Defined.

(** ** The counters of the batch *)

Section BatchCounters.

Variable W : World.
Variable config : Config.

Lemma counters_agree_push_success v r :
  success r = true -> counters_agree v ->
  counters_agree (incr_successCount (push r v)).
Proof.
  intros Hr [Hs Hf]. unfold counters_agree. cbn [incr_successCount push
    successCount failureCount results].
  rewrite !filter_app, !length_app. cbn [filter]. rewrite Hr. cbn [negb List.length].
  split; lia.
Qed.

Lemma counters_agree_push_failure v r :
  success r = false -> counters_agree v ->
  counters_agree (incr_failureCount (push r v))
  /\ counters_agree (push r (incr_failureCount v)).
Proof.
  intros Hr [Hs Hf]. unfold counters_agree. cbn [incr_failureCount push
    successCount failureCount results].
  rewrite !filter_app, !length_app. cbn [filter]. rewrite Hr. cbn [negb List.length].
  repeat split; lia.
Qed.

Section AnyRunner.

Variable run : string -> M unit RunResult.

Hypothesis run_throws_errors_only : forall deviceName, throws_errors (run deviceName).

Lemma batch_step_counters devs i (s : Mem BatchVars) :
  counters_agree (locals s) ->
  counters_agree (locals (snd (batch_step W run devs i s))).
Proof.
  intros Hagree. unfold batch_step, invoke. run_step.
  match goal with
  | |- context [run ?dev ?m] => destruct (run dev m) as [[r | value] s1] eqn:Hrun
  end; cbn [locals history].
  - destruct (success r) eqn:Hr;
      destruct (Z.of_nat i <? Z.of_nat (List.length devs) - 1)%Z;
      cbn [snd locals];
      first [ apply counters_agree_push_success; assumption
            | apply counters_agree_push_failure; assumption ].
  - apply run_throws_errors_only, has_message_inv in Hrun as (e & ->). run_step.
    cbn [snd locals]. apply counters_agree_push_failure; [reflexivity | assumption].
Qed.

Lemma batch_loop_counters devs n :
  forall k (s : Mem BatchVars),
    counters_agree (locals s) ->
    counters_agree
      (locals (snd (for_of (seq k n) (batch_step W run devs) s))).
Proof.
  induction n as [| n IH]; intros k s Hagree; [exact Hagree |].
  cbn [seq for_of]. unfold bind at 1.
  pose proof (batch_step_counters devs k s Hagree) as Hstep.
  destruct (batch_step_visits W run run_throws_errors_only devs k s)
    as (before & r & s1 & after & Hret & _).
  rewrite Hret in *. cbn [snd] in Hstep. apply IH. exact Hstep.
Qed.

(** The summary prints the two counters as they are when it starts. *)
Lemma report_prints_counters startTime devs (s : Mem BatchVars) :
  exists s',
    report W startTime devs s = (Returns tt, s')
    /\ locals s' = locals s
    /\ In (ConsoleLog (" Success: " ++ show_nat (successCount (locals s))))
          (history s')
    /\ In (ConsoleLog (" Failure: " ++ show_nat (failureCount (locals s))))
          (history s').
Proof.
  unfold report. run_step.
  match goal with
  | |- context [for_of ?xs ?body ?m] =>
      destruct (for_of_lines (fun ir => detail_line (fst ir) (snd ir)) xs m)
        as (s1 & Hlines & Hlocals);
      assert (Hgrow : exists evs, history s1 = evs ++ history m)
  end.
  { match type of Hlines with
    | for_of ?xs ?body ?m = _ =>
        destruct (eo_for_of anything xs body) with (s := m) as (evs & Hh & _);
        [intros x; unfold console_log; footprint |]
    end.
    rewrite Hlines in Hh. exists evs. exact Hh. }
  destruct Hgrow as (evs & Hh).
  unfold console_log, emit, bind, ret in Hlines. rewrite Hlines.
  eexists. split; [reflexivity |]. split; [exact Hlocals |].
  cbn [history]. rewrite Hh. cbn [history].
  split; right; right; apply in_or_app; right; cbn [In];
    repeat first [left; reflexivity | right].
Qed.

Lemma batch_counters (h : History) :
  exists rs s',
    batch W config run (mkMem fresh_batch h) = (Returns rs, s')
    /\ successCount (locals s') = List.length (filter success rs)
    /\ failureCount (locals s')
       = List.length (filter (fun r => negb (success r)) rs)
    /\ (successCount (locals s') + failureCount (locals s')
        = List.length (devices config))%nat
    /\ In (ConsoleLog (" Success: "
                       ++ show_nat (List.length (filter success rs))))
          (history s')
    /\ In (ConsoleLog (" Failure: "
                       ++ show_nat (List.length
                                      (filter (fun r => negb (success r)) rs))))
          (history s').
Proof.
  unfold batch. cbn [as_object the_devices devices_or_default devices_truthy].
  run_step.
  match goal with
  | |- context [for_of (seq 0 ?n) ?body (mkMem ?v ?h0)] =>
      destruct (batch_loop W run run_throws_errors_only (devices config) n 0
                  (mkMem v h0) [] h0 eq_refl eq_refl eq_refl)
        as (rs & s1 & h' & after & Hloop & Hres & Hvisits & _);
      pose proof (batch_loop_counters (devices config) n 0 (mkMem v h0))
        as Hagree
  end.
  rewrite Hloop in *. cbn [snd locals results fresh_batch app] in Hres, Hagree.
  destruct Hagree as [Hs Hf]; [split; reflexivity |].
  match goal with
  | |- context [report W ?t ?devs s1] =>
      destruct (report_prints_counters t devs s1)
        as (s2 & Hreport & Hlocals & Hin1 & Hin2)
  end.
  rewrite Hreport. cbn [locals history].
  exists rs. eexists. split; [rewrite Hlocals, Hres; reflexivity |].
  cbn [locals history]. rewrite Hlocals. rewrite Hs, Hf, Hres in *.
  split; [reflexivity |]. split; [reflexivity |].
  split; [| split; assumption].
  apply visits_length in Hvisits. rewrite Nat.sub_0_r in Hvisits.
  rewrite <- Hvisits. clear. induction rs as [| r rs IH]; [reflexivity |].
  cbn [filter]. destruct (success r); cbn [negb List.length]; lia.
Qed.

End AnyRunner.

(** X15.  When the batch ends, its success counter is the number of
    successful results in the list it returns, its failure counter the
    number of failed ones, together they count the configured devices, and
    these are the two numbers the summary prints.  This holds for any
    runner that throws errors only, and for the flow as the runner, whatever
    the provider does. *)
Theorem batch_counters_match_results (h : History) :
  (forall run : string -> M unit RunResult,
     (forall deviceName, throws_errors (run deviceName)) ->
     exists rs s',
       batch W config run (mkMem fresh_batch h) = (Returns rs, s')
       /\ successCount (locals s') = List.length (filter success rs)
       /\ failureCount (locals s')
          = List.length (filter (fun r => negb (success r)) rs)
       /\ (successCount (locals s') + failureCount (locals s')
           = List.length (devices config))%nat
       /\ In (ConsoleLog (" Success: "
                          ++ show_nat (List.length (filter success rs))))
             (history s')
       /\ In (ConsoleLog (" Failure: "
                          ++ show_nat (List.length
                                         (filter (fun r => negb (success r)) rs))))
             (history s'))
  /\ exists rs s',
       batch W config (runPlayStoreDownloadFlow W config) (mkMem fresh_batch h)
       = (Returns rs, s')
       /\ successCount (locals s') = List.length (filter success rs)
       /\ failureCount (locals s')
          = List.length (filter (fun r => negb (success r)) rs)
       /\ (successCount (locals s') + failureCount (locals s')
           = List.length (devices config))%nat
       /\ In (ConsoleLog (" Success: "
                          ++ show_nat (List.length (filter success rs))))
             (history s')
       /\ In (ConsoleLog (" Failure: "
                          ++ show_nat (List.length
                                         (filter (fun r => negb (success r)) rs))))
             (history s').
Proof.
  split.
  - intros run Hrun. apply batch_counters. exact Hrun.
  - apply batch_counters. intros deviceName. apply run_throws_errors.
Qed.

End BatchCounters.

(** A runner that throws [null]: the handler of the loop throws when it
    reads the message, and the batch ends there, after one device. *)
Example batch_ends_when_the_runner_throws_null :
  fst (runAllDevices_with happy_world DEFAULT_CONFIG
         (fun deviceName s => (Throws (NullishValue JsNull), s)) (start tt))
  = Throws (mkError "Cannot read properties of null (reading 'message')").
Proof. vm_compute. reflexivity. Qed.

(** ** The whole script without credentials *)

Section ScriptWithoutCredentials.

Variable W : World.

Hypothesis missing :
  truthy_opt (LT_USERNAME W) = false \/ truthy_opt (LT_ACCESS_KEY W) = false.

(** A run without credentials fails without a call to the provider. *)
Lemma run_without_credentials (config : ConfigObject) deviceName L (s : Mem L) :
  exists r evs,
    runPlayStoreDownloadFlow W config deviceName s
    = (Returns r, mkMem (locals s) (evs ++ history s))
    /\ success r = false
    /\ forallb no_call evs = true.
Proof.
  unfold runPlayStoreDownloadFlow, invoke, flow. run_step.
  unfold flow_try. run_step.
  rewrite (open_session_without_credentials W _ _ missing).
  unfold flow_catch. run_step. cbn [message].
  rewrite error_hint_credentials. unfold flow_finally. run_step.
  cbn [driver fresh_vars].
  eexists _, [_; _; _; _]. repeat split.
Qed.

Lemma run_without_credentials_calls_nothing (config : ConfigObject) deviceName L :
  emits_only no_call (@runPlayStoreDownloadFlow W config L deviceName).
Proof.
  intros s.
  destruct (run_without_credentials config deviceName L s)
    as (r & evs & Hrun & _ & Hev).
  exists evs. rewrite Hrun. split; [reflexivity | exact Hev].
Qed.

Lemma batch_without_credentials_calls_nothing (config : ConfigObject) L :
  emits_only no_call (@runAllDevices W config L).
Proof.
  unfold runAllDevices, runAllDevices_with, batch, report, batch_step,
         new_Date_toLocaleDateString.
  destruct (devices_or_default (the_devices config));
    footprint_using
      ltac:(idtac; lazymatch goal with
            | |- emits_only _ (runPlayStoreDownloadFlow _ _ _) =>
                apply run_without_credentials_calls_nothing
            end).
Qed.

Lemma script_without_credentials_calls_nothing : emits_only no_call (script W).
Proof.
  unfold script. apply eo_bind.
  - unfold load_config, require_config_module, exported_object.
    apply eo_try_catch; [| footprint].
    apply eo_bind; [intros s; exists []; split; reflexivity |].
    intros exported. apply eo_bind; [footprint |]. intros _.
    apply eo_bind; [destruct exported; footprint |].
    footprint.
  - intros config. unfold main, main_with. apply eo_bind.
    + unfold banner, new_Date_toLocaleDateString, new_Date_toLocaleTimeString.
      footprint.
    + intros _. apply eo_try_catch; [| footprint].
      apply eo_try_catch; [| footprint].
      apply eo_bind; [apply batch_without_credentials_calls_nothing |].
      footprint.
Qed.

(** No entry of the batch is a success. *)
Lemma visits_all_fail (config : ConfigObject) devs i h rs h' :
  visits (runPlayStoreDownloadFlow W config) devs i h rs h' ->
  existsb success rs = false.
Proof.
  induction 1 as [h | i h before r rs h' Hi Hbefore Hr Hrest IH]; [reflexivity |].
  cbn [existsb]. rewrite IH, orb_false_r.
  destruct (run_without_credentials config (nth i devs EmptyString) unit
              (mkMem tt (before ++ h))) as (r' & evs & Hrun & Hfail & _).
  rewrite Hrun in Hr. cbn [fst recorded] in Hr. subst r. exact Hfail.
Qed.

(** X16.  When a credential is missing, the script run as the main module
    makes not a single call to the provider and exits with code 1, whatever
    the configuration module holds. *)
Theorem script_without_credentials_exits_1 (s : Mem unit) :
  exists s',
    script W s = (Returns 1%Z, s')
    /\ calls_of (history s') = calls_of (history s).
Proof.
  destruct (script_without_credentials_calls_nothing s) as (evs & Hh & Hev).
  assert (Hcode : exists s', script W s = (Returns 1%Z, s')).
  { unfold script. unfold bind at 1.
    destruct (load_config_never_throws W unit s) as (cfg & s1 & Hload).
    rewrite Hload.
    destruct (main_exit_code W unit (runAllDevices W cfg) s1)
      as (code & s' & Hmain & Hcode).
    unfold main. rewrite Hmain. exists s'. f_equal. f_equal.
    destruct (devices_or_default (the_devices cfg)) as [| devs | |] eqn:Hdevices.
    4: { revert Hcode. unfold runAllDevices, runAllDevices_with, invoke, batch.
         rewrite Hdevices. run_step. auto. }
    3: { revert Hcode. unfold runAllDevices, runAllDevices_with, invoke, batch.
         rewrite Hdevices. run_step. auto. }
    1: { revert Hcode. unfold runAllDevices, runAllDevices_with, invoke, batch.
         rewrite Hdevices. run_step. auto. }
    destruct (batch_of_flows W cfg devs unit (snd (banner W s1)) Hdevices)
      as (rs & s3 & h & after & Hrun & _ & _ & _ & Hvisits & _).
    rewrite Hrun in Hcode. rewrite (visits_all_fail cfg _ _ _ _ _ Hvisits) in Hcode.
    exact Hcode. }
  destruct Hcode as (s' & Hcode). exists s'. split; [exact Hcode |].
  rewrite Hcode in Hh. cbn [snd] in Hh.
  rewrite Hh, calls_of_app, (no_call_events evs Hev). reflexivity.
Qed.

End ScriptWithoutCredentials.

Lemma script_without_credentials_exits_1_witness :
  exists s',
    script no_credentials_world (start tt) = (Returns 1%Z, s')
    /\ calls_of (history s') = calls_of (history (start tt)).
Proof.
  apply (script_without_credentials_exits_1 no_credentials_world).
  left. reflexivity.
Defined.

(** ** The access key on the console *)

Section Substrings.

Local Open Scope string_scope.

Lemma append_assoc (a b c : string) : (a ++ b) ++ c = a ++ b ++ c.
Proof. induction a as [| x a IH]; [reflexivity |]. cbn. rewrite IH. reflexivity. Qed.

Lemma append_nil_r (a : string) : a ++ EmptyString = a.
Proof. induction a as [| x a IH]; [reflexivity |]. cbn. rewrite IH. reflexivity. Qed.

Lemma contains_refl s : contains s s.
Proof. exists EmptyString, EmptyString. rewrite append_nil_r. reflexivity. Qed.

Lemma contains_trans s t u : contains s t -> contains t u -> contains s u.
Proof.
  intros (p1 & q1 & ->) (p2 & q2 & ->).
  exists (p1 ++ p2), (q2 ++ q1). rewrite !append_assoc. reflexivity.
Qed.

Lemma contains_append_l s t x : contains t x -> contains (s ++ t) x.
Proof.
  intros (p & q & ->). exists (s ++ p), q. rewrite !append_assoc. reflexivity.
Qed.

Lemma contains_append_r s t x : contains s x -> contains (s ++ t) x.
Proof.
  intros (p & q & ->). exists p, (q ++ t). rewrite !append_assoc. reflexivity.
Qed.

Lemma join_contains (xs : list string) sep x :
  In x xs -> contains (join xs sep) x.
Proof.
  unfold join. induction xs as [| y ys IH]; [intros [] |].
  intros [-> | Hin].
  - destruct ys; cbn [String.concat];
      [apply contains_refl | apply contains_append_r, contains_refl].
  - destruct ys as [| z zs]; [destruct Hin |]. cbn [String.concat].
    apply contains_append_l, contains_append_l. apply IH. exact Hin.
Qed.

(** An object is printed with each of its properties in it. *)
Lemma stringify_contains_field indent fields key v :
  In (key, v) fields ->
  contains (stringify_at indent (JObject fields))
           (json_quote key ++ ": " ++ stringify_at (indent ++ "  ") v).
Proof.
  intros Hin. destruct fields as [| f fields]; [destruct Hin |].
  cbn [stringify_at].
  apply contains_append_l, contains_append_l, contains_append_r.
  eapply contains_trans.
  - apply join_contains.
    apply (in_map (fun kv => (indent ++ "  ") ++ json_quote (fst kv) ++ ": "
                             ++ stringify_at (indent ++ "  ") (snd kv))).
    exact Hin.
  - cbn [fst snd]. apply contains_append_l, contains_refl.
Qed.

Lemma json_escape_plain s :
  string_forallb plain_char s = true -> json_escape_all s = s.
Proof.
  induction s as [| c s IH]; [reflexivity |].
  cbn [string_forallb json_escape_all]. intros H.
  apply andb_prop in H as [Hc Hs]. rewrite (IH Hs).
  revert Hc. destruct c as [[] [] [] [] [] [] [] []]; vm_compute;
    first [reflexivity | discriminate].
Qed.

(** The capabilities are printed with the access key in them. *)
Lemma capabilities_line_contains_key deviceName username accessKey now :
  contains (JSON_stringify_2
              (json_of_Capabilities
                 (capabilities_for deviceName username accessKey now)))
           (json_quote "accessKey" ++ ": " ++ json_quote accessKey).
Proof.
  unfold JSON_stringify_2, json_of_Capabilities.
  eapply contains_trans.
  - apply stringify_contains_field with (key := "LT:Options").
    cbn [In]. do 4 right. left. reflexivity.
  - apply contains_append_l, contains_append_l.
    unfold json_of_LTOptions.
    apply (stringify_contains_field _ _ "accessKey" (JString accessKey)).
    cbn [In app LT_Options capabilities_for lt_accessKey]. right. left. reflexivity.
Qed.

End Substrings.

Section AccessKey.

Variable W : World.
Variable config : ConfigObject.

Lemma open_session_prints deviceName username accessKey (s : Mem FlowVars) :
  present (LT_USERNAME W) = Some username ->
  present (LT_ACCESS_KEY W) = Some accessKey ->
  exists now later,
    history (snd (open_session W deviceName s))
    = later
      ++ Called (Remote (remote_options
                           (capabilities_for deviceName username accessKey now)))
      :: ConsoleLog (" Device capabilities: "
                     ++ JSON_stringify_2
                          (json_of_Capabilities
                             (capabilities_for deviceName username accessKey now)))
      :: DateNow
      :: ConsoleLog (" Access Key: " ++ slice0 accessKey 10 ++ "...")
      :: ConsoleLog ("User: " ++ username)
      :: ConsoleLog (" Starting test on: " ++ deviceName)
      :: history s.
Proof.
  intros Hu Hk. unfold open_session. rewrite Hu, Hk. run_step.
  eexists.
  repeat ask; cbn [snd history];
    match goal with
    | |- exists later, ?h = _ => let l := before_remote h in exists l
    end; reflexivity.
Qed.

(** Whatever follows the session phase only adds to the history. *)
Lemma run_extends_session_history deviceName L (s : Mem L) :
  exists evs,
    history (snd (runPlayStoreDownloadFlow W config deviceName s))
    = evs ++ history (snd (open_session W deviceName (entry s))).
Proof.
  rewrite run_shape. cbn [snd history].
  assert (Hs1 : exists evs,
             history (snd (protected_part W config deviceName s))
             = evs ++ history (snd (open_session W deviceName (entry s)))).
  { unfold protected_part, try_catch, flow_try. unfold bind at 1.
    destruct (open_session W deviceName (entry s)) as [[ds | e] so]; cbn [snd].
    - match goal with
      | |- context [?m so] =>
          lazymatch m with
          | bind _ _ =>
              assert (Hrest : emits_only anything m)
                by (cbn zeta;
                    unfold find_search_box, type_query, select_app,
                           install_or_open, conclude, scan, attempt;
                    footprint);
              destruct (Hrest so) as (evs & Hh & _);
              destruct (m so) as [[r0 | err] s2]
          end
      end; cbn [snd] in Hh.
      + exists evs. exact Hh.
      + assert (Hc : emits_only anything
                       (flow_catch W deviceName (clock W (history s)) err))
          by (unfold flow_catch; footprint).
        destruct (Hc s2) as (evs' & Hh' & _).
        exists (evs' ++ evs). rewrite Hh', Hh, app_assoc.
        reflexivity.
    - assert (Hc : emits_only anything
                     (flow_catch W deviceName (clock W (history s)) e))
        by (unfold flow_catch; footprint).
      destruct (Hc so) as (evs' & Hh' & _).
      exists evs'. exact Hh'. }
  destruct Hs1 as (evs & Hh). rewrite Hh. eexists. rewrite app_assoc. reflexivity.
Qed.

(** X17.  With both credentials set, a run prints the access key twice:
    once cut to its first ten characters, and once in full, inside the
    printed capabilities (as JSON.stringify quotes it, which for a key of
    plain characters is the key itself between double quotes). *)
Theorem access_key_is_printed_in_full deviceName username accessKey L
    (s : Mem L) :
  present (LT_USERNAME W) = Some username ->
  present (LT_ACCESS_KEY W) = Some accessKey ->
  exists line,
    In (ConsoleLog (" Access Key: " ++ slice0 accessKey 10 ++ "..."))
       (history (snd (runPlayStoreDownloadFlow W config deviceName s)))
    /\ In (ConsoleLog line)
          (history (snd (runPlayStoreDownloadFlow W config deviceName s)))
    /\ contains line (json_quote accessKey)
    /\ (string_forallb plain_char accessKey = true ->
        contains line (dquote ++ accessKey ++ dquote)).
Proof.
  intros Hu Hk.
  destruct (run_extends_session_history deviceName L s) as (evs & Hrun).
  destruct (open_session_prints deviceName username accessKey (entry s) Hu Hk)
    as (now & later & Hopen).
  rewrite Hrun, Hopen.
  eexists. split; [| split; [| split]].
  - apply in_or_app. right. apply in_or_app. right.
    cbn [In]. do 3 right. left. reflexivity.
  - apply in_or_app. right. apply in_or_app. right.
    cbn [In]. right. left. reflexivity.
  - apply contains_append_l.
    eapply contains_trans; [apply capabilities_line_contains_key |].
    apply contains_append_l, contains_append_l, contains_refl.
  - intros Hplain. apply contains_append_l.
    eapply contains_trans; [apply capabilities_line_contains_key |].
    apply contains_append_l, contains_append_l.
    unfold json_quote. rewrite (json_escape_plain accessKey Hplain).
    apply contains_refl.
Qed.

End AccessKey.

Lemma access_key_is_printed_in_full_witness :
  exists line,
    In (ConsoleLog (" Access Key: " ++ slice0 "0123456789abcdef" 10 ++ "..."))
       (history (snd (runPlayStoreDownloadFlow happy_world DEFAULT_CONFIG
                        "Pixel 7" (start tt))))
    /\ In (ConsoleLog line)
          (history (snd (runPlayStoreDownloadFlow happy_world DEFAULT_CONFIG
                           "Pixel 7" (start tt))))
    /\ contains line (json_quote "0123456789abcdef")
    /\ (string_forallb plain_char "0123456789abcdef" = true ->
        contains line (dquote ++ "0123456789abcdef" ++ dquote)).
Proof.
  apply (access_key_is_printed_in_full happy_world DEFAULT_CONFIG "Pixel 7"
           "alice" "0123456789abcdef" unit (start tt));
    reflexivity.
Defined.
